(** * Creative Cloner: the orchestration core of the pipeline tools

    A shallow embedding of [tools/generate_images.py],
    [tools/generate_videos.py], [tools/combine_all.py] and
    [tools/create_prompts.py], followed by the properties of the design
    document that were checked against it.

    Conventions of the embedding.
    - A Python [str] is a [string]; its characters are modelled as the 256
      values of [ascii] (the tools only inspect the full stop, white space,
      ASCII digits and the letters of the word scene). Pictographs in
      console and error messages are left out of the message texts.
    - A Python [int] is a [Z]; [len] returns a [Z].
    - A Python [dict] keyed by strings is a [gmap string _].
    - A raised exception is a value of [exn]; a call that may raise returns
      a [result].
    - The effects of a [main] (store and provider calls, sleeps, files,
      plan and summary lines) are recorded as a list of [event]s; what the
      outside world answers is an explicit [world] argument.
    - Amounts of money are exact, in thousandths of a dollar. *)

From Stdlib Require Import ZArith Lia List Ascii String Bool Sorting.Sorted
  Sorting.Permutation Numbers.DecimalString.
From stdpp Require Import base option gmap strings.

Import ListNotations.

Local Open Scope string_scope.

(** String concatenation unfolds on a literal first operand. *)
#[local] Arguments String.append !s1 s2 : simpl nomatch.

(** ** Python strings *)

Module Py.

(** [len(s)] *)
Definition len (s : string) : Z := Z.of_nat (String.length s).

(** Characters for which [str.isspace] holds, among the code points
    below 256: TAB, LF, VT, FF, CR, FS, GS, RS, US, the space, NEL (133)
    and the no-break space (160). The class [\s] is the same. *)
Definition isspace (c : ascii) : bool :=
  let n := nat_of_ascii c in
  ((9 <=? n) && (n <=? 13) || (28 <=? n) && (n <=? 32)
   || (n =? 133) || (n =? 160))%nat.

(** The regular expression class [\d], within ASCII. *)
Definition isdigit (c : ascii) : bool :=
  let n := nat_of_ascii c in ((48 <=? n) && (n <=? 57))%nat.

(** [c.lower()] on one character, among the code points below 256: the
    capitals A to Z, and 192 to 222 but for the multiplication sign. *)
Definition lower_char (c : ascii) : ascii :=
  let n := nat_of_ascii c in
  if ((65 <=? n) && (n <=? 90)
      || (192 <=? n) && (n <=? 222) && negb (n =? 215))%nat
  then ascii_of_nat (n + 32) else c.

(** [s.lower()] *)
Fixpoint lower (s : string) : string :=
  match s with
  | EmptyString => EmptyString
  | String c r => String (lower_char c) (lower r)
  end.

(** [s.lstrip()] *)
Fixpoint lstrip (s : string) : string :=
  match s with
  | EmptyString => EmptyString
  | String c r => if isspace c then lstrip r else s
  end.

(** [s.rstrip()] *)
Fixpoint rstrip (s : string) : string :=
  match s with
  | EmptyString => EmptyString
  | String c r =>
      match rstrip r with
      | EmptyString => if isspace c then EmptyString else String c EmptyString
      | r' => String c r'
      end
  end.

(** [s.strip()] *)
Definition strip (s : string) : string := rstrip (lstrip s).

(** The first [n] characters of [s]. *)
Fixpoint take (n : nat) (s : string) : string :=
  match n, s with
  | O, _ => EmptyString
  | S _, EmptyString => EmptyString
  | S k, String c r => String c (take k r)
  end.

(** The slice [s[:k]]: a negative [k] counts from the end. *)
Definition slice_to (s : string) (k : Z) : string :=
  if (0 <=? k)%Z then take (Z.to_nat k) s
  else take (Z.to_nat (len s + k)) s.

(** [s.split(sep)] for a one-character separator: the pieces between
    the separators, empty pieces included; never an empty list. *)
Fixpoint split (sep : ascii) (s : string) : list string :=
  match s with
  | EmptyString => [EmptyString]
  | String c r =>
      if Ascii.eqb c sep then EmptyString :: split sep r
      else match split sep r with
           | [] => [String c EmptyString]
           | p :: ps => String c p :: ps
           end
  end.

(** Truth value of a string: [not s] holds for the empty string only. *)
Definition truthy (s : string) : bool :=
  match s with EmptyString => false | _ => true end.

(** [needle in hay] *)
Fixpoint contains (needle hay : string) : bool :=
  String.prefix needle hay ||
  match hay with
  | EmptyString => false
  | String _ r => contains needle r
  end.

(** [s.endswith(suffix)] *)
Fixpoint endswith (suffix s : string) : bool :=
  String.eqb s suffix ||
  match s with
  | EmptyString => false
  | String _ r => endswith suffix r
  end.

(** [s.replace(a, b)] for single characters. *)
Fixpoint replace_char (a b : ascii) (s : string) : string :=
  match s with
  | EmptyString => EmptyString
  | String c r => String (if Ascii.eqb c a then b else c) (replace_char a b r)
  end.

(** [a < b] on strings: lexicographic, by character code. *)
Fixpoint str_lt (a b : string) : bool :=
  match a, b with
  | _, EmptyString => false
  | EmptyString, String _ _ => true
  | String x a', String y b' =>
      let m := nat_of_ascii x in
      let n := nat_of_ascii y in
      if (m <? n)%nat then true
      else if (n <? m)%nat then false
      else str_lt a' b'
  end.

(** [str(n)] for an integer. *)
Definition str_of_int (n : Z) : string :=
  NilEmpty.string_of_int (Z.to_int n).

(** [int(digits)] for a non-empty run of ASCII digits. *)
Fixpoint int_of_digits (acc : Z) (digits : string) : Z :=
  match digits with
  | EmptyString => acc
  | String c r => int_of_digits (10 * acc + (Z.of_nat (nat_of_ascii c) - 48)) r
  end.

(** The line feed of a triple-quoted literal. *)
Definition nl : string := String (ascii_of_nat 10) EmptyString.

(** Exception classes the tools raise or let through. *)
Inductive exn_class : Set :=
| Exception | TimeoutError | TypeError | KeyError | JSONDecodeError
| AttributeError.

Record exn : Set := mk_exn { exn_type : exn_class; exn_msg : string }.

(** What a call produces: a value, or a raised exception. *)
Inductive result (A : Type) : Type :=
| Ok (a : A)
| Raise (e : exn).

Arguments Ok {A} a.
Arguments Raise {A} e.

#[global] Instance result_ret : MRet result := fun A a => Ok a.

#[global] Instance result_bind : MBind result := fun A B k r =>
  match r with
  | Ok a => k a
  | Raise e => Raise e
  end.

End Py.

Import Py (result, Ok, Raise, exn, mk_exn, exn_type, exn_msg, nl).
Import Py (Exception, TimeoutError, TypeError, KeyError, JSONDecodeError).
Import Py (AttributeError).

(** ** The Scenes table of the record store *)

Module Airtable.

(** A field of a row: text, or a list of attachments; an attachment is
    the object Airtable returns, with its [url] among its keys. *)
Inductive value : Type :=
| Text (s : string)
| Attachments (l : list (gmap string string)).

(** Truth value of a field, as [and] and [not] see it. *)
Definition truthy (v : value) : bool :=
  match v with
  | Text s => Py.truthy s
  | Attachments l => negb (bool_decide (l = []))
  end.

(** A row as the client returns it: [record['id']], [record['fields']]. *)
Record record : Type := { id : string; fields : gmap string value }.

(** [fields.get(key, default)] for the text columns of the table
    ([scene], [start_image_prompt], [video_prompt]), which hold strings. *)
Definition get_text (fields : gmap string value) (key default : string)
  : string :=
  match fields !! key with
  | Some (Text s) => s
  | _ => default
  end.

(** The filter formula of [table.all]: rows of one project. *)
Definition project_formula (project_name : string) : string :=
  "{Project Name}='" ++ project_name ++ "'".

End Airtable.

(** ** The generation provider *)

Module Kie.

(** [resultJson], decoded by [json.loads]: malformed, decoded to
    something that is no object (the text is that of the
    [AttributeError] its [.get] raises), or an object whose [resultUrls]
    (default: the empty list) is given. *)
Inductive result_json : Type :=
| Malformed (msg : string)
| NoObject (msg : string)
| Decoded (resultUrls : list string).

(** [data] of a status reply. *)
Record task_data : Type := {
  state : option string;
  resultJson : result_json;
  failMsg : option string;
  failCode : option string
}.

(** What the status request gives. [GetFailed]: the request, or the
    decoding of a body that is no JSON, raised a [RequestException]
    (the [JSONDecodeError] of [response.json()] is one since requests
    2.27). [GotNull]: a
    reply whose body is JSON but holds no object under [data] ([null], a
    list, a string), or is no object itself; the text is that of the
    [AttributeError] that [.get] raises on it. [Got]: a reply with its
    [data] object. *)
Inductive poll_reply : Type :=
| GetFailed (msg : string)
| GotNull (status_code : Z) (msg : string)
| Got (status_code : Z) (data : task_data).

(** One turn of the polling loop as the outside world shapes it: the
    reply, the time the request took and the time the following sleep
    overran, both in clock ticks. *)
Record exchange : Type := {
  reply : poll_reply;
  latency : Z;
  oversleep : Z
}.

(** The body of a reply to [createTask], as far as the tools read it. *)
Inductive task_body : Type :=
| BadJson (msg : string)
| EmptyBody
| NoData
| NoTaskId
| TaskId (task_id : string).

(** What [requests.post] on [createTask] gives. *)
Inductive task_reply : Type :=
| PostFailed (msg : string)
| Posted (status_code : Z) (text : string) (body : task_body).

(** The part of [create_image_generation_task] and
    [create_video_generation_task] after the request, the same text in
    both tools: a [RequestException] is re-raised as a network error,
    every other exception raised inside the [try] is re-raised as a
    failure to create the task. A body that is no JSON makes
    [response.json()] raise a [RequestException] (since requests 2.27);
    an empty [taskId] counts as none. *)
Definition task_id_of_reply (r : task_reply) : result string :=
  let failed (msg : string) : result string :=
    Raise (mk_exn Exception ("Failed to create task: " ++ msg)) in
  match r with
  | PostFailed msg => Raise (mk_exn Exception ("Network error: " ++ msg))
  | Posted status_code text body =>
      if (status_code =? 402)%Z then
        failed "Insufficient credits! Please add credits to your Kie.ai account."
      else if (status_code =? 422)%Z then
        failed ("Invalid parameters: " ++ text)
      else if (status_code =? 429)%Z then
        failed "Rate limited! Please wait a moment and try again."
      else if negb (status_code =? 200)%Z then
        failed ("Task creation failed: " ++ Py.str_of_int status_code
                ++ " - " ++ text)
      else
        match body with
        | BadJson msg => Raise (mk_exn Exception ("Network error: " ++ msg))
        | EmptyBody => failed "Empty response from API"
        | NoData => failed ("No 'data' field in response: " ++ text)
        | NoTaskId => failed ("No taskId in response data: " ++ text)
        | TaskId task_id =>
            if Py.truthy task_id then Ok task_id
            else failed ("No taskId in response data: " ++ text)
        end
  end.

End Kie.

(** ** Prompt truncation *)

Module Truncate.

(** The [for sentence in sentences] loop: [truncated] grows by whole
    sentences while it stays within [max_length - 50]; the first
    sentence that does not fit ends the loop. *)
Fixpoint accumulate (sentences : list string) (truncated : string)
    (max_length : Z) : string :=
  match sentences with
  | [] => truncated
  | sentence :: rest =>
      if (Py.len truncated + Py.len sentence + 1 <=? max_length - 50)%Z
      then accumulate rest (truncated ++ sentence ++ ".") max_length
      else truncated
  end.

(** [truncate_prompt(prompt, max_length)]: the two tools carry the same
    body and differ in the default of [max_length] only. *)
Definition truncate_prompt (prompt : string) (max_length : Z) : string :=
  if (Py.len prompt <=? max_length)%Z then prompt
  else
    let sentences := Py.split "." prompt in
    let truncated := accumulate sentences "" max_length in
    let truncated :=
      if negb (Py.truthy truncated) || (Py.len truncated <? 50)%Z
      then Py.slice_to prompt (max_length - 3) ++ "..."
      else truncated in
    Py.strip truncated.

End Truncate.

(** ** What a stage does to the outside world *)

Module Effects.

(** The [input] object of an image task. *)
Record image_input : Type := {
  ii_prompt : string;
  ii_aspect_ratio : string;
  ii_resolution : option string;
  ii_output_format : option string;
  ii_image_input : option (list string)
}.

(** The [input] object of a video task. *)
Record video_input : Type := {
  vi_prompt : string;
  vi_image_urls : list string;
  vi_aspect_ratio : string;
  vi_n_frames : string;
  vi_remove_watermark : bool;
  vi_upload_method : string
}.

Inductive event : Type :=
| TableAll (formula : string)
| TableCreate (fields : gmap string Airtable.value)
| TableUpdate (record_id : string) (fields : gmap string Airtable.value)
| Input
| UploadReference (path : string)
| CreateImageTask (model : string) (input : image_input)
| CreateVideoTask (model : string) (input : video_input)
| PollTask (task_id : string)
| Download (url path : string)
| Sleep (seconds : Z)
| SceneBanner (i n : Z) (scene_name : string)
| Skipped (i : Z)
| Failed (i : Z) (e : exn)
| NoResultUrls (i : Z)
| PlanEntry (i : Z) (record_id : string) (scene_name : string)
| Summary (successful failed cost : Z).

(** Calls to the generation provider and to the hosts of its results. *)
Definition remote_call (e : event) : bool :=
  match e with
  | UploadReference _ | CreateImageTask _ _ | CreateVideoTask _ _
  | PollTask _ | Download _ _ => true
  | _ => false
  end.

(** Calls that change the record store. *)
Definition store_write (e : event) : bool :=
  match e with
  | TableCreate _ | TableUpdate _ _ => true
  | _ => false
  end.

Definition plan_entry (e : event) : bool :=
  match e with PlanEntry _ _ _ => true | _ => false end.

(** How a [main] ends: [sys.exit(code)] (a plain [return] is code 0), or
    an exception nobody caught. *)
Inductive ending : Type :=
| Exit (code : Z)
| Uncaught (e : exn).

(** The configuration [load_config] builds from the environment. *)
Record config : Type := {
  kie_api_key : string;
  airtable_token : string;
  airtable_base_id : string
}.

(** [os.getenv(a) or os.getenv(b)] *)
Definition getenv_or (environ : gmap string string) (a b : string)
  : option string :=
  match environ !! a with
  | Some v => if Py.truthy v then Some v else environ !! b
  | None => environ !! b
  end.

(** [load_config]: the three settings, or [None] where the tool prints
    what is missing and leaves with [sys.exit(1)]. *)
Definition load_config (environ : gmap string string) : option config :=
  match environ !! "KIE_API_KEY",
        getenv_or environ "AIRTABLE_API_TOKEN" "AIRTABLE_API_KEY",
        environ !! "AIRTABLE_BASE_ID" with
  | Some k, Some t, Some b =>
      if Py.truthy k && Py.truthy t && Py.truthy b
      then Some {| kie_api_key := k; airtable_token := t;
                   airtable_base_id := b |}
      else None
  | _, _, _ => None
  end.

End Effects.

(** What the outside world answers to a stage. Answers that may change
    from one scene to the next are indexed by the scene's position [i] in
    the batch (counted from 1, as [enumerate(scenes, 1)] does). *)
Module World.

Record world : Type := {
  (** the process environment after [load_dotenv] *)
  environ : gmap string string;
  (** [table.all(formula=...)] *)
  table_all : string -> list Airtable.record;
  (** the row [table.create(fields)] returns *)
  table_create : gmap string Airtable.value -> Airtable.record;
  (** [table.update]: [None] when it returns, the error text when it raises *)
  table_update : Z -> string -> option string;
  (** what the operator types at the approval prompt *)
  typed : string;
  (** [inputs_dir.glob(pattern)] *)
  inputs_glob : string -> list string;
  (** [upload_reference_image_to_kie(path, key)] *)
  upload : string -> result string;
  (** the reply to the [createTask] request of scene [i] *)
  task_reply_of : Z -> Kie.task_reply;
  (** [poll_task_status(task_id, key)] for scene [i] *)
  poll_outcome : Z -> string -> result (list string);
  (** [download_video]: [None] when it returns, the error text when it raises *)
  download_outcome : Z -> option string
}.

End World.

(** ** tools/generate_images.py *)

Module GenerateImages.

Import Effects World.

Inductive model_choice : Set := z_image | nano_banana_pro.

Definition model_key (m : model_choice) : string :=
  match m with
  | z_image => "z-image"
  | nano_banana_pro => "nano-banana-pro"
  end.

Record model_config : Type := {
  name : string;
  cost : Z;
  supports_image_input : bool;
  supports_resolution : bool;
  max_prompt_length : Z;
  default_resolution : option string;
  default_aspect_ratio : string
}.

(** [MODELS]; costs 0.004 and 0.09 dollars. *)
Definition MODELS (m : model_choice) : model_config :=
  match m with
  | z_image =>
      {| name := "z-image"; cost := 4;
         supports_image_input := false; supports_resolution := false;
         max_prompt_length := 1000; default_resolution := None;
         default_aspect_ratio := "1:1" |}
  | nano_banana_pro =>
      {| name := "nano-banana-pro"; cost := 90;
         supports_image_input := true; supports_resolution := true;
         max_prompt_length := 10000; default_resolution := Some "1K";
         default_aspect_ratio := "1:1" |}
  end.

Definition truncate_prompt := Truncate.truncate_prompt.

(** [create_image_generation_task], up to the request: the [input]
    object that is posted. *)
Definition task_input (prompt : string) (model_name : string)
    (model_config : model_config) (reference_image_url : option string)
    (aspect_ratio resolution : string) : image_input :=
  let max_prompt_length := max_prompt_length model_config in
  let prompt :=
    if (max_prompt_length <? Py.len prompt)%Z
    then truncate_prompt prompt max_prompt_length
    else prompt in
  if String.eqb model_name "nano-banana-pro" then
    {| ii_prompt := prompt; ii_aspect_ratio := aspect_ratio;
       ii_resolution :=
         if supports_resolution model_config then Some resolution else None;
       ii_output_format := Some "png";
       ii_image_input :=
         match reference_image_url with
         | Some url =>
             if Py.truthy url && supports_image_input model_config
             then Some [url] else None
         | None => None
         end |}
  else
    {| ii_prompt := prompt; ii_aspect_ratio := aspect_ratio;
       ii_resolution := None; ii_output_format := None;
       ii_image_input := None |}.

(** [create_image_generation_task]: the request and what comes back. *)
Definition create_image_generation_task (prompt model_name : string)
    (model_config : model_config) (reference_image_url : option string)
    (aspect_ratio resolution : string) (r : Kie.task_reply)
  : event * result string :=
  (CreateImageTask model_name
     (task_input prompt model_name model_config reference_image_url
        aspect_ratio resolution),
   Kie.task_id_of_reply r).

(** [state in ['waiting', 'queuing', 'generating']] *)
Definition pending (state : option string) : bool :=
  match state with
  | Some s => String.eqb s "waiting" || String.eqb s "queuing"
              || String.eqb s "generating"
  | None => false
  end.

Definition timeout_error (max_wait : Z) : exn :=
  mk_exn TimeoutError
    ("Task did not complete within " ++ Py.str_of_int max_wait ++ " seconds").

Definition generation_failed (data : Kie.task_data) : exn :=
  mk_exn Exception
    ("Generation failed [" ++ default "N/A" (Kie.failCode data) ++ "]: "
     ++ default "Unknown error" (Kie.failMsg data)).

Section Polling.

(** Clock ticks in a second: readings of [time.time()] are whole numbers
    of ticks. *)
Variable tps : Z.

(** The replies to the successive status requests, numbered like
    [poll_count]. *)
Variable env : nat -> Kie.exchange.

Variable max_wait : Z.
Variable start_time : Z.

(** The clock after [time.sleep(seconds)] during turn [x]. *)
Definition slept (seconds : Z) (x : Kie.exchange) (now : Z) : Z :=
  now + seconds * tps + Kie.oversleep x.

(** The [while] loop of [poll_task_status]. [now] is the clock when the
    loop condition is evaluated. The loop ends with what the function
    returns or raises, paired with the clock at that moment; [None] is
    a loop still running when [fuel] turns have been taken. *)
Fixpoint poll_loop (fuel : nat) (poll_count : nat) (now : Z)
  : option (result (list string) * Z) :=
  match fuel with
  | O => None
  | S fuel =>
      if (now - start_time <? max_wait * tps)%Z then
        let poll_count := S poll_count in
        let x := env poll_count in
        let now := (now + Kie.latency x)%Z in
        match Kie.reply x with
        | Kie.GetFailed _ => poll_loop fuel poll_count (slept 5 x now)
        | Kie.GotNull status_code msg =>
            if negb (status_code =? 200)%Z then
              poll_loop fuel poll_count (slept 5 x now)
            else Some (Raise (mk_exn AttributeError msg), now)
        | Kie.Got status_code data =>
            if negb (status_code =? 200)%Z then
              poll_loop fuel poll_count (slept 5 x now)
            else
              let state := Kie.state data in
              let elapsed := ((now - start_time) / tps)%Z in
              if bool_decide (state = Some "success") then
                match Kie.resultJson data with
                | Kie.Malformed msg =>
                    Some (Raise (mk_exn JSONDecodeError msg), now)
                | Kie.NoObject msg =>
                    Some (Raise (mk_exn AttributeError msg), now)
                | Kie.Decoded result_urls =>
                    if bool_decide (result_urls = []) then
                      Some (Raise (mk_exn Exception
                                     "No resultUrls in response"), now)
                    else Some (Ok result_urls, now)
                end
              else if bool_decide (state = Some "fail") then
                Some (Raise (generation_failed data), now)
              else if pending state then
                if (elapsed <? 30)%Z then
                  poll_loop fuel poll_count (slept 3 x now)
                else if (elapsed <? 120)%Z then
                  poll_loop fuel poll_count (slept 5 x now)
                else poll_loop fuel poll_count (slept 10 x now)
              else poll_loop fuel poll_count (slept 5 x now)
        end
      else Some (Raise (timeout_error max_wait), now)
  end.

End Polling.

(** [poll_task_status(task_id, api_key, max_wait=600)], entered when the
    clock reads [start_time]. *)
Definition poll_task_status (tps : Z) (env : nat -> Kie.exchange)
    (max_wait : Z) (start_time : Z) (fuel : nat)
  : option (result (list string) * Z) :=
  poll_loop tps env max_wait start_time fuel 0 start_time.

Definition default_max_wait : Z := 600.

(** [update_airtable_with_image] *)
Definition update_airtable_with_image (w : world) (i : Z)
    (record_id image_url field_name : string) : event * result unit :=
  (TableUpdate record_id
     {[ field_name := Airtable.Attachments [ {[ "url" := image_url ]} ] ]},
   match table_update w i record_id with
   | None => Ok tt
   | Some msg =>
       Raise (mk_exn Exception ("Failed to update Airtable: " ++ msg))
   end).

(** [get_scenes_from_airtable]: every row of the project. *)
Definition get_scenes_from_airtable (w : world) (project_name : string)
  : list Airtable.record :=
  table_all w (Airtable.project_formula project_name).

Record args : Type := {
  model : model_choice;
  reference_image : option string;
  aspect_ratio : option string;
  resolution : string;
  project_name : string;
  dry_run : bool;
  skip_approval : bool;
  test_mode : bool
}.

(** The counters of the generation loop and the effects so far. *)
Record tally : Type := {
  successful : Z;
  failed : Z;
  log : list event
}.

Definition logged (e : event) (t : tally) : tally :=
  {| successful := successful t; failed := failed t; log := log t ++ [e] |}.

Definition succeed (t : tally) : tally :=
  {| successful := successful t + 1; failed := failed t; log := log t |}.

Definition fail (t : tally) : tally :=
  {| successful := successful t; failed := failed t + 1; log := log t |}.

(** [a or b] on optional strings. *)
Definition str_or (a : option string) (b : string) : string :=
  match a with
  | Some s => if Py.truthy s then s else b
  | None => b
  end.

(** The [try] block of one turn of the generation loop. *)
Definition attempt (w : world) (a : args) (reference_image_url : option string)
    (i : Z) (record : Airtable.record) (prompt : string) (t : tally) : tally :=
  let model_config := MODELS (model a) in
  let '(ev, created) :=
    create_image_generation_task prompt (model_key (model a)) model_config
      reference_image_url
      (str_or (aspect_ratio a) (default_aspect_ratio model_config))
      (resolution a) (task_reply_of w i) in
  let t := logged ev t in
  match created with
  | Raise e => fail (logged (Failed i e) t)
  | Ok task_id =>
      let t := logged (PollTask task_id) t in
      match poll_outcome w i task_id with
      | Raise e => fail (logged (Failed i e) t)
      | Ok [] => fail (logged (NoResultUrls i) t)
      | Ok (url :: _) =>
          let '(ev, updated) :=
            update_airtable_with_image w i (Airtable.id record) url
              "start_image" in
          let t := logged ev t in
          match updated with
          | Raise e => fail (logged (Failed i e) t)
          | Ok _ => succeed t
          end
      end
  end.

(** One turn of [for i, record in enumerate(scenes, 1)]; [n] is
    [len(scenes)]. *)
Definition turn (w : world) (a : args) (reference_image_url : option string)
    (n i : Z) (record : Airtable.record) (t : tally) : tally :=
  let fields := Airtable.fields record in
  let scene_name :=
    Airtable.get_text fields "scene" ("Scene " ++ Py.str_of_int i) in
  let prompt := Airtable.get_text fields "start_image_prompt" "" in
  let t := logged (SceneBanner i n scene_name) t in
  if negb (Py.truthy prompt) then fail (logged (Skipped i) t)
  else
    let t := attempt w a reference_image_url i record prompt t in
    if (i <? n)%Z then logged (Sleep 2) t else t.

Fixpoint generation_loop (w : world) (a : args)
    (reference_image_url : option string) (n i : Z)
    (scenes : list Airtable.record) (t : tally) : tally :=
  match scenes with
  | [] => t
  | record :: rest =>
      generation_loop w a reference_image_url n (i + 1) rest
        (turn w a reference_image_url n i record t)
  end.

(** The dry-run listing: one entry for each scene. *)
Fixpoint plan (i : Z) (scenes : list Airtable.record) : list event :=
  match scenes with
  | [] => []
  | record :: rest =>
      PlanEntry i (Airtable.id record)
        (Airtable.get_text (Airtable.fields record) "scene" "N/A")
      :: plan (i + 1) rest
  end.

(** The fields of the row test mode creates. *)
Definition test_fields (project_name : string) : gmap string Airtable.value :=
  {[ "Project Name" := Airtable.Text ("TEST-" ++ project_name);
     "scene" := Airtable.Text "TEST - Simple workflow test";
     "start_image_prompt" :=
       Airtable.Text
         "A young man smiling at the camera, indoor setting, natural lighting";
     "video_prompt" := Airtable.Text "Test video prompt" ]}.

(** The scenes of the batch and the store calls made to get them;
    [None] for the scenes is [sys.exit(1)]. *)
Definition load_scenes (w : world) (a : args)
  : option (list Airtable.record) * list event :=
  if test_mode a then
    let formula := Airtable.project_formula ("TEST-" ++ project_name a) in
    let existing := table_all w formula in
    if negb (bool_decide (existing = [])) then (Some existing, [TableAll formula])
    else
      let test_record := table_create w (test_fields (project_name a)) in
      (Some [test_record],
       [TableAll formula; TableCreate (test_fields (project_name a))])
  else
    let scenes := get_scenes_from_airtable w (project_name a) in
    (if bool_decide (scenes = []) then None else Some scenes,
     [TableAll (Airtable.project_formula (project_name a))]).

(** [response not in ['yes', 'y']] after [strip().lower()] *)
Definition declined (typed : string) : bool :=
  let response := Py.lower (Py.strip typed) in
  negb (String.eqb response "yes" || String.eqb response "y").

(** The reference image: the one given, else the first image found in
    [inputs/] (not looked for in test mode). *)
Definition find_reference (w : world) (a : args) : option string :=
  let reference_image_path := reference_image a in
  if negb (Py.truthy (default "" reference_image_path)) && negb (test_mode a)
  then
    let image_files :=
      (inputs_glob w "*.jpg" ++ inputs_glob w "*.png"
       ++ inputs_glob w "*.jpeg")%list in
    let image_files :=
      List.filter (fun f => negb (Py.endswith ".mp4" f)) image_files in
    match image_files with
    | f :: _ => Some f
    | [] => reference_image_path
    end
  else reference_image_path.

(** The reference image is uploaded when there is one, except in test
    mode; a failed upload is reported and the batch goes on without. *)
Definition upload_reference (w : world) (a : args)
    (reference_image_path : option string) : option string * list event :=
  match reference_image_path with
  | Some path =>
      if Py.truthy path && negb (test_mode a) then
        (match upload w path with
         | Ok url => Some url
         | Raise _ => None
         end, [UploadReference path])
      else (None, [])
  | None => (None, [])
  end.

(** [main]: the effects of the run and how it ends. *)
Definition main (a : args) (w : world) : list event * ending :=
  match load_config (environ w) with
  | None => ([], Exit 1)
  | Some config =>
      let model_config := MODELS (model a) in
      let '(scenes, loaded) := load_scenes w a in
      match scenes with
      | None => (loaded, Exit 1)
      | Some scenes =>
          let n := Z.of_nat (length scenes) in
          let asked := negb (dry_run a) && negb (skip_approval a) in
          let prompted := if asked then (loaded ++ [Input])%list else loaded in
          if asked && declined (typed w) then (prompted, Exit 0)
          else
            let reference_image_path := find_reference w a in
            if dry_run a then ((prompted ++ plan 1 scenes)%list, Exit 0)
            else
              let '(reference_image_url, uploaded) :=
                upload_reference w a reference_image_path in
              let t :=
                generation_loop w a reference_image_url n 1 scenes
                  {| successful := 0; failed := 0;
                     log := (prompted ++ uploaded)%list |} in
              ((log t ++ [Summary (successful t) (failed t)
                            (successful t * cost model_config)])%list,
               Exit 0)
      end
  end.

End GenerateImages.

(** ** tools/generate_videos.py *)

Module GenerateVideos.

Import Effects World.

Inductive model_choice : Set := sora_2.

Definition model_key (m : model_choice) : string :=
  match m with sora_2 => "sora-2" end.

Record model_config : Type := {
  name : string;
  cost : Z;
  max_prompt_length : Z;
  default_aspect_ratio : string;
  default_duration : string;
  supports_watermark_removal : bool;
  frame_options : list string
}.

(** [MODELS]; cost 0.50 dollars. *)
Definition MODELS (m : model_choice) : model_config :=
  match m with
  | sora_2 =>
      {| name := "sora-2-image-to-video"; cost := 500;
         max_prompt_length := 10000; default_aspect_ratio := "landscape";
         default_duration := "10"; supports_watermark_removal := true;
         frame_options := ["10"; "15"] |}
  end.

(** ['key' in fields and fields['key']] *)
Definition present (fields : gmap string Airtable.value) (key : string)
  : bool :=
  match fields !! key with
  | Some v => Airtable.truthy v
  | None => false
  end.

(** The [for record in all_records] loop of [get_scenes_from_airtable]. *)
Fixpoint select (all_records scenes : list Airtable.record)
  : list Airtable.record :=
  match all_records with
  | [] => scenes
  | record :: rest =>
      let fields := Airtable.fields record in
      let has_image := present fields "start_image" in
      let has_video := present fields "scene_video" in
      if has_image && negb has_video
      then select rest (scenes ++ [record])
      else select rest scenes
  end.

(** [get_scenes_from_airtable]: the rows of the project that have a
    start image and no scene video. *)
Definition get_scenes_from_airtable (w : world) (project_name : string)
  : list Airtable.record :=
  let all_records := table_all w (Airtable.project_formula project_name) in
  if bool_decide (all_records = []) then []
  else select all_records [].

(** [get_image_url_from_record] *)
Definition get_image_url_from_record (record : Airtable.record)
  : result string :=
  let no_image := Raise (mk_exn Exception "No image found in start_image field") in
  match Airtable.fields record !! "start_image" with
  | None => no_image
  | Some (Airtable.Attachments []) => no_image
  | Some (Airtable.Attachments (first :: _)) =>
      match first !! "url" with
      | Some image_url => Ok image_url
      | None => Raise (mk_exn KeyError "'url'")
      end
  | Some (Airtable.Text s) =>
      if Py.truthy s
      then Raise (mk_exn TypeError "string indices must be integers")
      else no_image
  end.

Definition truncate_prompt := Truncate.truncate_prompt.

(** [create_video_generation_task], up to the request: the [input]
    object that is posted. *)
Definition task_input (prompt image_url : string)
    (model_config : model_config) (aspect_ratio n_frames : string)
    (remove_watermark : bool) : video_input :=
  let max_prompt_length := max_prompt_length model_config in
  let prompt :=
    if (max_prompt_length <? Py.len prompt)%Z
    then truncate_prompt prompt max_prompt_length
    else prompt in
  {| vi_prompt := prompt; vi_image_urls := [image_url];
     vi_aspect_ratio := aspect_ratio; vi_n_frames := n_frames;
     vi_remove_watermark := remove_watermark; vi_upload_method := "s3" |}.

(** [create_video_generation_task]: the request and what comes back. *)
Definition create_video_generation_task (prompt image_url model_name : string)
    (model_config : model_config) (aspect_ratio n_frames : string)
    (remove_watermark : bool) (r : Kie.task_reply) : event * result string :=
  (CreateVideoTask model_name
     (task_input prompt image_url model_config aspect_ratio n_frames
        remove_watermark),
   Kie.task_id_of_reply r).

Definition timeout_error (max_wait : Z) : exn :=
  mk_exn Exception
    ("Task did not complete within " ++ Py.str_of_int max_wait ++ "s timeout").

Definition generation_failed (data : Kie.task_data) : exn :=
  mk_exn Exception
    ("Generation failed: [" ++ default "N/A" (Kie.failCode data) ++ "] "
     ++ default "Unknown error" (Kie.failMsg data)).

Section Polling.

Variable tps : Z.
Variable env : nat -> Kie.exchange.
Variable max_wait : Z.
Variable start_time : Z.

Definition slept (seconds : Z) (x : Kie.exchange) (now : Z) : Z :=
  now + seconds * tps + Kie.oversleep x.

(** The [while] loop of [poll_task_status]; see the image tool for the
    reading of the arguments. [elapsed] is taken before the request. *)
Fixpoint poll_loop (fuel : nat) (poll_count : nat) (now : Z)
  : option (result (list string) * Z) :=
  match fuel with
  | O => None
  | S fuel =>
      if (now - start_time <? max_wait * tps)%Z then
        let poll_count := S poll_count in
        let elapsed := ((now - start_time) / tps)%Z in
        let x := env poll_count in
        let now := (now + Kie.latency x)%Z in
        match Kie.reply x with
        | Kie.GetFailed _ => poll_loop fuel poll_count (slept 5 x now)
        | Kie.GotNull status_code msg =>
            if negb (status_code =? 200)%Z then
              poll_loop fuel poll_count (slept 5 x now)
            else Some (Raise (mk_exn AttributeError msg), now)
        | Kie.Got status_code data =>
            if negb (status_code =? 200)%Z then
              poll_loop fuel poll_count (slept 5 x now)
            else
              let state := Kie.state data in
              if bool_decide (state = Some "success") then
                match Kie.resultJson data with
                | Kie.Malformed _ => poll_loop fuel poll_count (slept 5 x now)
                | Kie.NoObject msg =>
                    Some (Raise (mk_exn AttributeError msg), now)
                | Kie.Decoded result_urls => Some (Ok result_urls, now)
                end
              else if bool_decide (state = Some "fail") then
                Some (Raise (generation_failed data), now)
              else if (elapsed <? 60)%Z then
                poll_loop fuel poll_count (slept 10 x now)
              else if (elapsed <? 180)%Z then
                poll_loop fuel poll_count (slept 15 x now)
              else poll_loop fuel poll_count (slept 30 x now)
        end
      else Some (Raise (timeout_error max_wait), now)
  end.

End Polling.

(** [poll_task_status(task_id, api_key, max_wait=900)], entered when the
    clock reads [start_time]. *)
Definition poll_task_status (tps : Z) (env : nat -> Kie.exchange)
    (max_wait : Z) (start_time : Z) (fuel : nat)
  : option (result (list string) * Z) :=
  poll_loop tps env max_wait start_time fuel 0 start_time.

Definition default_max_wait : Z := 900.

(** [update_airtable_record] *)
Definition update_airtable_record (w : world) (i : Z)
    (record_id video_url : string) : event * result unit :=
  (TableUpdate record_id
     {[ "scene_video" := Airtable.Attachments [ {[ "url" := video_url ]} ] ]},
   match table_update w i record_id with
   | None => Ok tt
   | Some msg =>
       Raise (mk_exn Exception ("Failed to update Airtable: " ++ msg))
   end).

(** [download_video] *)
Definition download_video (w : world) (i : Z) (video_url output_path : string)
  : event * result unit :=
  (Download video_url output_path,
   match download_outcome w i with
   | None => Ok tt
   | Some msg =>
       Raise (mk_exn Exception ("Failed to download video: " ++ msg))
   end).

Record args : Type := {
  model : model_choice;
  project_name : string;
  aspect_ratio : option string;
  duration : string;
  remove_watermark : bool;
  dry_run : bool;
  skip_approval : bool;
  test_mode : bool;
  skip_download : bool
}.

(** The counters of the generation loop and the effects so far. *)
Record tally : Type := {
  success_count : Z;
  fail_count : Z;
  actual_cost : Z;
  log : list event
}.

Definition logged (e : event) (t : tally) : tally :=
  {| success_count := success_count t; fail_count := fail_count t;
     actual_cost := actual_cost t; log := log t ++ [e] |}.

Definition succeed (cost : Z) (t : tally) : tally :=
  {| success_count := success_count t + 1; fail_count := fail_count t;
     actual_cost := actual_cost t + cost; log := log t |}.

Definition fail (t : tally) : tally :=
  {| success_count := success_count t; fail_count := fail_count t + 1;
     actual_cost := actual_cost t; log := log t |}.

Definition str_or (a : option string) (b : string) : string :=
  match a with
  | Some s => if Py.truthy s then s else b
  | None => b
  end.

(** Where the video of scene [i] is saved. *)
Definition video_path (i : Z) (scene_name : string) : string :=
  "outputs/scene_" ++ Py.str_of_int i ++ "_"
  ++ Py.slice_to (Py.replace_char " " "_" scene_name) 30 ++ ".mp4".

(** The second [try] block of one turn of the generation loop. *)
Definition attempt (w : world) (a : args) (n i : Z)
    (record : Airtable.record) (scene_name image_url video_prompt : string)
    (t : tally) : tally :=
  let model_config := MODELS (model a) in
  let '(ev, created) :=
    create_video_generation_task video_prompt image_url (name model_config)
      model_config
      (str_or (aspect_ratio a) (default_aspect_ratio model_config))
      (duration a) (remove_watermark a) (task_reply_of w i) in
  let t := logged ev t in
  match created with
  | Raise e => fail (logged (Failed i e) t)
  | Ok task_id =>
      let t := logged (PollTask task_id) t in
      match poll_outcome w i task_id with
      | Raise e => fail (logged (Failed i e) t)
      | Ok [] =>
          fail (logged (Failed i (mk_exn Exception "No result URLs returned")) t)
      | Ok (video_url :: _) =>
          let '(ev, updated) :=
            update_airtable_record w i (Airtable.id record) video_url in
          let t := logged ev t in
          match updated with
          | Raise e => fail (logged (Failed i e) t)
          | Ok _ =>
              let finish (t : tally) : tally :=
                let t := succeed (cost model_config) t in
                if (i <? n)%Z then logged (Sleep 5) t else t in
              if negb (skip_download a) then
                let '(ev, saved) :=
                  download_video w i video_url (video_path i scene_name) in
                let t := logged ev t in
                match saved with
                | Raise e => fail (logged (Failed i e) t)
                | Ok _ => finish t
                end
              else finish t
          end
      end
  end.

(** One turn of [for i, record in enumerate(scenes, 1)]; [n] is
    [len(scenes)]. *)
Definition turn (w : world) (a : args) (n i : Z) (record : Airtable.record)
    (t : tally) : tally :=
  let fields := Airtable.fields record in
  let scene_name :=
    Airtable.get_text fields "scene" ("Scene " ++ Py.str_of_int i) in
  let t := logged (SceneBanner i n scene_name) t in
  match get_image_url_from_record record with
  | Raise e => fail (logged (Failed i e) t)
  | Ok image_url =>
      let video_prompt := Airtable.get_text fields "video_prompt" "" in
      if negb (Py.truthy video_prompt) then logged (Skipped i) t
      else attempt w a n i record scene_name image_url video_prompt t
  end.

Fixpoint generation_loop (w : world) (a : args) (n i : Z)
    (scenes : list Airtable.record) (t : tally) : tally :=
  match scenes with
  | [] => t
  | record :: rest =>
      generation_loop w a n (i + 1) rest (turn w a n i record t)
  end.

(** The dry-run listing: one entry for each scene, until a scene whose
    image URL cannot be read raises. *)
Fixpoint plan (i : Z) (scenes : list Airtable.record)
  : list event * option exn :=
  match scenes with
  | [] => ([], None)
  | record :: rest =>
      match get_image_url_from_record record with
      | Raise e => ([], Some e)
      | Ok _ =>
          let '(entries, raised) := plan (i + 1) rest in
          (PlanEntry i (Airtable.id record)
             (Airtable.get_text (Airtable.fields record) "scene" "N/A")
           :: entries, raised)
      end
  end.

Definition declined (typed : string) : bool :=
  let response := Py.lower (Py.strip typed) in
  negb (String.eqb response "yes" || String.eqb response "y").

(** [main]: the effects of the run and how it ends. *)
Definition main (a : args) (w : world) : list event * ending :=
  match load_config (environ w) with
  | None => ([], Exit 1)
  | Some config =>
      let model_config := MODELS (model a) in
      if test_mode a then ([], Exit 1)
      else
        let scenes := get_scenes_from_airtable w (project_name a) in
        let loaded := [TableAll (Airtable.project_formula (project_name a))] in
        if bool_decide (scenes = []) then (loaded, Exit 1)
        else
          let n := Z.of_nat (length scenes) in
          let asked := negb (dry_run a) && negb (skip_approval a) in
          let prompted := if asked then (loaded ++ [Input])%list else loaded in
          if asked && declined (typed w) then (prompted, Exit 0)
          else if dry_run a then
            match plan 1 scenes with
            | (entries, None) => ((prompted ++ entries)%list, Exit 0)
            | (entries, Some e) => ((prompted ++ entries)%list, Uncaught e)
            end
          else
            let t :=
              generation_loop w a n 1 scenes
                {| success_count := 0; fail_count := 0; actual_cost := 0;
                   log := prompted |} in
            ((log t ++ [Summary (success_count t) (fail_count t)
                          (actual_cost t)])%list,
             Exit 0)
  end.

End GenerateVideos.

(** ** tools/combine_all.py *)

Module CombineAll.

(** What [get_scene_number] returns: the scene number as an [int], or
    the file name itself. *)
Inductive key : Type :=
| KInt (n : Z)
| KStr (s : string).

(** The literal part of the pattern, matched without regard to case:
    what is left of [s] after it. *)
Fixpoint literal (pat s : string) : option string :=
  match pat, s with
  | EmptyString, _ => Some s
  | String _ _, EmptyString => None
  | String p pat', String c s' =>
      if Ascii.eqb (Py.lower_char c) (Py.lower_char p) then literal pat' s'
      else None
  end.

(** [[_\s]*]: what is left after the longest run of underscores and
    white space. *)
Fixpoint separators (s : string) : string :=
  match s with
  | EmptyString => EmptyString
  | String c r => if Ascii.eqb c "_" || Py.isspace c then separators r else s
  end.

(** [\d*]: the longest run of digits at the start of [s]. *)
Fixpoint digits (s : string) : string :=
  match s with
  | EmptyString => EmptyString
  | String c r => if Py.isdigit c then String c (digits r) else EmptyString
  end.

(** The pattern [scene[_\s]*(\d+)] anchored at the start of [s]: group 1
    of the match. The classes of the two repetitions are disjoint, so
    the longest runs are the only way to match. *)
Definition match_here (s : string) : option string :=
  match literal "scene" s with
  | Some rest =>
      let group := digits (separators rest) in
      if Py.truthy group then Some group else None
  | None => None
  end.

(** [re.search(r'scene[_\s]*(\d+)', s, re.IGNORECASE)]: group 1 of the
    leftmost match. *)
Fixpoint search (s : string) : option string :=
  match match_here s with
  | Some group => Some group
  | None =>
      match s with
      | EmptyString => None
      | String _ r => search r
      end
  end.

(** [get_scene_number(filename)], on the name of the file. *)
Definition get_scene_number (name : string) : key :=
  match search name with
  | Some group => KInt (Py.int_of_digits 0 group)
  | None => KStr name
  end.

(** [a < b] on keys: Python 3 orders an [int] with an [int] and a [str]
    with a [str], and raises [TypeError] for an [int] and a [str]. *)
Definition key_lt (a b : key) : result bool :=
  match a, b with
  | KInt x, KInt y => Ok (x <? y)%Z
  | KStr x, KStr y => Ok (Py.str_lt x y)
  | KStr _, KInt _ =>
      Raise (mk_exn TypeError
               "'<' not supported between instances of 'str' and 'int'")
  | KInt _, KStr _ =>
      Raise (mk_exn TypeError
               "'<' not supported between instances of 'int' and 'str'")
  end.

(** [list.sort(key=...)] is stable, compares keys with [<] only, and
    lets an exception of a comparison through. It is modelled by the
    insertion sort that puts each file in front of the files sorted so
    far that do not come before it: on keys of one kind this is the
    stable order, which is unique; on keys of both kinds any comparison
    sort has to compare an [int] with a [str]. *)
Fixpoint insert (file : string) (sorted : list string) : result (list string) :=
  match sorted with
  | [] => Ok [file]
  | other :: rest =>
      before ← key_lt (get_scene_number other) (get_scene_number file);
      if (before : bool) then
        rest' ← insert file rest; Ok (other :: rest')
      else Ok (file :: other :: rest)
  end.

Fixpoint sort (files : list string) : result (list string) :=
  match files with
  | [] => Ok []
  | file :: rest => sorted ← sort rest; insert file sorted
  end.

(** The files kept by [if project_name:]: all of them without a project
    name, else those whose name contains it, letter case apart. *)
Definition by_project (project_name : option string)
    (video_files : list string) : list string :=
  match project_name with
  | Some p =>
      if Py.truthy p
      then List.filter (fun f => Py.contains (Py.lower p) (Py.lower f))
             video_files
      else video_files
  | None => video_files
  end.

(** [find_video_files(input_dir, project_name)]. [listing] is what
    [input_path.glob('*.mp4')] finds, as file names in the order of
    discovery, or [None] when the directory does not exist. *)
Definition find_video_files (listing : option (list string))
    (project_name : option string) : result (list string) :=
  match listing with
  | None => Ok []
  | Some video_files =>
      let video_files := by_project project_name video_files in
      if bool_decide (video_files = []) then Ok []
      else sort video_files
  end.

Inductive event : Type :=
| FfmpegVersion
| PlanEntry (i : Z) (name : string)
| WriteConcat (path : string) (video_files : list string)
| Mkdir (path : string)
| Concat (concat_file output_file : string) (copy_codec : bool)
| AddMusic (video_file music_file output_file : string) (fade_duration : Z)
| Cleanup (files : list string)
| Combined (output_file : string) (count : Z).

(** Runs of the muxing tool on the videos. *)
Definition mux_call (e : event) : bool :=
  match e with
  | Concat _ _ _ | AddMusic _ _ _ _ => true
  | _ => false
  end.

(** Effects that create or change a file. *)
Definition file_write (e : event) : bool :=
  match e with
  | WriteConcat _ _ | Mkdir _ | Concat _ _ _ | AddMusic _ _ _ _ => true
  | _ => false
  end.

Definition plan_entry (e : event) : bool :=
  match e with PlanEntry _ _ => true | _ => false end.

Inductive ending : Type :=
| Exit (code : Z)
| Uncaught (e : exn).

Record world : Type := {
  (** what [check_ffmpeg_installed] finds *)
  ffmpeg_installed : bool;
  (** the [*.mp4] files of the input directory, [None] without directory *)
  listing : option (list string);
  (** the error [create_concat_file] raises, if any *)
  concat_file_error : option string;
  (** what [combine_videos] returns *)
  combined : bool;
  (** whether the music file exists *)
  music_exists : bool;
  (** what the muxing tool makes of the music overlay *)
  music_added : bool
}.

Record args : Type := {
  input_dir : string;
  output : string;
  project_name : option string;
  music : option string;
  fade_duration : Z;
  dry_run : bool;
  re_encode : bool
}.

(** [p.name]: what follows the last slash. *)
Fixpoint path_name (p : string) : string :=
  match p with
  | EmptyString => EmptyString
  | String _ r => if Py.contains "/" p then path_name r else p
  end.

(** [p.parent]: what precedes the last slash, [.] without a slash. *)
Definition path_parent (p : string) : string :=
  if Py.contains "/" p
  then Py.slice_to p (Py.len p - Py.len (path_name p) - 1)
  else ".".

(** The dry-run listing: one entry for each video, in order. *)
Fixpoint plan (i : Z) (video_files : list string) : list event :=
  match video_files with
  | [] => []
  | video :: rest => PlanEntry i video :: plan (i + 1) rest
  end.

(** [add_background_music]: the tool runs only when the music exists. *)
Definition add_background_music (w : world) (video_file music_file
    output_file : string) (fade_duration : Z) : list event * bool :=
  if negb (music_exists w) then ([], false)
  else ([AddMusic video_file music_file output_file fade_duration],
        music_added w).

(** The [try] block of [main]. *)
Definition assemble (a : args) (w : world) (video_files : list string)
  : list event * ending :=
  let concat_file := input_dir a ++ "/videos_concat_list.txt" in
  let temp_files := [concat_file] in
  let write := WriteConcat concat_file video_files in
  match concat_file_error w with
  | Some _ => ([write; Cleanup temp_files], Exit 1)
  | None =>
      let output_path := output a in
      let prepared := [write; Mkdir (path_parent output_path)] in
      let done := Combined output_path (Z.of_nat (length video_files)) in
      match music a with
      | Some music_file =>
          if Py.truthy music_file then
            let temp_output :=
              path_parent output_path ++ "/temp_" ++ path_name output_path in
            let temp_files := (temp_files ++ [temp_output])%list in
            let concat := Concat concat_file temp_output (negb (re_encode a)) in
            if negb (combined w)
            then ((prepared ++ [concat; Cleanup temp_files])%list, Exit 1)
            else
              let '(mixing, success) :=
                add_background_music w temp_output music_file output_path
                  (fade_duration a) in
              if negb success
              then ((prepared ++ concat :: mixing ++ [Cleanup temp_files])%list,
                    Exit 1)
              else ((prepared ++ concat :: mixing
                       ++ [Cleanup temp_files; done])%list, Exit 0)
          else
            let concat := Concat concat_file output_path (negb (re_encode a)) in
            if negb (combined w)
            then ((prepared ++ [concat; Cleanup temp_files])%list, Exit 1)
            else ((prepared ++ [concat; Cleanup temp_files; done])%list, Exit 0)
      | None =>
          let concat := Concat concat_file output_path (negb (re_encode a)) in
          if negb (combined w)
          then ((prepared ++ [concat; Cleanup temp_files])%list, Exit 1)
          else ((prepared ++ [concat; Cleanup temp_files; done])%list, Exit 0)
      end
  end.

(** [main]: the effects of the run and how it ends. *)
Definition main (a : args) (w : world) : list event * ending :=
  if negb (ffmpeg_installed w) then ([FfmpegVersion], Exit 1)
  else
    match find_video_files (listing w) (project_name a) with
    | Raise e => ([FfmpegVersion], Uncaught e)
    | Ok video_files =>
        if bool_decide (video_files = []) then ([FfmpegVersion], Exit 1)
        else if (Z.of_nat (length video_files) =? 1)%Z
        then ([FfmpegVersion], Exit 0)
        else if dry_run a
        then (FfmpegVersion :: plan 1 video_files, Exit 0)
        else
          let '(effects, how) := assemble a w video_files in
          (FfmpegVersion :: effects, how)
    end.

End CombineAll.

(** ** tools/create_prompts.py *)

Module CreatePrompts.

(** A number of the analysis document: an integer, or a float carried
    by the text [str] gives for it. *)
Inductive number : Type :=
| Int (n : Z)
| Float (repr : string).

Definition str_of_number (x : number) : string :=
  match x with
  | Int n => Py.str_of_int n
  | Float repr => repr
  end.

(** An entry of [scenes] in the analysis document. *)
Record scene : Type := {
  scene_number : number;
  description : string;
  subject : string;
  environment : string;
  action : string;
  lighting : string;
  camera : string;
  duration : number
}.

(** [analysis['video_analysis']] *)
Record video_analysis : Type := {
  overall_duration : number;
  total_scenes : number;
  music_sound : string;
  scenes : list scene
}.

(** An entry of the list [create_prompts] returns. *)
Record prompt : Type := {
  p_scene_number : number;
  p_scene_description : string;
  p_duration : number;
  p_image_prompt : string;
  p_video_prompt : string
}.

(** The image prompt, before [strip()]. *)
Definition image_prompt_text (subject_description : string) (s : scene)
  : string :=
  subject_description ++ nl ++ nl
  ++ "Setting: " ++ environment s ++ nl
  ++ "Lighting: " ++ lighting s ++ nl
  ++ "Camera: " ++ camera s ++ nl ++ nl
  ++ "The subject is in this position/pose: "
  ++ hd "" (Py.split "." (action s)) ++ "." ++ nl ++ nl
  ++ "Style: Photorealistic, high quality, professional photography" ++ nl
  ++ "Details: Sharp focus, natural colors, " ++ Py.lower (lighting s).

(** The video prompt, before [strip()]. *)
Definition video_prompt_text (subject_description : string) (s : scene)
  : string :=
  "Camera Type: " ++ camera s ++ nl ++ nl
  ++ "Main Movement: " ++ subject_description ++ " " ++ action s ++ nl ++ nl
  ++ "Setting: " ++ environment s ++ nl
  ++ "Lighting: " ++ lighting s ++ nl ++ nl
  ++ "Motion details: " ++ action s ++ nl
  ++ "Duration: " ++ str_of_number (duration s) ++ " seconds" ++ nl ++ nl
  ++ "Style: Smooth, natural motion, high quality video, realistic physics".

(** What one turn of the loop appends to [prompts]. *)
Definition prompt_of (subject_description : string) (s : scene) : prompt :=
  {| p_scene_number := scene_number s;
     p_scene_description := description s;
     p_duration := duration s;
     p_image_prompt := Py.strip (image_prompt_text subject_description s);
     p_video_prompt := Py.strip (video_prompt_text subject_description s) |}.

(** The [for scene in scenes] loop. *)
Fixpoint each_scene (subject_description : string) (scenes : list scene)
    (prompts : list prompt) : list prompt :=
  match scenes with
  | [] => prompts
  | s :: rest =>
      each_scene subject_description rest
        (prompts ++ [prompt_of subject_description s])
  end.

(** [create_prompts(analysis, subject_description)] *)
Definition create_prompts (analysis : video_analysis)
    (subject_description : string) : list prompt :=
  each_scene subject_description (scenes analysis) [].

(** [needle] occurs in [hay] as it stands. *)
Definition substring (needle hay : string) : Prop :=
  exists before after : string, hay = before ++ needle ++ after.

End CreatePrompts.

(** ** Vocabulary of the properties *)

Module Props.

(** The reference a row holds under [key]: the value of the field when
    it is there and not empty. *)
Definition reference (r : Airtable.record) (key : string)
  : option Airtable.value :=
  match Airtable.fields r !! key with
  | Some v => if Airtable.truthy v then Some v else None
  | None => None
  end.

(** Eligible for video generation, in the words of the design: an image
    reference, and no video reference. *)
Definition eligible_for_video (r : Airtable.record) : bool :=
  bool_decide (reference r "start_image" <> None)
  && bool_decide (reference r "scene_video" = None).

(** The remote status never leaves the pending states: every status
    request is answered, with one of them. *)
Definition stays_pending (env : nat -> Kie.exchange) : Prop :=
  forall k, exists data,
    Kie.reply (env k) = Kie.Got 200 data
    /\ GenerateImages.pending (Kie.state data) = true.

(** Requests and sleeps never take less time than nothing. *)
Definition well_timed (env : nat -> Kie.exchange) : Prop :=
  forall k, (0 <= Kie.latency (env k))%Z /\ (0 <= Kie.oversleep (env k))%Z.

(** A polling run, given as what it has produced after any number of
    turns, ends by raising [e] once [budget] ticks have passed since
    [start_time], and in no other way. *)
Definition ends_raising (run : nat -> option (result (list string) * Z))
    (e : exn) (start_time budget : Z) : Prop :=
  (exists fuel now,
      run fuel = Some (Raise e, now) /\ (budget <= now - start_time)%Z)
  /\ (forall fuel r now,
        run fuel = Some (r, now) ->
        r = Raise e /\ (budget <= now - start_time)%Z).

(** A file name with a scene number in it. *)
Definition numbered (name : string) (n : Z) : Prop :=
  CombineAll.get_scene_number name = CombineAll.KInt n.

(** [a] does not come after [b] by scene number. *)
Definition number_le (a b : string) : Prop :=
  exists x y, numbered a x /\ numbered b y /\ (x <= y)%Z.

(** Whether a scene number is found in a file name. *)
Definition has_number (name : string) : bool :=
  match CombineAll.get_scene_number name with
  | CombineAll.KInt _ => true
  | CombineAll.KStr _ => false
  end.

(** Whether the scene number [n] is found in a file name. *)
Definition number_is (n : Z) (name : string) : bool :=
  match CombineAll.get_scene_number name with
  | CombineAll.KInt m => (m =? n)%Z
  | CombineAll.KStr _ => false
  end.

(** Console lines of the image loop that go with [failed += 1]. *)
Definition image_failure (e : Effects.event) : bool :=
  match e with
  | Effects.Failed _ _ | Effects.Skipped _ | Effects.NoResultUrls _ => true
  | _ => false
  end.

(** Console lines of the video loop that go with [fail_count += 1]. *)
Definition video_failure (e : Effects.event) : bool :=
  match e with
  | Effects.Failed _ _ => true
  | _ => false
  end.

Definition task_created (e : Effects.event) : bool :=
  match e with
  | Effects.CreateImageTask _ _ | Effects.CreateVideoTask _ _ => true
  | _ => false
  end.

Definition skipped (e : Effects.event) : bool :=
  match e with Effects.Skipped _ => true | _ => false end.

(** A row the image loop submits: it has an image prompt. *)
Definition image_ready (record : Airtable.record) : bool :=
  Py.truthy (Airtable.get_text (Airtable.fields record) "start_image_prompt" "").

(** A row the video loop submits: its image URL can be read and it has
    a video prompt. *)
Definition video_ready (record : Airtable.record) : bool :=
  match GenerateVideos.get_image_url_from_record record with
  | Ok _ =>
      Py.truthy (Airtable.get_text (Airtable.fields record) "video_prompt" "")
  | Raise _ => false
  end.

(** Scene [i] fails with [e] at the provider: the request to create the
    task is refused or does not get through, or the task is created and
    polling it raises (a reported failure, or the time-out). *)
Definition scene_raises (w : World.world) (i : Z) (e : exn) : Prop :=
  Kie.task_id_of_reply (World.task_reply_of w i) = Raise e
  \/ exists task_id,
       Kie.task_id_of_reply (World.task_reply_of w i) = Ok task_id
       /\ World.poll_outcome w i task_id = Raise e.

(** Number of events of a kind in a log. *)
Definition count (kind : Effects.event -> bool) (l : list Effects.event) : Z :=
  Z.of_nat (length (List.filter kind l)).

End Props.

(** ** Sample inputs *)

Module Samples.

(** A status request answered at once with the state [generating]. *)
Definition generating : Kie.exchange :=
  {| Kie.reply :=
       Kie.Got 200 {| Kie.state := Some "generating";
                      Kie.resultJson := Kie.Decoded [];
                      Kie.failMsg := None; Kie.failCode := None |};
     Kie.latency := 0; Kie.oversleep := 0 |}.

(** The combine stage on its defaults. *)
Definition combine_args : CombineAll.args :=
  {| CombineAll.input_dir := "outputs";
     CombineAll.output := "outputs/final_video.mp4";
     CombineAll.project_name := None; CombineAll.music := None;
     CombineAll.fade_duration := 2; CombineAll.dry_run := false;
     CombineAll.re_encode := false |}.

(** A machine with the muxing tool and the given videos in [outputs/]. *)
Definition outputs_with (names : list string) : CombineAll.world :=
  {| CombineAll.ffmpeg_installed := true;
     CombineAll.listing := Some names;
     CombineAll.concat_file_error := None;
     CombineAll.combined := true;
     CombineAll.music_exists := true;
     CombineAll.music_added := true |}.

(** The settings of the tools, all present. *)
Definition environ : gmap string string :=
  {[ "KIE_API_KEY" := "kie-key";
     "AIRTABLE_API_TOKEN" := "pat-token";
     "AIRTABLE_BASE_ID" := "appBase" ]}.

(** A store that answers every query with [rows], and a provider that
    accepts every task and completes it with one result. *)
Definition store_with (rows : list Airtable.record) : World.world :=
  {| World.environ := environ;
     World.table_all := fun _ => rows;
     World.table_create := fun fields =>
       {| Airtable.id := "recNew"; Airtable.fields := fields |};
     World.table_update := fun _ _ => None;
     World.typed := "yes";
     World.inputs_glob := fun _ => [];
     World.upload := fun _ => Ok "https://files.example/reference.jpg";
     World.task_reply_of := fun _ => Kie.Posted 200 "" (Kie.TaskId "task-1");
     World.poll_outcome := fun _ _ => Ok ["https://results.example/out-1"];
     World.download_outcome := fun _ => None |}.

(** A row with a start image and neither video nor video prompt. *)
Definition scene_without_video_prompt : Airtable.record :=
  {| Airtable.id := "rec1";
     Airtable.fields :=
       {[ "Project Name" := Airtable.Text "Creative Cloner Project";
          "start_image" :=
            Airtable.Attachments
              [ {[ "url" := "https://images.example/scene-1.png" ]} ] ]} |}.

(** The video stage on its defaults, approval skipped. *)
Definition video_args : GenerateVideos.args :=
  {| GenerateVideos.model := GenerateVideos.sora_2;
     GenerateVideos.project_name := "Creative Cloner Project";
     GenerateVideos.aspect_ratio := None;
     GenerateVideos.duration := "10";
     GenerateVideos.remove_watermark := true;
     GenerateVideos.dry_run := false;
     GenerateVideos.skip_approval := true;
     GenerateVideos.test_mode := false;
     GenerateVideos.skip_download := false |}.

(** The image stage called with [--dry-run --test-mode]. *)
Definition image_args_dry_test : GenerateImages.args :=
  {| GenerateImages.model := GenerateImages.z_image;
     GenerateImages.reference_image := None;
     GenerateImages.aspect_ratio := None;
     GenerateImages.resolution := "1K";
     GenerateImages.project_name := "Creative Cloner Project";
     GenerateImages.dry_run := true;
     GenerateImages.skip_approval := false;
     GenerateImages.test_mode := true |}.

(** The image stage on its defaults, approval skipped. *)
Definition image_args : GenerateImages.args :=
  {| GenerateImages.model := GenerateImages.z_image;
     GenerateImages.reference_image := None;
     GenerateImages.aspect_ratio := None;
     GenerateImages.resolution := "1K";
     GenerateImages.project_name := "Creative Cloner Project";
     GenerateImages.dry_run := false;
     GenerateImages.skip_approval := true;
     GenerateImages.test_mode := false |}.

(** A row with an image prompt and a video prompt. *)
Definition prompted (record_id : string) : Airtable.record :=
  {| Airtable.id := record_id;
     Airtable.fields :=
       {[ "Project Name" := Airtable.Text "Creative Cloner Project";
          "start_image_prompt" := Airtable.Text "A red robot in a kitchen";
          "video_prompt" := Airtable.Text "The robot waves" ]} |}.

(** A provider that refuses the task of the second scene with status
    402 and serves the others. *)
Definition refusing_second : World.world :=
  {| World.environ := environ;
     World.table_all := fun _ => [];
     World.table_create := fun fields =>
       {| Airtable.id := "recNew"; Airtable.fields := fields |};
     World.table_update := fun _ _ => None;
     World.typed := "yes";
     World.inputs_glob := fun _ => [];
     World.upload := fun _ => Ok "https://files.example/reference.jpg";
     World.task_reply_of := fun i =>
       if (i =? 2)%Z then Kie.Posted 402 "" Kie.EmptyBody
       else Kie.Posted 200 "" (Kie.TaskId "task");
     World.poll_outcome := fun _ _ => Ok ["https://results.example/out"];
     World.download_outcome := fun _ => None |}.

End Samples.

(** ** Further vocabulary and sample inputs *)

From Stdlib Require Import Numbers.DecimalPos.

Module Cases.

(** The image stage with [--dry-run]. *)
Definition image_args_dry : GenerateImages.args :=
  {| GenerateImages.model := GenerateImages.z_image;
     GenerateImages.reference_image := None;
     GenerateImages.aspect_ratio := None;
     GenerateImages.resolution := "1K";
     GenerateImages.project_name := "Creative Cloner Project";
     GenerateImages.dry_run := true;
     GenerateImages.skip_approval := false;
     GenerateImages.test_mode := false |}.

(** The image stage on its defaults: the operator is asked. *)
Definition image_args_asking : GenerateImages.args :=
  {| GenerateImages.model := GenerateImages.z_image;
     GenerateImages.reference_image := None;
     GenerateImages.aspect_ratio := None;
     GenerateImages.resolution := "1K";
     GenerateImages.project_name := "Creative Cloner Project";
     GenerateImages.dry_run := false;
     GenerateImages.skip_approval := false;
     GenerateImages.test_mode := false |}.

(** The video stage with [--dry-run]. *)
Definition video_args_dry : GenerateVideos.args :=
  {| GenerateVideos.model := GenerateVideos.sora_2;
     GenerateVideos.project_name := "Creative Cloner Project";
     GenerateVideos.aspect_ratio := None;
     GenerateVideos.duration := "10";
     GenerateVideos.remove_watermark := true;
     GenerateVideos.dry_run := true;
     GenerateVideos.skip_approval := false;
     GenerateVideos.test_mode := false;
     GenerateVideos.skip_download := false |}.

(** The video stage on its defaults: the operator is asked. *)
Definition video_args_asking : GenerateVideos.args :=
  {| GenerateVideos.model := GenerateVideos.sora_2;
     GenerateVideos.project_name := "Creative Cloner Project";
     GenerateVideos.aspect_ratio := None;
     GenerateVideos.duration := "10";
     GenerateVideos.remove_watermark := true;
     GenerateVideos.dry_run := false;
     GenerateVideos.skip_approval := false;
     GenerateVideos.test_mode := false;
     GenerateVideos.skip_download := false |}.

(** The combine stage with [--dry-run]. *)
Definition combine_args_dry : CombineAll.args :=
  {| CombineAll.input_dir := "outputs";
     CombineAll.output := "outputs/final_video.mp4";
     CombineAll.project_name := None; CombineAll.music := None;
     CombineAll.fade_duration := 2; CombineAll.dry_run := true;
     CombineAll.re_encode := false |}.

(** The configuration [load_config] reads from [Samples.environ]. *)
Definition config : Effects.config :=
  {| Effects.kie_api_key := "kie-key";
     Effects.airtable_token := "pat-token";
     Effects.airtable_base_id := "appBase" |}.

(** A store like [Samples.store_with] whose operator answers [no]. *)
Definition declining (rows : list Airtable.record) : World.world :=
  {| World.environ := Samples.environ;
     World.table_all := fun _ => rows;
     World.table_create := fun fields =>
       {| Airtable.id := "recNew"; Airtable.fields := fields |};
     World.table_update := fun _ _ => None;
     World.typed := "no";
     World.inputs_glob := fun _ => [];
     World.upload := fun _ => Ok "https://files.example/reference.jpg";
     World.task_reply_of := fun _ => Kie.Posted 200 "" (Kie.TaskId "task-1");
     World.poll_outcome := fun _ _ => Ok ["https://results.example/out-1"];
     World.download_outcome := fun _ => None |}.

(** A machine whose muxing tool is there but fails on the videos. *)
Definition failing_ffmpeg (names : list string) : CombineAll.world :=
  {| CombineAll.ffmpeg_installed := true;
     CombineAll.listing := Some names;
     CombineAll.concat_file_error := None;
     CombineAll.combined := false;
     CombineAll.music_exists := true;
     CombineAll.music_added := true |}.

End Cases.

Module Order.

(** [a] does not come after [b] by name: [b < a] does not hold. *)
Definition name_le (a b : string) : Prop := Py.str_lt b a = false.

(** The name of the file the video stage saves for scene [i]. *)
Definition video_file_name (i : Z) (scene_name : string) : string :=
  "scene_" ++ Py.str_of_int i ++ "_"
  ++ Py.slice_to (Py.replace_char " " "_" scene_name) 30 ++ ".mp4".

End Order.

Module Polling.

(** A reply that settles nothing: the request failed, the status is not
    200, or the reply holds a [data] object whose state is neither
    [success] nor [fail]. A reply with status 200 and no [data] object
    is not one of them. *)
Definition unsettled (r : Kie.poll_reply) : Prop :=
  match r with
  | Kie.GetFailed _ => True
  | Kie.GotNull status_code _ => status_code <> 200%Z
  | Kie.Got status_code data =>
      status_code <> 200%Z
      \/ (Kie.state data <> Some "success" /\ Kie.state data <> Some "fail")
  end.

(** The replies of a task that takes forever, with a transport error on
    every third request and a gateway error on every fifth. *)
Definition flaky (k : nat) : Kie.exchange :=
  {| Kie.reply :=
       if (k mod 3 =? 0)%nat then Kie.GetFailed "connection reset"
       else if (k mod 5 =? 0)%nat then
         Kie.Got 502 {| Kie.state := None; Kie.resultJson := Kie.Decoded [];
                        Kie.failMsg := None; Kie.failCode := None |}
       else
         Kie.Got 200 {| Kie.state := Some "queuing";
                        Kie.resultJson := Kie.Decoded [];
                        Kie.failMsg := None; Kie.failCode := None |};
     Kie.latency := 250; Kie.oversleep := 3 |}.

(** A status request answered at once with one result. *)
Definition succeeding : Kie.exchange :=
  {| Kie.reply :=
       Kie.Got 200 {| Kie.state := Some "success";
                      Kie.resultJson :=
                        Kie.Decoded ["https://results.example/out-1"];
                      Kie.failMsg := None; Kie.failCode := None |};
     Kie.latency := 120; Kie.oversleep := 0 |}.

End Polling.

Module Writes.

Definition polled (e : Effects.event) : bool :=
  match e with Effects.PollTask _ => true | _ => false end.

Definition downloaded (e : Effects.event) : bool :=
  match e with Effects.Download _ _ => true | _ => false end.

(** An event that, if it writes to the store, sets the attachment field
    [field] of a row of [scenes] to one URL and nothing else. *)
Definition writes_field (field : string) (scenes : list Airtable.record)
    (e : Effects.event) : Prop :=
  match e with
  | Effects.TableUpdate record_id fields =>
      exists record url,
        In record scenes
        /\ record_id = Airtable.id record
        /\ fields = {[ field := Airtable.Attachments [ {[ "url" := url ]} ] ]}
  | Effects.TableCreate _ => False
  | _ => True
  end.


(** A row as the image stage leaves it after a success. *)
Definition with_image (record_id url : string) : Airtable.record :=
  {| Airtable.id := record_id;
     Airtable.fields :=
       {[ "Project Name" := Airtable.Text "Creative Cloner Project";
          "video_prompt" := Airtable.Text "The robot waves";
          "start_image" := Airtable.Attachments [ {[ "url" := url ]} ] ]} |}.

(** The same row after the video stage succeeded on it. *)
Definition with_video (record_id url video_url : string) : Airtable.record :=
  {| Airtable.id := record_id;
     Airtable.fields :=
       {[ "Project Name" := Airtable.Text "Creative Cloner Project";
          "video_prompt" := Airtable.Text "The robot waves";
          "start_image" := Airtable.Attachments [ {[ "url" := url ]} ];
          "scene_video" :=
            Airtable.Attachments [ {[ "url" := video_url ]} ] ]} |}.

End Writes.

(** ** tools/log_to_airtable.py *)

Module LogToAirtable.

(** What the tool asks of the store and says on the console. *)
Inductive event : Type :=
| TableAll (formula : option string)
| BatchDelete (record_ids : list string)
| ClearWarning (msg : string)
| TableCreate (fields : gmap string Airtable.value)
| Logged (scene_id : string)
| LogError (scene_id msg : string)
| Summary (total_scenes : nat).

Record world : Type := {
  (** the process environment after [load_dotenv] *)
  environ : gmap string string;
  (** [prompts] of the prompts file at a path, [None] without file *)
  prompts_file : string -> option (list CreatePrompts.prompt);
  (** [table.all(formula=...)], [table.all()] for [None] *)
  table_all : option string -> result (list Airtable.record);
  (** [table.batch_delete(batch)] for the batch that starts at [i]:
      [None] when it returns, the error text when it raises *)
  batch_delete : nat -> list string -> option string;
  (** [table.create(fields)] for the prompt at position [k] *)
  table_create : nat -> gmap string Airtable.value -> result Airtable.record
}.

Record args : Type := {
  prompts : string;
  project_name : string;
  (** whether [--clear] is on the command line *)
  clear_given : bool
}.

(** [args.clear]: [action='store_true'] with [default=True]. *)
Definition clear (a : args) : bool :=
  if clear_given a then true else true.

(** [load_config]: the token and the base, or [None] where the tool
    leaves with [sys.exit(1)]. *)
Definition load_config (environ : gmap string string)
  : option (string * string) :=
  match Effects.getenv_or environ "AIRTABLE_API_TOKEN" "AIRTABLE_API_KEY" with
  | None => None
  | Some api_key =>
      if negb (Py.truthy api_key) then None
      else
        match environ !! "AIRTABLE_BASE_ID" with
        | None => None
        | Some base_id =>
            if negb (Py.truthy base_id) then None else Some (api_key, base_id)
        end
  end.

(** [range(0, n, step)] *)
Definition range_by (n step : nat) : list nat :=
  map (fun k => k * step) (seq 0 ((n + step - 1) / step)).

(** [l[i:j]] for [0 <= i <= j] *)
Definition slice {A : Type} (l : list A) (i j : nat) : list A :=
  firstn (j - i) (skipn i l).

(** The [for i in range(0, len(record_ids), 10)] loop over the starts
    that are left: a batch the store refuses ends it with the error. *)
Fixpoint delete_batches (w : world) (record_ids : list string)
    (starts : list nat) : list event * option string :=
  match starts with
  | [] => ([], None)
  | i :: rest =>
      let batch := slice record_ids i (i + 10) in
      match batch_delete w i batch with
      | Some msg => ([BatchDelete batch], Some msg)
      | None =>
          let '(deleted, error) := delete_batches w record_ids rest in
          (BatchDelete batch :: deleted, error)
      end
  end.

(** The query of [clear_existing_records]: the rows of the project, or
    every row when the project name is not given or empty. *)
Definition formula_of (project_name : option string) : option string :=
  match project_name with
  | Some name =>
      if Py.truthy name then Some (Airtable.project_formula name) else None
  | None => None
  end.

(** [clear_existing_records(table, project_name)]: every exception is
    caught and turned into a warning. *)
Definition clear_existing_records (w : world) (project_name : option string)
  : list event :=
  let formula := formula_of project_name in
  match table_all w formula with
  | Raise e => [TableAll formula; ClearWarning (exn_msg e)]
  | Ok [] => [TableAll formula]
  | Ok records =>
      let record_ids := map Airtable.id records in
      let '(deleted, error) :=
        delete_batches w record_ids (range_by (length record_ids) 10) in
      match error with
      | Some msg => (TableAll formula :: deleted ++ [ClearWarning msg])%list
      | None => TableAll formula :: deleted
      end
  end.

(** [scene_title]: the description, cut to 47 characters and an
    ellipsis when it is longer than 50. *)
Definition scene_title (scene_desc : string) : string :=
  if (50 <? Py.len scene_desc)%Z then Py.slice_to scene_desc 47 ++ "..."
  else scene_desc.

(** [scene_id], the text [Scene N]. *)
Definition scene_id (prompt : CreatePrompts.prompt) : string :=
  "Scene " ++ CreatePrompts.str_of_number (CreatePrompts.p_scene_number prompt).

(** [record], the fields of the row of one prompt. *)
Definition record_of (project_name : string) (prompt : CreatePrompts.prompt)
  : gmap string Airtable.value :=
  let scene_full :=
    scene_id prompt ++ " - "
    ++ scene_title (CreatePrompts.p_scene_description prompt) in
  {[ "Project Name" := Airtable.Text project_name;
     "scene" := Airtable.Text scene_full;
     "start_image_prompt" :=
       Airtable.Text (CreatePrompts.p_image_prompt prompt);
     "video_prompt" := Airtable.Text (CreatePrompts.p_video_prompt prompt) ]}.

(** The [for prompt in prompts] loop from position [k] on: a row the
    store refuses is reported and the loop goes on. *)
Fixpoint log_each (w : world) (project_name : string) (k : nat)
    (prompts : list CreatePrompts.prompt)
    (records_created : list Airtable.record)
  : list event * list Airtable.record :=
  match prompts with
  | [] => ([], records_created)
  | prompt :: rest =>
      let record := record_of project_name prompt in
      match table_create w k record with
      | Ok created =>
          let '(said, records) :=
            log_each w project_name (S k) rest
              (records_created ++ [created])%list in
          (TableCreate record :: Logged (scene_id prompt) :: said, records)
      | Raise e =>
          let '(said, records) :=
            log_each w project_name (S k) rest records_created in
          (TableCreate record :: LogError (scene_id prompt) (exn_msg e) :: said,
           records)
      end
  end.

(** [log_prompts_to_airtable(table, prompts, project_name)] *)
Definition log_prompts_to_airtable (w : world)
    (prompts : list CreatePrompts.prompt) (project_name : string)
  : list event * list Airtable.record :=
  log_each w project_name 0 prompts [].

(** [display_summary]: [fields['scene']] and [fields['Project Name']]
    of every row; the first key that is missing raises. *)
Fixpoint display_summary (records : list Airtable.record) : option exn :=
  match records with
  | [] => None
  | record :: rest =>
      match Airtable.fields record !! "scene" with
      | None => Some (mk_exn KeyError "'scene'")
      | Some _ =>
          match Airtable.fields record !! "Project Name" with
          | None => Some (mk_exn KeyError "'Project Name'")
          | Some _ => display_summary rest
          end
      end
  end.

(** [main]: the effects of the run and how it ends. *)
Definition main (a : args) (w : world) : list event * Effects.ending :=
  match load_config (environ w) with
  | None => ([], Effects.Exit 1)
  | Some _ =>
      match prompts_file w (prompts a) with
      | None => ([], Effects.Exit 1)
      | Some prompts =>
          let cleared :=
            if clear a then clear_existing_records w (Some (project_name a))
            else [] in
          let '(said, records) :=
            log_prompts_to_airtable w prompts (project_name a) in
          match display_summary records with
          | Some e => ((cleared ++ said)%list, Effects.Uncaught e)
          | None =>
              ((cleared ++ said ++ [Summary (length records)])%list,
               Effects.Exit 0)
          end
      end
  end.

(** Requests to create a row. *)
Definition creates (e : event) : bool :=
  match e with TableCreate _ => true | _ => false end.

(** Requests that read or delete rows. *)
Definition clears (e : event) : bool :=
  match e with TableAll _ | BatchDelete _ => true | _ => false end.

(** Reports of a row the store refused. *)
Definition refused (e : event) : bool :=
  match e with LogError _ _ => true | _ => false end.

End LogToAirtable.

(** ** tools/analyze_video.py *)

Module AnalyzeVideo.

(** [types.FileState] *)
Inductive file_state : Set :=
| STATE_UNSPECIFIED | PROCESSING | ACTIVE | FAILED.

Definition processing (s : file_state) : bool :=
  match s with PROCESSING => true | _ => false end.

Inductive event : Type :=
| Upload (video_path mime_type : string)
| Sleep (seconds : Z)
| FilesGet.

Record world : Type := {
  (** [os.path.exists(video_path)] *)
  video_exists : bool;
  (** [mimetypes.guess_type(video_path)] *)
  guessed_type : option string;
  (** the state in the reply to the upload (0) and in the reply to
      the [k]-th [files.get] *)
  state_after : nat -> file_state
}.

(** How [upload_video] ends: it returns the file as the reply numbered
    [k] describes it, or leaves with [sys.exit(code)]. *)
Inductive outcome : Type :=
| Processed (k : nat)
| Exited (code : Z).

(** The [while video_file.state == PROCESSING] loop, [k] replies in:
    [None] when [fuel] turns do not end it. *)
Fixpoint wait (w : world) (fuel k : nat) : option (list event * nat) :=
  match fuel with
  | O => None
  | S fuel' =>
      if processing (state_after w k) then
        match wait w fuel' (S k) with
        | Some (said, last) => Some (Sleep 2 :: FilesGet :: said, last)
        | None => None
        end
      else Some ([], k)
  end.

(** [upload_video(video_path, client)] *)
Definition upload_video (w : world) (fuel : nat) (video_path : string)
  : option (list event * outcome) :=
  if negb (video_exists w) then Some ([], Exited 1)
  else
    let mime_type :=
      match guessed_type w with
      | Some t => if Py.truthy t then t else "video/mp4"
      | None => "video/mp4"
      end in
    match wait w fuel 0 with
    | None => None
    | Some (said, last) =>
        Some (Upload video_path mime_type :: said,
              match state_after w last with
              | FAILED => Exited 1
              | _ => Processed last
              end)
    end.

(** The text after the prefix [p] of [s], when [s] starts with it. *)
Fixpoint after (p s : string) : option string :=
  match p, s with
  | EmptyString, _ => Some s
  | String a p', String b s' => if Ascii.eqb a b then after p' s' else None
  | String _ _, EmptyString => None
  end.

(** The opening of a block: three backquotes, [ya?ml] and a line feed. *)
Definition opening (s : string) : option string :=
  match after "```yaml" s with
  | Some rest => after nl rest
  | None =>
      match after "```yml" s with
      | Some rest => after nl rest
      | None => None
      end
  end.

(** The lazy group [(.*?)] before a line feed and three backquotes. *)
Fixpoint until_fence (s : string) : option string :=
  match after nl s with
  | Some (String "`" (String "`" (String "`" _))) => Some EmptyString
  | _ =>
      match s with
      | EmptyString => None
      | String c r => option_map (String c) (until_fence r)
      end
  end.

(** Group 1 of the leftmost match of the pattern in [text] with
    [re.DOTALL]. *)
Fixpoint search (text : string) : option string :=
  match (match opening text with
         | Some rest => until_fence rest
         | None => None
         end) with
  | Some group => Some group
  | None =>
      match text with
      | EmptyString => None
      | String _ r => search r
      end
  end.

(** [text[text.find(marker):]] when the marker is found. *)
Fixpoint from_first (marker text : string) : option string :=
  if String.prefix marker text then Some text
  else
    match text with
    | EmptyString => None
    | String _ r => from_first marker r
    end.

Section Yaml.

(** whether [yaml.safe_load] raises [YAMLError] on a text *)
Variable yaml_error : string -> bool.

(** [yaml.dump] of the wrapper around a raw analysis *)
Variable dump_raw : string -> string.

(** The block between the fences, stripped, when it loads. *)
Definition fenced (analysis_text : string) : option string :=
  if Py.contains "```yaml" analysis_text || Py.contains "```yml" analysis_text
  then
    match search analysis_text with
    | Some group =>
        let yaml_text := Py.strip group in
        if yaml_error yaml_text then None else Some yaml_text
    | None => None
    end
  else None.

(** The text from the first document marker on, when it loads. *)
Definition bare (analysis_text : string) : option string :=
  if Py.contains "---" analysis_text
     || Py.contains "video_analysis:" analysis_text
  then
    let yaml_text :=
      match from_first "---" analysis_text with
      | Some tail => tail
      | None => analysis_text
      end in
    if yaml_error yaml_text then None else Some yaml_text
  else None.

(** [parse_to_yaml(analysis_text)] *)
Definition parse_to_yaml (analysis_text : string) : string :=
  match fenced analysis_text with
  | Some yaml_text => yaml_text
  | None =>
      match bare analysis_text with
      | Some yaml_text => yaml_text
      | None => dump_raw analysis_text
      end
  end.

End Yaml.

End AnalyzeVideo.

(** ** Sample inputs of the logging and analysis tools *)

Module Desk.

(** An analysis with one scene. *)
Definition analysis : CreatePrompts.video_analysis :=
  {| CreatePrompts.overall_duration := CreatePrompts.Int 5;
     CreatePrompts.total_scenes := CreatePrompts.Int 1;
     CreatePrompts.music_sound := "soft piano";
     CreatePrompts.scenes :=
       [ {| CreatePrompts.scene_number := CreatePrompts.Int 1;
            CreatePrompts.description := "A robot waves";
            CreatePrompts.subject := "robot";
            CreatePrompts.environment := "kitchen";
            CreatePrompts.action := "waves. Then bows";
            CreatePrompts.lighting := "Soft";
            CreatePrompts.camera := "static";
            CreatePrompts.duration := CreatePrompts.Int 5 |} ] |}.

(** The row the store holds for the one prompt of [analysis]. *)
Definition row : Airtable.record :=
  {| Airtable.id := "rec1";
     Airtable.fields :=
       LogToAirtable.record_of "Creative Cloner Project"
         (CreatePrompts.prompt_of "A red robot"
            {| CreatePrompts.scene_number := CreatePrompts.Int 1;
               CreatePrompts.description := "A robot waves";
               CreatePrompts.subject := "robot";
               CreatePrompts.environment := "kitchen";
               CreatePrompts.action := "waves. Then bows";
               CreatePrompts.lighting := "Soft";
               CreatePrompts.camera := "static";
               CreatePrompts.duration := CreatePrompts.Int 5 |}) |}.

(** A store that holds [rows] and accepts every request. *)
Definition store (rows : list Airtable.record) : LogToAirtable.world :=
  {| LogToAirtable.environ := Samples.environ;
     LogToAirtable.prompts_file := fun _ =>
       Some (CreatePrompts.create_prompts analysis "A red robot");
     LogToAirtable.table_all := fun _ => Ok rows;
     LogToAirtable.batch_delete := fun _ _ => None;
     LogToAirtable.table_create := fun _ fields =>
       Ok {| Airtable.id := "recNew"; Airtable.fields := fields |} |}.

(** Twenty-three rows of one project. *)
Definition rows : list Airtable.record :=
  map (fun k => Samples.prompted (Py.str_of_int (Z.of_nat k))) (seq 0 23).

(** The logger on its defaults. *)
Definition logger_args : LogToAirtable.args :=
  {| LogToAirtable.prompts := "outputs/prompts.yaml";
     LogToAirtable.project_name := "Creative Cloner Project";
     LogToAirtable.clear_given := false |}.

(** A file that is processed by the third look. *)
Definition slow_upload : AnalyzeVideo.world :=
  {| AnalyzeVideo.video_exists := true;
     AnalyzeVideo.guessed_type := Some "video/mp4";
     AnalyzeVideo.state_after := fun k =>
       if (k <? 3)%nat then AnalyzeVideo.PROCESSING else AnalyzeVideo.ACTIVE |}.

(** A file that stays in processing. *)
Definition stuck_upload : AnalyzeVideo.world :=
  {| AnalyzeVideo.video_exists := true;
     AnalyzeVideo.guessed_type := None;
     AnalyzeVideo.state_after := fun _ => AnalyzeVideo.PROCESSING |}.

End Desk.

Module Pipeline.



End Pipeline.

Module Sentences.

(** ['.'.join(pieces)] *)
Fixpoint join (pieces : list string) : string :=
  match pieces with
  | [] => EmptyString
  | piece :: rest =>
      match rest with
      | [] => piece
      | _ :: _ => piece ++ "." ++ join rest
      end
  end.

(** The pieces, each followed by a full stop. *)
Fixpoint closed (pieces : list string) : string :=
  match pieces with
  | [] => EmptyString
  | piece :: rest => piece ++ "." ++ closed rest
  end.

End Sentences.

(** * Properties *)

(** ** Facts about Python strings *)

Section PyFacts.

Lemma len_nonneg s : (0 <= Py.len s)%Z.
Proof. unfold Py.len. lia. Qed.

Lemma string_length_append (a b : string) :
  String.length (a ++ b) = (String.length a + String.length b)%nat.
Proof. induction a as [|c a IH]; simpl; [reflexivity | now rewrite IH]. Qed.

Lemma len_append a b : Py.len (a ++ b) = (Py.len a + Py.len b)%Z.
Proof. unfold Py.len. rewrite string_length_append. lia. Qed.

Lemma append_assoc (a b c : string) : (a ++ b) ++ c = a ++ (b ++ c).
Proof. induction a as [|x a IH]; simpl; [reflexivity | now rewrite IH]. Qed.

Lemma lstrip_length s : (String.length (Py.lstrip s) <= String.length s)%nat.
Proof.
  induction s as [|c r IH]; simpl; [lia|].
  destruct (Py.isspace c); simpl; lia.
Qed.

Lemma rstrip_length s : (String.length (Py.rstrip s) <= String.length s)%nat.
Proof.
  induction s as [|c r IH]; simpl; [lia|].
  destruct (Py.rstrip r) as [|d r'] eqn:E.
  - destruct (Py.isspace c); simpl; lia.
  - simpl in *. lia.
Qed.

Lemma strip_len s : (Py.len (Py.strip s) <= Py.len s)%Z.
Proof.
  unfold Py.strip, Py.len.
  pose proof (rstrip_length (Py.lstrip s)). pose proof (lstrip_length s). lia.
Qed.

Lemma take_length n s :
  String.length (Py.take n s) = Nat.min n (String.length s).
Proof.
  revert s; induction n as [|n IH]; intros [|c r]; simpl; try reflexivity.
  now rewrite IH.
Qed.

Lemma slice_to_len s k :
  (0 <= k <= Py.len s)%Z -> Py.len (Py.slice_to s k) = k.
Proof.
  intros [H0 H1]. unfold Py.slice_to.
  destruct (Z.leb_spec 0 k); [|lia].
  unfold Py.len in *. rewrite take_length. lia.
Qed.

(** Stripping on the left stops at the first character that is not
    white space. *)
Lemma lstrip_keeps pre c rest :
  Py.isspace c = false ->
  exists pre', Py.lstrip (pre ++ String c rest) = pre' ++ String c rest.
Proof.
  intros Hc. induction pre as [|x pre IH]; simpl.
  - exists "". simpl. now rewrite Hc.
  - destruct (Py.isspace x).
    + exact IH.
    + now exists (String x pre).
Qed.

(** Stripping on the right stops at the last character that is not
    white space. *)
Lemma rstrip_keeps pre c post :
  Py.isspace c = false ->
  exists post', Py.rstrip (pre ++ String c post) = pre ++ String c post'.
Proof.
  intros Hc. induction pre as [|x pre IH]; simpl.
  - destruct (Py.rstrip post) as [|d r]; [rewrite Hc|]; eauto.
  - destruct IH as [post' ->].
    destruct (pre ++ String c post') eqn:E.
    + destruct pre; discriminate E.
    + exists post'. now rewrite E.
Qed.

(** What lies between two characters that are not white space survives
    [strip()]. *)
Lemma strip_keeps pre c mid d post :
  Py.isspace c = false -> Py.isspace d = false ->
  exists pre' post',
    Py.strip (pre ++ String c (mid ++ String d post))
    = pre' ++ String c (mid ++ String d post').
Proof.
  intros Hc Hd. unfold Py.strip.
  destruct (lstrip_keeps pre c (mid ++ String d post) Hc) as [pre' ->].
  destruct (rstrip_keeps (pre' ++ String c mid) d post Hd) as [post' E].
  exists pre', post'.
  assert (A : forall x, (pre' ++ String c mid) ++ x = pre' ++ String c (mid ++ x))
    by (intros x; now rewrite append_assoc).
  rewrite !A in E. exact E.
Qed.

End PyFacts.

(** ** Prompt truncation *)

Section TruncateFacts.

Import Truncate.

(** The loop either leaves [truncated] as it found it or ends within
    the margin. *)
Lemma accumulate_bound sentences truncated max_length :
  accumulate sentences truncated max_length = truncated
  \/ (Py.len (accumulate sentences truncated max_length) <= max_length - 50)%Z.
Proof.
  revert truncated.
  induction sentences as [|s rest IH]; intros truncated; simpl; [now left|].
  destruct (Z.leb_spec (Py.len truncated + Py.len s + 1) (max_length - 50));
    [|now left].
  right. destruct (IH (truncated ++ s ++ ".")) as [-> | Hb]; [|exact Hb].
  rewrite !len_append. change (Py.len ".") with 1%Z. lia.
Qed.

Lemma truncate_prompt_short prompt max_length :
  (Py.len prompt <= max_length)%Z ->
  truncate_prompt prompt max_length = prompt.
Proof.
  intros H. unfold truncate_prompt.
  now destruct (Z.leb_spec (Py.len prompt) max_length); [|lia].
Qed.

Lemma truncate_prompt_long prompt max_length :
  (3 <= max_length)%Z -> (max_length < Py.len prompt)%Z ->
  (Py.len (truncate_prompt prompt max_length) <= max_length)%Z.
Proof.
  intros H3 Hlong. unfold truncate_prompt.
  destruct (Z.leb_spec (Py.len prompt) max_length); [lia|].
  etransitivity; [apply strip_len|].
  set (acc := accumulate (Py.split "." prompt) "" max_length).
  destruct (negb (Py.truthy acc) || (Py.len acc <? 50)%Z) eqn:E.
  - rewrite len_append, slice_to_len by lia.
    change (Py.len "...") with 3%Z. lia.
  - destruct (accumulate_bound (Py.split "." prompt) "" max_length)
      as [Hacc | Hacc]; fold acc in Hacc.
    + rewrite Hacc in E. discriminate E.
    + lia.
Qed.

Lemma truncate_prompt_fits prompt max_length :
  (3 <= max_length)%Z ->
  (Py.len (truncate_prompt prompt max_length) <= max_length)%Z.
Proof.
  intros H3.
  destruct (Z.le_gt_cases (Py.len prompt) max_length) as [Hs | Hl].
  - now rewrite truncate_prompt_short.
  - now apply truncate_prompt_long.
Qed.

End TruncateFacts.

(** Every limit in [MODELS] is at least three characters. *)
Lemma model_limits_allow_hard_cut :
  (forall m, 3 <= GenerateImages.max_prompt_length (GenerateImages.MODELS m))%Z
  /\ (forall m, 3 <= GenerateVideos.max_prompt_length (GenerateVideos.MODELS m))%Z.
Proof. split; intros []; simpl; lia. Qed.

(** C3: for every prompt and every limit of a model in [MODELS], in
    both tools: a prompt longer than the limit is truncated to at most
    the limit, a prompt within the limit is returned unchanged, and
    truncating twice is truncating once. *)
Theorem truncate_prompt_within_limit (prompt : string) :
  (forall m,
      let max_length :=
        GenerateImages.max_prompt_length (GenerateImages.MODELS m) in
      ((max_length < Py.len prompt)%Z ->
       (Py.len (GenerateImages.truncate_prompt prompt max_length)
        <= max_length)%Z)
      /\ ((Py.len prompt <= max_length)%Z ->
          GenerateImages.truncate_prompt prompt max_length = prompt)
      /\ GenerateImages.truncate_prompt
           (GenerateImages.truncate_prompt prompt max_length) max_length
         = GenerateImages.truncate_prompt prompt max_length)
  /\ (forall m,
        let max_length :=
          GenerateVideos.max_prompt_length (GenerateVideos.MODELS m) in
        ((max_length < Py.len prompt)%Z ->
         (Py.len (GenerateVideos.truncate_prompt prompt max_length)
          <= max_length)%Z)
        /\ ((Py.len prompt <= max_length)%Z ->
            GenerateVideos.truncate_prompt prompt max_length = prompt)
        /\ GenerateVideos.truncate_prompt
             (GenerateVideos.truncate_prompt prompt max_length) max_length
           = GenerateVideos.truncate_prompt prompt max_length).
Proof.
  destruct model_limits_allow_hard_cut as (Himages & Hvideos).
  unfold GenerateImages.truncate_prompt, GenerateVideos.truncate_prompt.
  split; intros m; cbv zeta.
  - pose proof (Himages m) as H3.
    split; [now apply truncate_prompt_long|].
    split; [apply truncate_prompt_short|].
    apply truncate_prompt_short. now apply truncate_prompt_fits.
  - pose proof (Hvideos m) as H3.
    split; [now apply truncate_prompt_long|].
    split; [apply truncate_prompt_short|].
    apply truncate_prompt_short. now apply truncate_prompt_fits.
Qed.

(** ** Selection of the scenes ready for video generation *)

Section Selection.

Import GenerateVideos.

(** The test of the loop is the predicate of the design. *)
Lemma present_reference (r : Airtable.record) (key : string) :
  present (Airtable.fields r) key
  = bool_decide (Props.reference r key <> None).
Proof.
  unfold present, Props.reference.
  destruct (Airtable.fields r !! key) as [v|]; [|reflexivity].
  now destruct (Airtable.truthy v).
Qed.

Lemma selects_eligible (r : Airtable.record) :
  present (Airtable.fields r) "start_image"
  && negb (present (Airtable.fields r) "scene_video")
  = Props.eligible_for_video r.
Proof.
  unfold Props.eligible_for_video. rewrite !present_reference. f_equal.
  destruct (Props.reference r "scene_video"); reflexivity.
Qed.

(** The loop appends the eligible rows, in order, to what it has. *)
Lemma select_filter (all_records scenes : list Airtable.record) :
  select all_records scenes
  = (scenes ++ List.filter Props.eligible_for_video all_records)%list.
Proof.
  revert scenes. induction all_records as [|r rest IH]; intros scenes; simpl.
  - now rewrite app_nil_r.
  - rewrite selects_eligible.
    destruct (Props.eligible_for_video r); rewrite IH; [|reflexivity].
    now rewrite <- app_assoc.
Qed.

End Selection.

(** C1: of the rows the store returns for a project, the video stage
    selects exactly those with a non-empty start image and without a
    scene video, each once and in the order of the store. *)
Theorem video_stage_selects_eligible (w : World.world) (project_name : string) :
  let all_records :=
    World.table_all w (Airtable.project_formula project_name) in
  let scenes := GenerateVideos.get_scenes_from_airtable w project_name in
  scenes = List.filter Props.eligible_for_video all_records
  /\ forall r,
       In r scenes <->
       In r all_records
       /\ Props.reference r "start_image" <> None
       /\ Props.reference r "scene_video" = None.
Proof.
  intros all_records scenes.
  assert (E : scenes = List.filter Props.eligible_for_video all_records).
  { unfold scenes, GenerateVideos.get_scenes_from_airtable. fold all_records.
    case_bool_decide as Hnil; [now rewrite Hnil | apply select_filter]. }
  split; [exact E|]. intros r. rewrite E, filter_In.
  unfold Props.eligible_for_video.
  rewrite andb_true_iff, !bool_decide_eq_true. tauto.
Qed.

(** ** Polling a task that stays pending *)

Section PollingFacts.

Variable tps : Z.
Variable env : nat -> Kie.exchange.
Variable max_wait start_time : Z.

Hypothesis pending_forever : Props.stays_pending env.

Lemma pending_not_terminal (state : option string) :
  GenerateImages.pending state = true ->
  bool_decide (state = Some "success") = false
  /\ bool_decide (state = Some "fail") = false.
Proof.
  destruct state as [s|]; simpl; [|discriminate].
  rewrite !orb_true_iff, !String.eqb_eq.
  intros [[-> | ->] | ->]; split; apply bool_decide_eq_false; discriminate.
Qed.

(** One step of either loop on a pending reply. *)
Ltac pending_step k :=
  let data := fresh "data" in
  let Hreply := fresh "Hreply" in
  let Hstate := fresh "Hstate" in
  let Hs := fresh "Hs" in
  let Hf := fresh "Hf" in
  destruct (pending_forever k) as [data [Hreply Hstate]];
  destruct (pending_not_terminal _ Hstate) as [Hs Hf];
  rewrite Hreply; cbn [negb Z.eqb Pos.eqb]; rewrite Hs, Hf.

(** While the status is pending the image loop can only end by the
    time-out, and not before the budget is spent. *)
Lemma images_poll_only_times_out (fuel poll_count : nat) (now : Z) r at_ :
  GenerateImages.poll_loop tps env max_wait start_time fuel poll_count now
  = Some (r, at_) ->
  r = Raise (GenerateImages.timeout_error max_wait)
  /\ (max_wait * tps <= at_ - start_time)%Z.
Proof.
  revert poll_count now.
  induction fuel as [|fuel IH]; intros poll_count now; simpl; [discriminate|].
  destruct (Z.ltb_spec (now - start_time) (max_wait * tps)).
  - pending_step (S poll_count). rewrite Hstate.
    repeat match goal with |- context [if ?b then _ else _] => destruct b end;
      apply IH.
  - intros [= <- <-]. split; [reflexivity | lia].
Qed.

Lemma videos_poll_only_times_out (fuel poll_count : nat) (now : Z) r at_ :
  GenerateVideos.poll_loop tps env max_wait start_time fuel poll_count now
  = Some (r, at_) ->
  r = Raise (GenerateVideos.timeout_error max_wait)
  /\ (max_wait * tps <= at_ - start_time)%Z.
Proof.
  revert poll_count now.
  induction fuel as [|fuel IH]; intros poll_count now; simpl; [discriminate|].
  destruct (Z.ltb_spec (now - start_time) (max_wait * tps)).
  - pending_step (S poll_count).
    repeat match goal with |- context [if ?b then _ else _] => destruct b end;
      apply IH.
  - intros [= <- <-]. split; [reflexivity | lia].
Qed.

Hypothesis ticking : (0 < tps)%Z.
Hypothesis timed : Props.well_timed env.

(** Every turn on a pending reply moves the clock on, so the loops end:
    [m] bounds the ticks left of the budget. *)
Lemma images_poll_ends (m poll_count : nat) (now : Z) :
  (max_wait * tps - (now - start_time) <= Z.of_nat m)%Z ->
  exists r at_,
    GenerateImages.poll_loop tps env max_wait start_time (S m) poll_count now
    = Some (r, at_).
Proof.
  revert poll_count now.
  induction m as [|m IH]; intros poll_count now Hleft.
  - simpl. destruct (Z.ltb_spec (now - start_time) (max_wait * tps)); [lia|].
    eauto.
  - remember (S m) as fuel eqn:Efuel. simpl.
    destruct (Z.ltb_spec (now - start_time) (max_wait * tps)); [|eauto].
    pending_step (S poll_count). rewrite Hstate.
    destruct (timed (S poll_count)) as [Hl Ho].
    subst fuel. unfold GenerateImages.slept.
    repeat match goal with |- context [if ?b then _ else _] => destruct b end;
      apply IH; lia.
Qed.

Lemma videos_poll_ends (m poll_count : nat) (now : Z) :
  (max_wait * tps - (now - start_time) <= Z.of_nat m)%Z ->
  exists r at_,
    GenerateVideos.poll_loop tps env max_wait start_time (S m) poll_count now
    = Some (r, at_).
Proof.
  revert poll_count now.
  induction m as [|m IH]; intros poll_count now Hleft.
  - simpl. destruct (Z.ltb_spec (now - start_time) (max_wait * tps)); [lia|].
    eauto.
  - remember (S m) as fuel eqn:Efuel. simpl.
    destruct (Z.ltb_spec (now - start_time) (max_wait * tps)); [|eauto].
    pending_step (S poll_count).
    destruct (timed (S poll_count)) as [Hl Ho].
    subst fuel. unfold GenerateVideos.slept.
    repeat match goal with |- context [if ?b then _ else _] => destruct b end;
      apply IH; lia.
Qed.

Lemma images_poll_times_out :
  Props.ends_raising
    (GenerateImages.poll_task_status tps env max_wait start_time)
    (GenerateImages.timeout_error max_wait) start_time (max_wait * tps).
Proof.
  unfold GenerateImages.poll_task_status. split.
  - destruct (images_poll_ends (Z.to_nat (max_wait * tps)) 0 start_time)
      as (r & at_ & E); [lia|].
    destruct (images_poll_only_times_out _ _ _ _ _ E) as [-> Hat]. eauto.
  - intros fuel r at_. apply images_poll_only_times_out.
Qed.

Lemma videos_poll_times_out :
  Props.ends_raising
    (GenerateVideos.poll_task_status tps env max_wait start_time)
    (GenerateVideos.timeout_error max_wait) start_time (max_wait * tps).
Proof.
  unfold GenerateVideos.poll_task_status. split.
  - destruct (videos_poll_ends (Z.to_nat (max_wait * tps)) 0 start_time)
      as (r & at_ & E); [lia|].
    destruct (videos_poll_only_times_out _ _ _ _ _ E) as [-> Hat]. eauto.
  - intros fuel r at_. apply videos_poll_only_times_out.
Qed.

End PollingFacts.

(** The time-out is not the failure the provider reports: in the image
    tool it is of another class, in the video tool both are plain
    exceptions whose messages differ. *)
Lemma timeout_is_not_remote_failure (max_wait : Z) (data : Kie.task_data) :
  GenerateImages.timeout_error max_wait <> GenerateImages.generation_failed data
  /\ exn_type (GenerateImages.timeout_error max_wait)
     <> exn_type (GenerateImages.generation_failed data)
  /\ GenerateVideos.timeout_error max_wait
     <> GenerateVideos.generation_failed data
  /\ exn_type (GenerateVideos.timeout_error max_wait)
     = exn_type (GenerateVideos.generation_failed data).
Proof.
  split; [|split; [|split]]; try reflexivity;
    intros H; cbn in H; discriminate H.
Qed.

(** C4: a polling run whose status stays pending ends, in both tools, by
    raising the time-out, which is not a failure reported by the
    provider, and the clock then reads at least the budget past the
    start: 600 seconds for an image, 900 seconds for a video. No such
    run ends earlier or otherwise. *)
Theorem polling_times_out_on_budget (tps : Z) (env : nat -> Kie.exchange)
    (start_time : Z) :
  (0 < tps)%Z -> Props.stays_pending env -> Props.well_timed env ->
  Props.ends_raising
    (GenerateImages.poll_task_status tps env GenerateImages.default_max_wait
       start_time)
    (GenerateImages.timeout_error 600) start_time (600 * tps)
  /\ Props.ends_raising
       (GenerateVideos.poll_task_status tps env GenerateVideos.default_max_wait
          start_time)
       (GenerateVideos.timeout_error 900) start_time (900 * tps)
  /\ (forall data,
        GenerateImages.timeout_error 600
        <> GenerateImages.generation_failed data)
  /\ (forall data,
        GenerateVideos.timeout_error 900
        <> GenerateVideos.generation_failed data).
Proof.
  intros Htps Hp Ht. split; [|split; [|split]].
  - now apply images_poll_times_out.
  - now apply videos_poll_times_out.
  - intros data. apply timeout_is_not_remote_failure.
  - intros data. apply timeout_is_not_remote_failure.
Qed.

Lemma polling_times_out_on_budget_witness :
  Props.ends_raising
    (GenerateImages.poll_task_status 1000 (fun _ => Samples.generating) 600 0)
    (GenerateImages.timeout_error 600) 0 600000
  /\ Props.ends_raising
       (GenerateVideos.poll_task_status 1000 (fun _ => Samples.generating) 900 0)
       (GenerateVideos.timeout_error 900) 0 900000.
Proof.
  assert (Hp : Props.stays_pending (fun _ => Samples.generating))
    by (intros k; eexists; split; reflexivity).
  assert (Ht : Props.well_timed (fun _ => Samples.generating))
    by (intros k; simpl; lia).
  destruct (polling_times_out_on_budget 1000 (fun _ => Samples.generating) 0
              ltac:(lia) Hp Ht) as (Hi & Hv & _).
  split; [exact Hi | exact Hv].
Defined.

(** ** Ordering of the video files *)

Section Ordering.

Import CombineAll.

Lemma numbered_has_number name n : Props.numbered name n -> Props.has_number name = true.
Proof. unfold Props.numbered, Props.has_number. now intros ->. Qed.

(** A comparison succeeds on keys of one kind only. *)
Lemma key_lt_ok a b (before : bool) :
  key_lt (get_scene_number a) (get_scene_number b) = Ok before ->
  Props.has_number a = Props.has_number b.
Proof.
  unfold Props.has_number.
  destruct (get_scene_number a), (get_scene_number b); simpl;
    intros H; (discriminate H || reflexivity).
Qed.

Lemma key_lt_raises a b e :
  key_lt a b = Raise e -> exn_type e = TypeError.
Proof. destruct a, b; simpl; intros [= <-]; reflexivity. Qed.

Lemma insert_perm file sorted l :
  insert file sorted = Ok l -> Permutation (file :: sorted) l.
Proof.
  revert l. induction sorted as [|other rest IH]; intros l; simpl.
  - now intros [= <-].
  - destruct (key_lt _ _) as [[|]|e]; simpl; [| |discriminate].
    + destruct (insert file rest) as [rest'|e]; simpl; [|discriminate].
      intros [= <-]. rewrite perm_swap. constructor. now apply IH.
    + now intros [= <-].
Qed.

Lemma sort_perm files l : sort files = Ok l -> Permutation files l.
Proof.
  revert l. induction files as [|file rest IH]; intros l; simpl.
  - now intros [= <-].
  - destruct (sort rest) as [sorted|e]; simpl; [|discriminate].
    intros H. apply insert_perm in H.
    rewrite <- H. constructor. now apply IH.
Qed.

Lemma insert_raises file sorted e :
  insert file sorted = Raise e -> exn_type e = TypeError.
Proof.
  induction sorted as [|other rest IH]; simpl; [discriminate|].
  destruct (key_lt _ _) as [[|]|e'] eqn:E; simpl.
  - destruct (insert file rest) as [rest'|e'']; simpl; [discriminate|].
    intros [= <-]. now apply IH.
  - discriminate.
  - intros [= <-]. now apply key_lt_raises in E.
Qed.

Lemma sort_raises files e : sort files = Raise e -> exn_type e = TypeError.
Proof.
  revert e. induction files as [|file rest IH]; intros e; simpl; [discriminate|].
  destruct (sort rest) as [sorted|e']; simpl.
  - apply insert_raises.
  - intros [= <-]. now apply IH.
Qed.

(** A sort that returns has compared keys of one kind only. *)
Lemma sort_ok_one_kind files l :
  sort files = Ok l ->
  forall f g, In f files -> In g files ->
              Props.has_number f = Props.has_number g.
Proof.
  revert l. induction files as [|file rest IH]; intros l; simpl; [tauto|].
  destruct (sort rest) as [sorted|e] eqn:Es; simpl; [|discriminate].
  intros Hins.
  assert (Hrest : forall g, In g rest ->
                            Props.has_number file = Props.has_number g).
  { intros g Hg. pose proof (sort_perm _ _ Es) as Hp.
    destruct sorted as [|other tail].
    - apply Permutation_sym, Permutation_nil in Hp. subst rest. destruct Hg.
    - simpl in Hins.
      destruct (key_lt _ _) as [before|e] eqn:Ek; [|discriminate].
      apply key_lt_ok in Ek. rewrite <- Ek.
      apply (IH _ eq_refl); [|exact Hg].
      apply (Permutation_in _ (Permutation_sym Hp)). now left. }
  intros f g [<- | Hf] [<- | Hg]; auto.
  - symmetry. auto.
  - now apply (IH _ eq_refl).
Qed.

(** Files with one scene number keep the order they were found in. *)
Lemma insert_stable file sorted l n :
  insert file sorted = Ok l ->
  List.filter (Props.number_is n) l
  = List.filter (Props.number_is n) (file :: sorted).
Proof.
  revert l. induction sorted as [|other rest IH]; intros l.
  - simpl. now intros [= <-].
  - cbn [insert]. destruct (key_lt _ _) as [[|]|e] eqn:Ek; simpl;
      [| now intros [= <-] | discriminate].
    destruct (insert file rest) as [rest'|e]; simpl; [|discriminate].
    intros [= <-]. simpl. rewrite (IH _ eq_refl). simpl.
    unfold Props.number_is in *.
    destruct (get_scene_number other) as [m|], (get_scene_number file) as [k|];
      simpl in Ek; try discriminate; try reflexivity.
    injection Ek as Ek. apply Z.ltb_lt in Ek.
    destruct (Z.eqb_spec k n), (Z.eqb_spec m n); try reflexivity. lia.
Qed.

Lemma sort_stable files l n :
  sort files = Ok l ->
  List.filter (Props.number_is n) l = List.filter (Props.number_is n) files.
Proof.
  revert l. induction files as [|file rest IH]; intros l; simpl.
  - now intros [= <-].
  - destruct (sort rest) as [sorted|e]; simpl; [|discriminate].
    intros H. rewrite (insert_stable _ _ _ n H). simpl.
    now rewrite (IH _ eq_refl).
Qed.

Lemma number_le_trans a b c :
  Props.number_le a b -> Props.number_le b c -> Props.number_le a c.
Proof.
  unfold Props.number_le, Props.numbered.
  intros (x & y & Hx & Hy & Hxy) (y' & z & Hy' & Hz & Hyz).
  exists x, z. rewrite Hy in Hy'. injection Hy' as <-. repeat split; auto. lia.
Qed.

(** Inserting a numbered file among numbered files in order keeps them
    in order. *)
Lemma insert_sorted file sorted :
  Props.has_number file = true ->
  Forall (fun g => Props.has_number g = true) sorted ->
  StronglySorted Props.number_le sorted ->
  exists l, insert file sorted = Ok l /\ StronglySorted Props.number_le l.
Proof.
  intros Hfile Hall Hs.
  induction sorted as [|other rest IH]; simpl.
  - eexists. split; [reflexivity|]. repeat constructor.
  - inversion Hall as [|? ? Hother Hrest]; subst.
    inversion Hs as [|? ? Hs' Hle]; subst.
    unfold Props.has_number in Hfile, Hother.
    destruct (get_scene_number other) as [m|] eqn:Em; [|discriminate].
    destruct (get_scene_number file) as [k|] eqn:Ek; [|discriminate].
    simpl. destruct (Z.ltb_spec m k) as [Hlt | Hge].
    + destruct (IH Hrest Hs') as (l & El & Hl). rewrite El. simpl.
      eexists. split; [reflexivity|]. constructor; [exact Hl|].
      apply (Permutation_Forall (insert_perm _ _ _ El)).
      constructor; [|exact Hle].
      exists m, k. unfold Props.numbered. repeat split; auto. lia.
    + eexists. split; [reflexivity|].
      assert (Hfo : Props.number_le file other).
      { exists k, m. unfold Props.numbered. repeat split; auto. }
      constructor; [exact Hs|]. constructor; [exact Hfo|].
      eapply Forall_impl; [exact Hle|].
      intros g Hg. now apply (number_le_trans _ other).
Qed.

Lemma sort_sorted files :
  Forall (fun g => Props.has_number g = true) files ->
  exists l, sort files = Ok l /\ StronglySorted Props.number_le l.
Proof.
  induction files as [|file rest IH]; intros Hall; simpl.
  - eexists. split; [reflexivity | constructor].
  - inversion Hall as [|? ? Hfile Hrest]; subst.
    destruct (IH Hrest) as (sorted & Es & Hs). rewrite Es. simpl.
    apply insert_sorted; auto.
    apply (Permutation_Forall (sort_perm _ _ Es)). exact Hrest.
Qed.

Lemma by_project_incl project_name files f :
  In f (by_project project_name files) -> In f files.
Proof.
  unfold by_project. destruct project_name as [p|]; [|auto].
  destruct (Py.truthy p); [|auto]. rewrite filter_In. tauto.
Qed.

End Ordering.

(** C5: when every file name carries a scene number, the files the
    assembler keeps come out in the order of their numbers, read as
    numbers, files with the same number in the order they were found.
    In particular scene_2_x, scene_10_y, scene_1_z come out as scene_1_z,
    scene_2_x, scene_10_y. *)
Theorem numbered_files_in_numeric_order (files : list string)
    (project_name : option string) :
  Forall (fun name => exists n, Props.numbered name n) files ->
  (exists sorted,
      CombineAll.find_video_files (Some files) project_name = Ok sorted
      /\ Permutation (CombineAll.by_project project_name files) sorted
      /\ StronglySorted Props.number_le sorted
      /\ forall n,
           List.filter (Props.number_is n) sorted
           = List.filter (Props.number_is n)
               (CombineAll.by_project project_name files))
  /\ CombineAll.find_video_files
       (Some ["scene_2_x.mp4"; "scene_10_y.mp4"; "scene_1_z.mp4"]) None
     = Ok ["scene_1_z.mp4"; "scene_2_x.mp4"; "scene_10_y.mp4"].
Proof.
  intros Hall. split; [|reflexivity].
  unfold CombineAll.find_video_files.
  set (kept := CombineAll.by_project project_name files).
  case_bool_decide as Hnil.
  - exists []. rewrite Hnil. repeat split; constructor.
  - assert (Hkept : Forall (fun g => Props.has_number g = true) kept).
    { apply List.Forall_forall. intros g Hg.
      apply by_project_incl in Hg.
      destruct (proj1 (List.Forall_forall _ _) Hall g Hg) as [n Hn].
      now apply numbered_has_number in Hn. }
    destruct (sort_sorted kept Hkept) as (sorted & Es & Hs).
    exists sorted. repeat split; auto.
    + now apply sort_perm.
    + intros n. now apply sort_stable.
Qed.

Lemma numbered_files_in_numeric_order_witness :
  exists sorted,
    CombineAll.find_video_files
      (Some ["scene_3_c.mp4"; "Scene 12.mp4"; "scene_3_a.mp4"]) None
    = Ok sorted
    /\ StronglySorted Props.number_le sorted.
Proof.
  destruct (numbered_files_in_numeric_order
              ["scene_3_c.mp4"; "Scene 12.mp4"; "scene_3_a.mp4"] None)
    as [(sorted & E & _ & Hs & _) _].
  - repeat constructor; eexists; vm_compute; reflexivity.
  - exists sorted. split; assumption.
Defined.

(** C6, as the code has it: a list with a numbered and an unnumbered
    file name is not ordered at all. The sort compares an [int] key with
    a [str] key and raises [TypeError], which nothing catches, so the
    stage ends there. *)
Theorem mixed_names_raise_type_error (files : list string) (f g : string) :
  In f files -> In g files ->
  Props.has_number f = true -> Props.has_number g = false ->
  (exists e,
      CombineAll.find_video_files (Some files) None = Raise e
      /\ exn_type e = TypeError)
  /\ forall a w,
       CombineAll.ffmpeg_installed w = true ->
       CombineAll.listing w = Some files ->
       CombineAll.project_name a = None ->
       exists e, snd (CombineAll.main a w) = CombineAll.Uncaught e.
Proof.
  intros Hf Hg Hnf Hng.
  assert (Hraise : exists e,
             CombineAll.find_video_files (Some files) None = Raise e
             /\ exn_type e = TypeError).
  { unfold CombineAll.find_video_files. simpl.
    case_bool_decide as Hnil; [subst files; destruct Hf|].
    destruct (CombineAll.sort files) as [l|e] eqn:Es.
    - pose proof (sort_ok_one_kind _ _ Es f g Hf Hg) as Hk. congruence.
    - exists e. split; [reflexivity|]. now apply sort_raises in Es. }
  split; [exact Hraise|].
  intros a w Hff Hl Hp. destruct Hraise as (e & E & _).
  exists e. unfold CombineAll.main. now rewrite Hff, Hl, Hp, E.
Qed.

Lemma mixed_names_raise_type_error_witness :
  exists e,
    CombineAll.find_video_files (Some ["scene_1_a.mp4"; "intro.mp4"]) None
    = Raise e
    /\ exn_type e = TypeError.
Proof.
  apply (mixed_names_raise_type_error ["scene_1_a.mp4"; "intro.mp4"]
           "scene_1_a.mp4" "intro.mp4").
  - simpl. auto.
  - simpl. auto.
  - vm_compute. reflexivity.
  - vm_compute. reflexivity.
Defined.

(** The failing input of C6, run through [main]. *)
Lemma mixed_names_stop_the_stage :
  CombineAll.main Samples.combine_args
    (Samples.outputs_with ["scene_1_a.mp4"; "intro.mp4"])
  = ([CombineAll.FfmpegVersion],
     CombineAll.Uncaught
       (mk_exn TypeError
          "'<' not supported between instances of 'str' and 'int'")).
Proof. reflexivity. Qed.

(** Unnumbered names alone are ordered by name. *)
Lemma unnumbered_names_alone :
  CombineAll.find_video_files (Some ["outro.mp4"; "intro.mp4"; "main.mp4"]) None
  = Ok ["intro.mp4"; "main.mp4"; "outro.mp4"].
Proof. reflexivity. Qed.

(** ** The combine stage on a single video *)

(** C10: when exactly one video file is found, the stage ends with exit
    code 0 after the version check of the muxing tool alone: no run of
    the tool on videos, no file written. *)
Theorem single_video_exits_zero (a : CombineAll.args) (w : CombineAll.world)
    (video : string) :
  CombineAll.ffmpeg_installed w = true ->
  CombineAll.find_video_files (CombineAll.listing w) (CombineAll.project_name a)
  = Ok [video] ->
  CombineAll.main a w = ([CombineAll.FfmpegVersion], CombineAll.Exit 0)
  /\ List.filter CombineAll.mux_call (fst (CombineAll.main a w)) = []
  /\ List.filter CombineAll.file_write (fst (CombineAll.main a w)) = [].
Proof.
  intros Hff Hfound.
  assert (E : CombineAll.main a w
              = ([CombineAll.FfmpegVersion], CombineAll.Exit 0)).
  { unfold CombineAll.main. rewrite Hff, Hfound. reflexivity. }
  rewrite E. repeat split.
Qed.

Lemma single_video_exits_zero_witness :
  CombineAll.main Samples.combine_args (Samples.outputs_with ["scene_1_a.mp4"])
  = ([CombineAll.FfmpegVersion], CombineAll.Exit 0).
Proof.
  apply (single_video_exits_zero Samples.combine_args
           (Samples.outputs_with ["scene_1_a.mp4"]) "scene_1_a.mp4");
    reflexivity.
Defined.

(** ** The prompt stage *)

Section PromptFacts.

Import CreatePrompts.

Lemma substring_here (s rest : string) : substring s (s ++ rest).
Proof. now exists "", rest. Qed.

Lemma substring_cons (s t : string) (c : ascii) :
  substring s t -> substring s (String c t).
Proof. intros (b & a & ->). now exists (String c b), a. Qed.

Lemma substring_app_r (s t pre : string) :
  substring s t -> substring s (pre ++ t).
Proof.
  intros (b & a & ->). exists (pre ++ b), a. now rewrite append_assoc.
Qed.

Lemma substring_app_l (s t post : string) :
  substring s t -> substring s (t ++ post).
Proof.
  intros (b & a & ->). exists b, (a ++ post). now rewrite !append_assoc.
Qed.

(** Puts a concatenation in the form [a ++ (b ++ (c ++ ...))]. *)
Ltac flatten :=
  cbn [String.append nl];
  repeat (rewrite !append_assoc; cbn [String.append]).

(** Finds a field in a flattened concatenation. *)
Ltac find_field :=
  repeat first
    [ apply substring_here
    | apply substring_cons
    | apply substring_app_r ].

(** The image prompt is the subject, then text from the S of Setting to
    the D of Details that holds the three fields, then the rest. *)
Lemma image_prompt_shape (subject_description : string) (s : scene) :
  exists mid post,
    image_prompt_text subject_description s
    = (subject_description ++ nl ++ nl) ++ String "S" (mid ++ String "D" post)
    /\ substring (environment s) mid
    /\ substring (lighting s) mid
    /\ substring (camera s) mid.
Proof.
  exists ("etting: " ++ environment s ++ nl
          ++ "Lighting: " ++ lighting s ++ nl
          ++ "Camera: " ++ camera s ++ nl ++ nl
          ++ "The subject is in this position/pose: "
          ++ hd "" (Py.split "." (action s)) ++ "." ++ nl ++ nl
          ++ "Style: Photorealistic, high quality, professional photography"
          ++ nl),
         ("etails: Sharp focus, natural colors, " ++ Py.lower (lighting s)).
  split; [|split; [|split]].
  - unfold image_prompt_text. flatten. reflexivity.
  - flatten. find_field.
  - flatten. find_field.
  - flatten. find_field.
Qed.

(** The video prompt runs from the C of Camera Type to the S of Style,
    and the three fields lie between them. *)
Lemma video_prompt_shape (subject_description : string) (s : scene) :
  exists mid post,
    video_prompt_text subject_description s
    = "" ++ String "C" (mid ++ String "S" post)
    /\ substring (environment s) mid
    /\ substring (lighting s) mid
    /\ substring (camera s) mid.
Proof.
  exists ("amera Type: " ++ camera s ++ nl ++ nl
          ++ "Main Movement: " ++ subject_description ++ " " ++ action s
          ++ nl ++ nl
          ++ "Setting: " ++ environment s ++ nl
          ++ "Lighting: " ++ lighting s ++ nl ++ nl
          ++ "Motion details: " ++ action s ++ nl
          ++ "Duration: " ++ str_of_number (duration s) ++ " seconds"
          ++ nl ++ nl),
         "tyle: Smooth, natural motion, high quality video, realistic physics".
  split; [|split; [|split]].
  - unfold video_prompt_text. flatten. reflexivity.
  - flatten. find_field.
  - flatten. find_field.
  - flatten. find_field.
Qed.

(** A field between two characters that are not white space is still
    there after [strip()]. *)
Lemma strip_keeps_substring (field pre mid post : string) (c d : ascii) :
  Py.isspace c = false -> Py.isspace d = false ->
  substring field mid ->
  substring field (Py.strip (pre ++ String c (mid ++ String d post))).
Proof.
  intros Hc Hd Hin.
  destruct (strip_keeps pre c mid d post Hc Hd) as (pre' & post' & ->).
  apply substring_app_r, substring_cons, substring_app_l. exact Hin.
Qed.

Lemma prompt_of_embeds (subject_description : string) (s : scene) :
  let p := prompt_of subject_description s in
  substring (environment s) (p_image_prompt p)
  /\ substring (lighting s) (p_image_prompt p)
  /\ substring (camera s) (p_image_prompt p)
  /\ substring (environment s) (p_video_prompt p)
  /\ substring (lighting s) (p_video_prompt p)
  /\ substring (camera s) (p_video_prompt p).
Proof.
  simpl.
  destruct (image_prompt_shape subject_description s)
    as (mi & pi & -> & Hie & Hil & Hic).
  destruct (video_prompt_shape subject_description s)
    as (mv & pv & -> & Hve & Hvl & Hvc).
  repeat split; now apply strip_keeps_substring.
Qed.

(** The loop appends one pair for each scene, in order. *)
Lemma each_scene_map (subject_description : string) (scenes : list scene)
    (prompts : list prompt) :
  each_scene subject_description scenes prompts
  = (prompts ++ map (prompt_of subject_description) scenes)%list.
Proof.
  revert prompts. induction scenes as [|s rest IH]; intros prompts; simpl.
  - now rewrite app_nil_r.
  - now rewrite IH, <- app_assoc.
Qed.

End PromptFacts.

(** C9: for an analysis with N scenes the prompt stage returns N pairs,
    the k-th for the k-th scene, and the image prompt and the video
    prompt of a pair both hold the environment, the lighting and the
    camera of their scene as they stand. *)
Theorem one_prompt_pair_per_scene (analysis : CreatePrompts.video_analysis)
    (subject_description : string) :
  let prompts := CreatePrompts.create_prompts analysis subject_description in
  length prompts = length (CreatePrompts.scenes analysis)
  /\ forall k s,
       nth_error (CreatePrompts.scenes analysis) k = Some s ->
       exists p,
         nth_error prompts k = Some p
         /\ CreatePrompts.p_scene_number p = CreatePrompts.scene_number s
         /\ CreatePrompts.substring (CreatePrompts.environment s)
              (CreatePrompts.p_image_prompt p)
         /\ CreatePrompts.substring (CreatePrompts.lighting s)
              (CreatePrompts.p_image_prompt p)
         /\ CreatePrompts.substring (CreatePrompts.camera s)
              (CreatePrompts.p_image_prompt p)
         /\ CreatePrompts.substring (CreatePrompts.environment s)
              (CreatePrompts.p_video_prompt p)
         /\ CreatePrompts.substring (CreatePrompts.lighting s)
              (CreatePrompts.p_video_prompt p)
         /\ CreatePrompts.substring (CreatePrompts.camera s)
              (CreatePrompts.p_video_prompt p).
Proof.
  intros prompts.
  assert (E : prompts
              = map (CreatePrompts.prompt_of subject_description)
                  (CreatePrompts.scenes analysis)).
  { unfold prompts, CreatePrompts.create_prompts. now rewrite each_scene_map. }
  rewrite E. split; [apply length_map|].
  intros k s Hk.
  exists (CreatePrompts.prompt_of subject_description s).
  split; [now rewrite nth_error_map, Hk|].
  split; [reflexivity|].
  apply prompt_of_embeds.
Qed.

(** ** The generation loops *)

Section Counting.

Lemma count_app kind (a b : list Effects.event) :
  Props.count kind (a ++ b) = (Props.count kind a + Props.count kind b)%Z.
Proof. unfold Props.count. rewrite List.filter_app, length_app. lia. Qed.

Lemma count_nil kind : Props.count kind [] = 0%Z.
Proof. reflexivity. Qed.

End Counting.

Section ImageLoop.

Import Effects World GenerateImages.

Variable w : world.
Variable a : args.
Variable reference_image_url : option string.
Variable n : Z.

(** Splits the facts about a turn and settles those that hold by
    computation. *)
Ltac turn_facts :=
  eexists; simpl; rewrite <- ?app_assoc; simpl;
  split; [reflexivity|];
  split; [simpl; lia|];
  split; [unfold Props.count; simpl; lia|];
  split; [reflexivity|];
  split; [simpl; eauto|].

(** What one turn of the image loop adds to the tally: one scene more,
    a failure counted for each failure line, a task created if there is
    a prompt, and the failure of the provider reported under the number
    of the scene. *)
Lemma image_turn (i : Z) (record : Airtable.record) (t : tally) :
  exists new,
    let t' := turn w a reference_image_url n i record t in
    log t' = (log t ++ new)%list
    /\ (successful t' + failed t' = successful t + failed t + 1)%Z
    /\ failed t' = (failed t + Props.count Props.image_failure new)%Z
    /\ Props.count Props.task_created new
       = (if Props.image_ready record then 1%Z else 0%Z)
    /\ (exists scene_name, In (SceneBanner i n scene_name) new)
    /\ (Props.image_ready record = true ->
        forall e, Props.scene_raises w i e -> In (Failed i e) new).
Proof.
  unfold turn, attempt, create_image_generation_task,
    update_airtable_with_image, Props.image_ready.
  destruct (Py.truthy _) eqn:Eprompt; simpl.
  2:{ turn_facts. discriminate. }
  destruct (Kie.task_id_of_reply (task_reply_of w i)) as [task_id|e1] eqn:Ec.
  2:{ destruct (i <? n)%Z; turn_facts;
        intros _ e [Hc | (task_id & Hc & Hp)]; try congruence;
        assert (e = e1) as -> by congruence; simpl; auto. }
  destruct (poll_outcome w i task_id) as [[|url urls]|e2] eqn:Ep.
  - destruct (i <? n)%Z; turn_facts;
      intros _ e [Hc | (task_id' & Hc & Hp)]; congruence.
  - destruct (table_update w i (Airtable.id record)) as [msg|];
      destruct (i <? n)%Z; turn_facts;
      intros _ e [Hc | (task_id' & Hc & Hp)]; congruence.
  - destruct (i <? n)%Z; turn_facts;
      intros _ e [Hc | (task_id' & Hc & Hp)]; try congruence;
      assert (task_id' = task_id) as -> by congruence;
      assert (e = e2) as -> by congruence; simpl; auto.
Qed.

(** The image loop from scene [i] on: the same facts for the rest of
    the batch, the scene at position [k] being scene [i + k]. *)
Lemma image_loop (scenes : list Airtable.record) (i : Z) (t : tally) :
  exists new,
    let t' := generation_loop w a reference_image_url n i scenes t in
    log t' = (log t ++ new)%list
    /\ (successful t' + failed t'
        = successful t + failed t + Z.of_nat (length scenes))%Z
    /\ failed t' = (failed t + Props.count Props.image_failure new)%Z
    /\ Props.count Props.task_created new
       = Z.of_nat (length (List.filter Props.image_ready scenes))
    /\ (forall k record,
          nth_error scenes k = Some record ->
          (exists scene_name,
              In (SceneBanner (i + Z.of_nat k) n scene_name) new)
          /\ (Props.image_ready record = true ->
              forall e, Props.scene_raises w (i + Z.of_nat k) e ->
                        In (Failed (i + Z.of_nat k) e) new)).
Proof.
  revert i t. induction scenes as [|record rest IH]; intros i t.
  - exists []. simpl. rewrite app_nil_r.
    split; [reflexivity|]. split; [simpl; lia|].
    split; [rewrite count_nil; lia|].
    split; [reflexivity|]. intros [|k] r Hk; discriminate Hk.
  - destruct (image_turn i record t) as (new1 & L1 & T1 & F1 & C1 & B1 & R1).
    destruct (IH (i + 1)%Z (turn w a reference_image_url n i record t))
      as (new2 & L2 & T2 & F2 & C2 & K2).
    exists (new1 ++ new2)%list. cbn zeta in *. cbn [generation_loop].
    split; [now rewrite L2, L1, app_assoc|].
    split; [rewrite T2, T1; cbn [length]; lia|].
    split; [rewrite F2, F1, count_app; lia|].
    split.
    { rewrite count_app, C1, C2. cbn [List.filter].
      destruct (Props.image_ready record); cbn [length]; lia. }
    intros [|k] r Hk.
    + injection Hk as <-. replace (i + Z.of_nat 0)%Z with i by lia.
      split.
      * destruct B1 as [name Hn]. exists name. apply in_or_app. now left.
      * intros Hr e He. apply in_or_app. left. now apply R1.
    + destruct (K2 k r Hk) as [Hb Hf].
      replace (i + Z.of_nat (S k))%Z with (i + 1 + Z.of_nat k)%Z by lia.
      split.
      * destruct Hb as [name Hn]. exists name. apply in_or_app. now right.
      * intros Hr e He. apply in_or_app. right. now apply Hf.
Qed.

End ImageLoop.

Section VideoLoop.

Import Effects World GenerateVideos.

Variable w : world.
Variable a : args.
Variable n : Z.

Ltac turn_facts :=
  eexists; simpl; rewrite <- ?app_assoc; simpl;
  split; [reflexivity|];
  split; [unfold Props.count; simpl; lia|];
  split; [unfold Props.count; simpl; lia|];
  split; [simpl; lia|];
  split; [reflexivity|];
  split; [simpl; eauto|].

(** What one turn of the video loop adds to the tally. A scene is a
    success, a failure, or skipped; only the first two are counted. *)
Lemma video_turn (i : Z) (record : Airtable.record) (t : tally) :
  exists new,
    let t' := turn w a n i record t in
    log t' = (log t ++ new)%list
    /\ (success_count t' + fail_count t' + Props.count Props.skipped new
        = success_count t + fail_count t + 1)%Z
    /\ fail_count t' = (fail_count t + Props.count Props.video_failure new)%Z
    /\ actual_cost t'
       = (actual_cost t
          + cost (MODELS (model a)) * (success_count t' - success_count t))%Z
    /\ Props.count Props.task_created new
       = (if Props.video_ready record then 1%Z else 0%Z)
    /\ (exists scene_name, In (SceneBanner i n scene_name) new)
    /\ (Props.video_ready record = true ->
        forall e, Props.scene_raises w i e -> In (Failed i e) new).
Proof.
  unfold turn, attempt, create_video_generation_task, update_airtable_record,
    download_video, Props.video_ready.
  destruct (get_image_url_from_record record) as [image_url|e0]; simpl.
  2:{ turn_facts. discriminate. }
  destruct (Py.truthy _) eqn:Eprompt; simpl.
  2:{ turn_facts. discriminate. }
  destruct (Kie.task_id_of_reply (task_reply_of w i)) as [task_id|e1] eqn:Ec.
  2:{ turn_facts.
      intros _ e [Hc | (task_id & Hc & Hp)]; try congruence.
      assert (e = e1) as -> by congruence. simpl; auto. }
  destruct (poll_outcome w i task_id) as [[|url urls]|e2] eqn:Ep.
  - turn_facts. intros _ e [Hc | (task_id' & Hc & Hp)]; congruence.
  - destruct (table_update w i (Airtable.id record)) as [msg|];
      [|destruct (skip_download a);
        [|destruct (download_outcome w i) as [msg|]]];
      try destruct (i <? n)%Z; turn_facts;
      intros _ e [Hc | (task_id' & Hc & Hp)]; congruence.
  - turn_facts.
    intros _ e [Hc | (task_id' & Hc & Hp)]; try congruence.
    assert (task_id' = task_id) as -> by congruence.
    assert (e = e2) as -> by congruence. simpl; auto.
Qed.

(** The video loop from scene [i] on. *)
Lemma video_loop (scenes : list Airtable.record) (i : Z) (t : tally) :
  exists new,
    let t' := generation_loop w a n i scenes t in
    log t' = (log t ++ new)%list
    /\ (success_count t' + fail_count t' + Props.count Props.skipped new
        = success_count t + fail_count t + Z.of_nat (length scenes))%Z
    /\ fail_count t' = (fail_count t + Props.count Props.video_failure new)%Z
    /\ actual_cost t'
       = (actual_cost t
          + cost (MODELS (model a)) * (success_count t' - success_count t))%Z
    /\ Props.count Props.task_created new
       = Z.of_nat (length (List.filter Props.video_ready scenes))
    /\ (forall k record,
          nth_error scenes k = Some record ->
          (exists scene_name,
              In (SceneBanner (i + Z.of_nat k) n scene_name) new)
          /\ (Props.video_ready record = true ->
              forall e, Props.scene_raises w (i + Z.of_nat k) e ->
                        In (Failed (i + Z.of_nat k) e) new)).
Proof.
  revert i t. induction scenes as [|record rest IH]; intros i t.
  - exists []. simpl. rewrite app_nil_r.
    split; [reflexivity|]. split; [rewrite count_nil; lia|].
    split; [rewrite count_nil; lia|]. split; [lia|].
    split; [reflexivity|]. intros [|k] r Hk; discriminate Hk.
  - destruct (video_turn i record t)
      as (new1 & L1 & T1 & F1 & A1 & C1 & B1 & R1).
    destruct (IH (i + 1)%Z (turn w a n i record t))
      as (new2 & L2 & T2 & F2 & A2 & C2 & K2).
    exists (new1 ++ new2)%list. cbn zeta in *. cbn [generation_loop].
    split; [now rewrite L2, L1, app_assoc|].
    split; [rewrite count_app; cbn [length]; lia|].
    split; [rewrite F2, F1, count_app; lia|].
    split; [rewrite A2, A1; lia|].
    split.
    { rewrite count_app, C1, C2. cbn [List.filter].
      destruct (Props.video_ready record); cbn [length]; lia. }
    intros [|k] r Hk.
    + injection Hk as <-. replace (i + Z.of_nat 0)%Z with i by lia.
      split.
      * destruct B1 as [name Hn]. exists name. apply in_or_app. now left.
      * intros Hr e He. apply in_or_app. left. now apply R1.
    + destruct (K2 k r Hk) as [Hb Hf].
      replace (i + Z.of_nat (S k))%Z with (i + 1 + Z.of_nat k)%Z by lia.
      split.
      * destruct Hb as [name Hn]. exists name. apply in_or_app. now right.
      * intros Hr e He. apply in_or_app. right. now apply Hf.
Qed.

End VideoLoop.

(** ** Failures inside a batch *)

(** C7: in both tools the loop takes up every scene of the batch,
    whatever happened to the scenes before it: each scene has its banner
    in the log and each scene that can be submitted is submitted. The
    failure counter is the number of failure lines in the log, and a
    scene whose task is refused, does not get through, fails at the
    provider or times out has a failure line under its own number. *)
Theorem scene_failures_do_not_stop_the_batch (w : World.world)
    (ia : GenerateImages.args) (va : GenerateVideos.args)
    (reference_image_url : option string) (scenes : list Airtable.record)
    (before : list Effects.event) :
  let n := Z.of_nat (length scenes) in
  let images :=
    GenerateImages.generation_loop w ia reference_image_url n 1 scenes
      {| GenerateImages.successful := 0; GenerateImages.failed := 0;
         GenerateImages.log := before |} in
  let videos :=
    GenerateVideos.generation_loop w va n 1 scenes
      {| GenerateVideos.success_count := 0; GenerateVideos.fail_count := 0;
         GenerateVideos.actual_cost := 0; GenerateVideos.log := before |} in
  (exists new,
      GenerateImages.log images = (before ++ new)%list
      /\ GenerateImages.failed images = Props.count Props.image_failure new
      /\ Props.count Props.task_created new
         = Z.of_nat (length (List.filter Props.image_ready scenes))
      /\ forall k record,
           nth_error scenes k = Some record ->
           (exists scene_name,
               In (Effects.SceneBanner (1 + Z.of_nat k) n scene_name) new)
           /\ (Props.image_ready record = true ->
               forall e, Props.scene_raises w (1 + Z.of_nat k) e ->
                         In (Effects.Failed (1 + Z.of_nat k) e) new))
  /\ (exists new,
         GenerateVideos.log videos = (before ++ new)%list
         /\ GenerateVideos.fail_count videos
            = Props.count Props.video_failure new
         /\ Props.count Props.task_created new
            = Z.of_nat (length (List.filter Props.video_ready scenes))
         /\ forall k record,
              nth_error scenes k = Some record ->
              (exists scene_name,
                  In (Effects.SceneBanner (1 + Z.of_nat k) n scene_name) new)
              /\ (Props.video_ready record = true ->
                  forall e, Props.scene_raises w (1 + Z.of_nat k) e ->
                            In (Effects.Failed (1 + Z.of_nat k) e) new)).
Proof.
  intros n images videos. split.
  - destruct (image_loop w ia reference_image_url n scenes 1
                {| GenerateImages.successful := 0; GenerateImages.failed := 0;
                   GenerateImages.log := before |})
      as (new & L & _ & F & C & K).
    exists new. fold images in L, F. simpl in L, F.
    split; [exact L|]. split; [exact F|]. split; [exact C|]. exact K.
  - destruct (video_loop w va n scenes 1
                {| GenerateVideos.success_count := 0;
                   GenerateVideos.fail_count := 0;
                   GenerateVideos.actual_cost := 0;
                   GenerateVideos.log := before |})
      as (new & L & _ & F & _ & C & K).
    exists new. fold videos in L, F. simpl in L, F.
    split; [exact L|]. split; [exact F|]. split; [exact C|]. exact K.
Qed.

(** A batch of three whose second scene is refused for lack of credits:
    the third scene is still submitted and succeeds. *)
Lemma refused_scene_is_passed_over :
  let w := Samples.refusing_second in
  let t :=
    GenerateImages.generation_loop w Samples.image_args None 3 1
      [Samples.prompted "rec1"; Samples.prompted "rec2";
       Samples.prompted "rec3"]
      {| GenerateImages.successful := 0; GenerateImages.failed := 0;
         GenerateImages.log := [] |} in
  GenerateImages.successful t = 2%Z
  /\ GenerateImages.failed t = 1%Z
  /\ Props.count Props.task_created (GenerateImages.log t) = 3%Z.
Proof. vm_compute. repeat split. Qed.

(** ** Batch accounting *)

(** X1: the image stage, once it generates: the summary counts every scene
    of the batch as a success or a failure and prices the successes. *)
Lemma image_summary_accounts (a : GenerateImages.args) (w : World.world)
    (config : Effects.config) (scenes : list Airtable.record)
    (loaded : list Effects.event) :
  Effects.load_config (World.environ w) = Some config ->
  GenerateImages.load_scenes w a = (Some scenes, loaded) ->
  GenerateImages.dry_run a = false ->
  GenerateImages.skip_approval a = true ->
  exists events successful failed,
    GenerateImages.main a w
    = ((events
        ++ [Effects.Summary successful failed
              (successful
               * GenerateImages.cost
                   (GenerateImages.MODELS (GenerateImages.model a)))])%list,
       Effects.Exit 0)
    /\ (successful + failed = Z.of_nat (length scenes))%Z.
Proof.
  intros Hc Hs Hd Ha. unfold GenerateImages.main.
  rewrite Hc, Hs, Hd, Ha. cbn [negb andb].
  destruct (GenerateImages.upload_reference _ _ _) as [url uploaded].
  match goal with
  | |- context [GenerateImages.generation_loop ?w ?a ?r ?n ?i ?s ?t] =>
      destruct (image_loop w a r n s i t) as (new & _ & T & _);
      set (final := GenerateImages.generation_loop w a r n i s t) in *
  end.
  exists (GenerateImages.log final), (GenerateImages.successful final),
    (GenerateImages.failed final).
  split; [reflexivity|]. simpl in T. lia.
Qed.

(** X2: the video stage, once it generates: the summary prices the
    successes, and counts every scene of the batch as a success or a
    failure except those it skipped for want of a video prompt. *)
Lemma video_summary_accounts (a : GenerateVideos.args) (w : World.world)
    (config : Effects.config) :
  let scenes :=
    GenerateVideos.get_scenes_from_airtable w (GenerateVideos.project_name a) in
  Effects.load_config (World.environ w) = Some config ->
  scenes <> [] ->
  GenerateVideos.test_mode a = false ->
  GenerateVideos.dry_run a = false ->
  GenerateVideos.skip_approval a = true ->
  exists events success_count fail_count,
    GenerateVideos.main a w
    = ((events
        ++ [Effects.Summary success_count fail_count
              (GenerateVideos.cost
                 (GenerateVideos.MODELS (GenerateVideos.model a))
               * success_count)])%list,
       Effects.Exit 0)
    /\ (success_count + fail_count + Props.count Props.skipped events
        = Z.of_nat (length scenes))%Z.
Proof.
  intros scenes Hc Hs Ht Hd Ha. unfold GenerateVideos.main.
  fold scenes. rewrite Hc, Ht, Hd, Ha. cbn [negb andb].
  rewrite bool_decide_eq_false_2 by exact Hs.
  match goal with
  | |- context [GenerateVideos.generation_loop ?w ?a ?n ?i ?s ?t] =>
      destruct (video_loop w a n s i t) as (new & L & T & _ & A & _);
      set (final := GenerateVideos.generation_loop w a n i s t) in *
  end.
  exists (GenerateVideos.log final), (GenerateVideos.success_count final),
    (GenerateVideos.fail_count final).
  simpl in L, T, A. split.
  - rewrite A. do 4 f_equal. lia.
  - rewrite L. unfold Props.count in *. simpl. lia.
Qed.

(** C2, as the code has it: a batch of one scene that has a start image
    and no video prompt ends with the summary 0 successful, 0 failed,
    cost 0. The scene is in the batch and in neither count. *)
Theorem video_batch_skips_without_counting :
  GenerateVideos.get_scenes_from_airtable
    (Samples.store_with [Samples.scene_without_video_prompt])
    "Creative Cloner Project"
  = [Samples.scene_without_video_prompt]
  /\ GenerateVideos.main Samples.video_args
       (Samples.store_with [Samples.scene_without_video_prompt])
     = ([Effects.TableAll "{Project Name}='Creative Cloner Project'";
         Effects.SceneBanner 1 1 "Scene 1";
         Effects.Skipped 1;
         Effects.Summary 0 0 0],
        Effects.Exit 0).
Proof. split; vm_compute; reflexivity. Qed.

(** The image stage on the same kind of row, one without an image
    prompt, counts it as failed. *)
Lemma image_batch_counts_the_skipped :
  GenerateImages.main Samples.image_args
    (Samples.store_with [Samples.scene_without_video_prompt])
  = ([Effects.TableAll "{Project Name}='Creative Cloner Project'";
      Effects.SceneBanner 1 1 "Scene 1";
      Effects.Skipped 1;
      Effects.Summary 0 1 0],
     Effects.Exit 0).
Proof. vm_compute. reflexivity. Qed.

(** ** Dry runs *)

Section DryRuns.

Lemma image_plan_quiet (i : Z) (scenes : list Airtable.record) :
  Props.count Effects.plan_entry (GenerateImages.plan i scenes)
  = Z.of_nat (length scenes)
  /\ Props.count Effects.remote_call (GenerateImages.plan i scenes) = 0%Z
  /\ Props.count Effects.store_write (GenerateImages.plan i scenes) = 0%Z.
Proof.
  unfold Props.count. revert i.
  induction scenes as [|record rest IH]; intros i; simpl; [auto|].
  destruct (IH (i + 1)%Z) as (P & R & S). repeat split; lia.
Qed.

Lemma video_plan_quiet (i : Z) (scenes : list Airtable.record) :
  let entries := fst (GenerateVideos.plan i scenes) in
  Props.count Effects.remote_call entries = 0%Z
  /\ Props.count Effects.store_write entries = 0%Z
  /\ (snd (GenerateVideos.plan i scenes) = None ->
      Props.count Effects.plan_entry entries = Z.of_nat (length scenes)).
Proof.
  unfold Props.count. revert i.
  induction scenes as [|record rest IH]; intros i; simpl; [auto|].
  destruct (GenerateVideos.get_image_url_from_record record); simpl.
  - specialize (IH (i + 1)%Z).
    destruct (GenerateVideos.plan (i + 1) rest) as [entries raised].
    simpl in *. destruct IH as (R & S & P).
    repeat split; try lia. intros H. specialize (P H). lia.
  - repeat split; auto. discriminate.
Qed.

Lemma combine_plan_entries (i : Z) (video_files : list string) :
  List.filter CombineAll.plan_entry (CombineAll.plan i video_files)
  = CombineAll.plan i video_files
  /\ length (CombineAll.plan i video_files) = length video_files
  /\ List.filter CombineAll.mux_call (CombineAll.plan i video_files) = []
  /\ List.filter CombineAll.file_write (CombineAll.plan i video_files) = [].
Proof.
  revert i. induction video_files as [|video rest IH]; intros i; simpl; [auto|].
  destruct (IH (i + 1)%Z) as (P & L & M & F).
  rewrite P, L. auto.
Qed.

(** X3: the image stage with the dry-run flag and without test mode: no
    call to the provider, no write to the store, and, when the run gets
    as far as the listing, one entry for each scene of the project. *)
Lemma image_dry_run_quiet (a : GenerateImages.args) (w : World.world) :
  GenerateImages.dry_run a = true ->
  GenerateImages.test_mode a = false ->
  let run := GenerateImages.main a w in
  Props.count Effects.remote_call (fst run) = 0%Z
  /\ Props.count Effects.store_write (fst run) = 0%Z
  /\ (snd run = Effects.Exit 0 ->
      Props.count Effects.plan_entry (fst run)
      = Z.of_nat (length (GenerateImages.get_scenes_from_airtable w
                            (GenerateImages.project_name a)))).
Proof.
  intros Hd Ht. unfold GenerateImages.main, GenerateImages.load_scenes.
  rewrite Hd, Ht. cbn [negb andb].
  destruct (Effects.load_config _); [|simpl; repeat split; discriminate].
  case_bool_decide as Hnil; cbn [fst snd];
    [repeat split; discriminate|].
  destruct (image_plan_quiet 1 (GenerateImages.get_scenes_from_airtable w
                                  (GenerateImages.project_name a)))
    as (P & R & S).
  change (?x :: ?l) with ([x] ++ l)%list. rewrite !count_app, P, R, S.
  repeat split.
Qed.

(** X4: the video stage with the dry-run flag: no call to the provider, no
    write to the store, and, when the run ends well, one entry for each
    eligible scene. *)
Lemma video_dry_run_quiet (a : GenerateVideos.args) (w : World.world) :
  GenerateVideos.dry_run a = true ->
  let run := GenerateVideos.main a w in
  Props.count Effects.remote_call (fst run) = 0%Z
  /\ Props.count Effects.store_write (fst run) = 0%Z
  /\ (snd run = Effects.Exit 0 ->
      Props.count Effects.plan_entry (fst run)
      = Z.of_nat (length (GenerateVideos.get_scenes_from_airtable w
                            (GenerateVideos.project_name a)))).
Proof.
  intros Hd. unfold GenerateVideos.main. rewrite Hd. cbn [negb andb].
  destruct (Effects.load_config _); [|simpl; repeat split; discriminate].
  destruct (GenerateVideos.test_mode a); [simpl; repeat split; discriminate|].
  case_bool_decide as Hnil; cbn [fst snd];
    [repeat split; discriminate|].
  pose proof (video_plan_quiet 1 (GenerateVideos.get_scenes_from_airtable w
                                    (GenerateVideos.project_name a))) as Q.
  destruct (GenerateVideos.plan 1 _) as [entries [e|]];
    cbn [fst snd] in *; destruct Q as (R & S & P);
    change (?x :: ?l) with ([x] ++ l)%list; rewrite !count_app, R, S;
    repeat split; try discriminate.
  intros _. rewrite P by reflexivity. reflexivity.
Qed.

(** X5: the combine stage with the dry-run flag: the muxing tool is not run
    on the videos and no file is written; with two videos or more the
    listing has one entry for each, in order. *)
Lemma combine_dry_run_quiet (a : CombineAll.args) (w : CombineAll.world) :
  CombineAll.dry_run a = true ->
  let run := CombineAll.main a w in
  List.filter CombineAll.mux_call (fst run) = []
  /\ List.filter CombineAll.file_write (fst run) = []
  /\ (forall video_files,
        CombineAll.ffmpeg_installed w = true ->
        CombineAll.find_video_files (CombineAll.listing w)
          (CombineAll.project_name a) = Ok video_files ->
        (2 <= length video_files)%nat ->
        run = (CombineAll.FfmpegVersion :: CombineAll.plan 1 video_files,
               CombineAll.Exit 0)).
Proof.
  intros Hd. unfold CombineAll.main. rewrite Hd.
  destruct (CombineAll.ffmpeg_installed w); cbn [negb].
  2:{ repeat split. discriminate. }
  destruct (CombineAll.find_video_files _ _) as [files|e].
  2:{ repeat split. discriminate. }
  case_bool_decide as Hnil.
  { subst files. repeat split. intros ? _ [= <-]. simpl. lia. }
  destruct (Z.eqb_spec (Z.of_nat (length files)) 1) as [H1 | H1].
  { repeat split. intros ? _ [= <-]. lia. }
  destruct (combine_plan_entries 1 files) as (_ & _ & M & F).
  cbn [fst List.filter CombineAll.mux_call CombineAll.file_write].
  rewrite M, F. repeat split. now intros ? _ [= <-].
Qed.

End DryRuns.

(** C8, as the code has it: the image stage called with the dry-run
    flag and in test mode, on a store without a test row for the
    project, creates one. The row is written before the flag is looked
    at, and the listing that follows shows the new row. *)
Theorem dry_run_in_test_mode_writes_store (a : GenerateImages.args)
    (w : World.world) :
  Effects.load_config (World.environ w) <> None ->
  GenerateImages.dry_run a = true ->
  GenerateImages.test_mode a = true ->
  World.table_all w
    (Airtable.project_formula ("TEST-" ++ GenerateImages.project_name a)) = [] ->
  In (Effects.TableCreate
        (GenerateImages.test_fields (GenerateImages.project_name a)))
     (fst (GenerateImages.main a w))
  /\ Props.count Effects.store_write (fst (GenerateImages.main a w)) = 1%Z
  /\ snd (GenerateImages.main a w) = Effects.Exit 0.
Proof.
  intros Hc Hd Ht Hnone.
  unfold GenerateImages.main, GenerateImages.load_scenes.
  destruct (Effects.load_config _); [|congruence].
  rewrite Hd, Ht, Hnone. simpl. repeat split. auto.
Qed.

Lemma dry_run_in_test_mode_writes_store_witness :
  Props.count Effects.store_write
    (fst (GenerateImages.main Samples.image_args_dry_test
            (Samples.store_with [])))
  = 1%Z.
Proof.
  apply (dry_run_in_test_mode_writes_store Samples.image_args_dry_test
           (Samples.store_with []));
    [vm_compute; discriminate | reflexivity | reflexivity | reflexivity].
Defined.

(** * Further properties of the tools *)

(** ** Runs of the stages on sample stores *)

Lemma image_summary_accounts_witness :
  exists events successful failed,
    GenerateImages.main Samples.image_args
      (Samples.store_with [Samples.prompted "rec1"])
    = ((events ++ [Effects.Summary successful failed (successful * 4)])%list,
       Effects.Exit 0)
    /\ (successful + failed = 1)%Z.
Proof.
  apply (image_summary_accounts Samples.image_args
           (Samples.store_with [Samples.prompted "rec1"]) Cases.config
           [Samples.prompted "rec1"]
           [Effects.TableAll "{Project Name}='Creative Cloner Project'"]);
    vm_compute; reflexivity.
Defined.

Lemma video_summary_accounts_witness :
  exists events success_count fail_count,
    GenerateVideos.main Samples.video_args
      (Samples.store_with [Samples.scene_without_video_prompt])
    = ((events
        ++ [Effects.Summary success_count fail_count (500 * success_count)])%list,
       Effects.Exit 0)
    /\ (success_count + fail_count + Props.count Props.skipped events
        = 1)%Z.
Proof.
  apply (video_summary_accounts Samples.video_args
           (Samples.store_with [Samples.scene_without_video_prompt])
           Cases.config);
    try (vm_compute; reflexivity).
  vm_compute. discriminate.
Defined.

Lemma image_dry_run_quiet_witness :
  let run :=
    GenerateImages.main Cases.image_args_dry
      (Samples.store_with [Samples.prompted "rec1"; Samples.prompted "rec2"]) in
  Props.count Effects.remote_call (fst run) = 0%Z
  /\ Props.count Effects.store_write (fst run) = 0%Z
  /\ (snd run = Effects.Exit 0 ->
      Props.count Effects.plan_entry (fst run) = 2%Z).
Proof.
  apply (image_dry_run_quiet Cases.image_args_dry
           (Samples.store_with [Samples.prompted "rec1"; Samples.prompted "rec2"]));
    reflexivity.
Defined.

Lemma video_dry_run_quiet_witness :
  let run :=
    GenerateVideos.main Cases.video_args_dry
      (Samples.store_with [Samples.scene_without_video_prompt]) in
  Props.count Effects.remote_call (fst run) = 0%Z
  /\ Props.count Effects.store_write (fst run) = 0%Z
  /\ (snd run = Effects.Exit 0 ->
      Props.count Effects.plan_entry (fst run) = 1%Z).
Proof.
  apply (video_dry_run_quiet Cases.video_args_dry
           (Samples.store_with [Samples.scene_without_video_prompt]));
    reflexivity.
Defined.

Lemma combine_dry_run_quiet_witness :
  let run :=
    CombineAll.main Cases.combine_args_dry
      (Samples.outputs_with ["scene_2_b.mp4"; "scene_1_a.mp4"]) in
  List.filter CombineAll.mux_call (fst run) = []
  /\ List.filter CombineAll.file_write (fst run) = []
  /\ run = ([CombineAll.FfmpegVersion;
             CombineAll.PlanEntry 1 "scene_1_a.mp4";
             CombineAll.PlanEntry 2 "scene_2_b.mp4"], CombineAll.Exit 0).
Proof.
  destruct (combine_dry_run_quiet Cases.combine_args_dry
              (Samples.outputs_with ["scene_2_b.mp4"; "scene_1_a.mp4"])
              eq_refl) as (M & F & P).
  split; [exact M|]. split; [exact F|].
  apply (P ["scene_1_a.mp4"; "scene_2_b.mp4"]);
    [reflexivity | reflexivity | simpl; lia].
Defined.

(** ** More on the ordering of the video files *)

Section NameOrder.

Import CombineAll.

Lemma str_lt_asym (a b : string) : Py.str_lt a b = true -> Py.str_lt b a = false.
Proof.
  revert b. induction a as [|x a IH]; intros [|y b]; simpl; try easy.
  destruct (Nat.ltb_spec (nat_of_ascii x) (nat_of_ascii y)) as [Hxy | Hxy].
  - intros _. destruct (Nat.ltb_spec (nat_of_ascii y) (nat_of_ascii x)); [lia|].
    reflexivity.
  - destruct (Nat.ltb_spec (nat_of_ascii y) (nat_of_ascii x)) as [Hyx | Hyx];
      [discriminate|]. apply IH.
Qed.

Lemma name_le_trans (a b c : string) :
  Order.name_le a b -> Order.name_le b c -> Order.name_le a c.
Proof.
  unfold Order.name_le. revert a c.
  induction b as [|y b IH]; intros [|x a] [|z c]; simpl; try easy.
  destruct (Nat.ltb_spec (nat_of_ascii y) (nat_of_ascii x)) as [Hyx | Hyx];
    [discriminate|].
  destruct (Nat.ltb_spec (nat_of_ascii x) (nat_of_ascii y)) as [Hxy | Hxy].
  - intros _.
    destruct (Nat.ltb_spec (nat_of_ascii z) (nat_of_ascii y)) as [Hzy | Hzy];
      [discriminate|].
    intros _.
    destruct (Nat.ltb_spec (nat_of_ascii z) (nat_of_ascii x)); [lia|].
    destruct (Nat.ltb_spec (nat_of_ascii x) (nat_of_ascii z)); [reflexivity|lia].
  - intros Hba.
    destruct (Nat.ltb_spec (nat_of_ascii z) (nat_of_ascii y)) as [Hzy | Hzy];
      [discriminate|].
    destruct (Nat.ltb_spec (nat_of_ascii y) (nat_of_ascii z)) as [Hyz | Hyz].
    + intros _.
      destruct (Nat.ltb_spec (nat_of_ascii z) (nat_of_ascii x)); [lia|].
      destruct (Nat.ltb_spec (nat_of_ascii x) (nat_of_ascii z)); [reflexivity|lia].
    + intros Hcb.
      destruct (Nat.ltb_spec (nat_of_ascii z) (nat_of_ascii x)); [lia|].
      destruct (Nat.ltb_spec (nat_of_ascii x) (nat_of_ascii z)); [lia|].
      now apply IH.
Qed.

(** Inserting an unnumbered file among unnumbered files in order of
    name keeps them in order. *)
Lemma insert_sorted_names file sorted :
  Props.has_number file = false ->
  Forall (fun g => Props.has_number g = false) sorted ->
  StronglySorted Order.name_le sorted ->
  exists l, insert file sorted = Ok l /\ StronglySorted Order.name_le l.
Proof.
  intros Hfile Hall Hs.
  induction sorted as [|other rest IH]; simpl.
  - eexists. split; [reflexivity|]. repeat constructor.
  - inversion Hall as [|? ? Hother Hrest]; subst.
    inversion Hs as [|? ? Hs' Hle]; subst.
    unfold Props.has_number in Hfile, Hother. unfold get_scene_number in *.
    destruct (search other); [discriminate|].
    destruct (search file); [discriminate|].
    simpl. destruct (Py.str_lt other file) eqn:Hlt.
    + destruct (IH Hrest Hs') as (l & El & Hl). rewrite El. simpl.
      eexists. split; [reflexivity|]. constructor; [exact Hl|].
      apply (Permutation_Forall (insert_perm _ _ _ El)).
      constructor; [|exact Hle].
      unfold Order.name_le. now apply str_lt_asym.
    + eexists. split; [reflexivity|].
      constructor; [exact Hs|]. constructor; [exact Hlt|].
      eapply Forall_impl; [exact Hle|].
      intros g Hg. now apply (name_le_trans _ other).
Qed.

Lemma sort_sorted_names files :
  Forall (fun g => Props.has_number g = false) files ->
  exists l, sort files = Ok l /\ StronglySorted Order.name_le l.
Proof.
  induction files as [|file rest IH]; intros Hall; simpl.
  - eexists. split; [reflexivity | constructor].
  - inversion Hall as [|? ? Hfile Hrest]; subst.
    destruct (IH Hrest) as (sorted & Es & Hs). rewrite Es. simpl.
    apply insert_sorted_names; auto.
    apply (Permutation_Forall (sort_perm _ _ Es)). exact Hrest.
Qed.


End NameOrder.


(** X7: when no name carries a scene number, the files come out in the
    order of their names, character code by character code. *)
Theorem unnumbered_files_in_name_order (files : list string)
    (project_name : option string) :
  Forall (fun name => Props.has_number name = false) files ->
  exists sorted,
    CombineAll.find_video_files (Some files) project_name = Ok sorted
    /\ Permutation (CombineAll.by_project project_name files) sorted
    /\ StronglySorted Order.name_le sorted.
Proof.
  intros Hall. unfold CombineAll.find_video_files.
  set (kept := CombineAll.by_project project_name files).
  case_bool_decide as Hnil.
  - exists []. rewrite Hnil. repeat split; constructor.
  - assert (Hkept : Forall (fun g => Props.has_number g = false) kept).
    { apply List.Forall_forall. intros g Hg. apply by_project_incl in Hg.
      exact (proj1 (List.Forall_forall _ _) Hall g Hg). }
    destruct (sort_sorted_names kept Hkept) as (sorted & Es & Hs).
    exists sorted. repeat split; auto. now apply sort_perm.
Qed.

Lemma unnumbered_files_in_name_order_witness :
  exists sorted,
    CombineAll.find_video_files (Some ["outro.mp4"; "Intro.mp4"; "main.mp4"]) None
    = Ok sorted
    /\ StronglySorted Order.name_le sorted.
Proof.
  destruct (unnumbered_files_in_name_order
              ["outro.mp4"; "Intro.mp4"; "main.mp4"] None)
    as (sorted & E & _ & Hs).
  - repeat constructor.
  - exists sorted. split; assumption.
Defined.

(** ** From the video stage to the combine stage *)

Section Decimal.

Import CombineAll.

Lemma digit_is_no_separator (c : ascii) :
  Py.isdigit c = true -> (Ascii.eqb c "_" || Py.isspace c) = false.
Proof.
  destruct c as [[] [] [] [] [] [] [] []]; intros H;
    first [discriminate H | reflexivity].
Qed.

(** Reading back the digits written for a positive number, after an
    accumulator. *)
Lemma int_of_digits_acc (d : Decimal.uint) (acc : positive) :
  Py.int_of_digits (Z.pos acc) (NilEmpty.string_of_uint d)
  = Z.pos (Pos.of_uint_acc d acc).
Proof.
  revert acc. induction d; intros acc; simpl; [reflexivity| ..];
    try match goal with
      | |- context [Z.of_nat (nat_of_ascii ?c)] =>
          let v := eval vm_compute in (Z.of_nat (nat_of_ascii c)) in
          change (Z.of_nat (nat_of_ascii c)) with v
      end;
    rewrite <- IHd; f_equal; lia.
Qed.

Lemma int_of_digits_uint (d : Decimal.uint) :
  Py.int_of_digits 0 (NilEmpty.string_of_uint d) = Z.of_N (Pos.of_uint d).
Proof.
  induction d; simpl; try reflexivity; try exact IHd;
    apply int_of_digits_acc.
Qed.

(** The digits written for a number are digits, and end where the next
    character is not one. *)
Lemma digits_of_uint (d : Decimal.uint) (c : ascii) (tail : string) :
  Py.isdigit c = false ->
  digits (NilEmpty.string_of_uint d ++ String c tail)
  = NilEmpty.string_of_uint d.
Proof.
  intros Hc. induction d; simpl; try (now rewrite IHd). now rewrite Hc.
Qed.

Lemma uint_head_digit (d : Decimal.uint) :
  d <> Decimal.Nil ->
  exists c r, NilEmpty.string_of_uint d = String c r /\ Py.isdigit c = true.
Proof. destruct d; intros H; [congruence| ..]; simpl; eauto. Qed.

(** [int(str(i)) == i] for a number that is not negative, and [str(i)]
    is a non-empty run of digits. *)
Lemma str_of_int_read_back (i : Z) :
  (0 <= i)%Z ->
  Py.int_of_digits 0 (Py.str_of_int i) = i
  /\ (exists c r, Py.str_of_int i = String c r /\ Py.isdigit c = true)
  /\ (forall c tail,
        Py.isdigit c = false ->
        digits (Py.str_of_int i ++ String c tail) = Py.str_of_int i).
Proof.
  intros Hi. unfold Py.str_of_int. destruct i as [|p|p]; [| |lia].
  - simpl. split; [reflexivity|]. split; [eauto|].
    intros c tail Hc. simpl. now rewrite Hc.
  - simpl. split; [|split].
    + rewrite int_of_digits_uint, DecimalPos.Unsigned.of_to. reflexivity.
    + apply uint_head_digit, DecimalPos.Unsigned.to_uint_nonnil.
    + intros c tail. apply digits_of_uint.
Qed.

Lemma search_unfold (s : string) :
  search s
  = match match_here s with
    | Some group => Some group
    | None =>
        match s with
        | EmptyString => None
        | String _ r => search r
        end
    end.
Proof. destruct s; reflexivity. Qed.

(** A name that starts with the word scene, separators and digits is
    matched at its start. *)
Lemma search_at_start (rest group : string) :
  digits (separators rest) = group -> Py.truthy group = true ->
  search ("scene" ++ rest) = Some group.
Proof.
  intros Hg Ht. rewrite search_unfold. unfold match_here.
  replace (literal "scene" ("scene" ++ rest)) with (Some rest) by reflexivity.
  now rewrite Hg, Ht.
Qed.

Lemma video_file_name_number (i : Z) (scene_name : string) :
  (0 <= i)%Z ->
  get_scene_number (Order.video_file_name i scene_name) = KInt i.
Proof.
  intros Hi.
  destruct (str_of_int_read_back i Hi) as (Hback & (c & r & E & Hc) & Hd).
  unfold get_scene_number, Order.video_file_name.
  change ("scene_" ++ ?x) with ("scene" ++ String "_" x).
  rewrite (search_at_start _ (Py.str_of_int i)).
  - now rewrite Hback.
  - cbn [separators Ascii.eqb orb]. rewrite E. cbn [String.append separators].
    rewrite (digit_is_no_separator c Hc).
    change (String c (r ++ ?t)) with (String c r ++ t). rewrite <- E.
    change ("_" ++ ?t) with (String "_" t). now apply Hd.
  - now rewrite E.
Qed.

End Decimal.

Section SavedVideos.

Import CombineAll.

Lemma prefix_slash (x : ascii) (s : string) :
  String.prefix "/" (String x s) = bool_decide (x = "/"%char).
Proof.
  cbn [String.prefix]. destruct (ascii_dec "/" x) as [<- | Hx].
  - rewrite bool_decide_eq_true_2 by reflexivity. now destruct s.
  - rewrite bool_decide_eq_false_2 by congruence. reflexivity.
Qed.

Lemma contains_slash_cons (x : ascii) (s : string) :
  Py.contains "/" (String x s)
  = bool_decide (x = "/"%char) || Py.contains "/" s.
Proof. cbn [Py.contains]. now rewrite prefix_slash. Qed.

Lemma contains_slash_app (a b : string) :
  Py.contains "/" (a ++ b) = Py.contains "/" a || Py.contains "/" b.
Proof.
  induction a as [|x a IH]; [reflexivity|].
  cbn [String.append]. rewrite !contains_slash_cons, IH.
  now rewrite orb_assoc.
Qed.

Lemma contains_slash_take (n : nat) (s : string) :
  Py.contains "/" s = false -> Py.contains "/" (Py.take n s) = false.
Proof.
  revert s. induction n as [|n IH]; intros [|x s]; try reflexivity.
  cbn [Py.take]. rewrite !contains_slash_cons, !orb_false_iff.
  intros [Hx Hs]. split; [exact Hx | now apply IH].
Qed.

Lemma contains_slash_replace (s : string) :
  Py.contains "/" (Py.replace_char " " "_" s) = Py.contains "/" s.
Proof.
  induction s as [|x s IH]; [reflexivity|].
  cbn [Py.replace_char]. rewrite !contains_slash_cons, IH. f_equal.
  destruct (Ascii.eqb_spec x " ") as [-> | Hx]; reflexivity.
Qed.

Lemma contains_slash_uint (d : Decimal.uint) :
  Py.contains "/" (NilEmpty.string_of_uint d) = false.
Proof.
  induction d; [reflexivity| ..]; cbn [NilEmpty.string_of_uint];
    rewrite contains_slash_cons, IHd; reflexivity.
Qed.

Lemma contains_slash_str_of_int (i : Z) :
  (0 <= i)%Z -> Py.contains "/" (Py.str_of_int i) = false.
Proof.
  intros Hi. unfold Py.str_of_int. destruct i as [|p|p]; [reflexivity| |lia].
  apply contains_slash_uint.
Qed.

Lemma path_name_outputs (s : string) :
  Py.contains "/" s = false -> path_name ("outputs/" ++ s) = s.
Proof.
  intros H. cbn [String.append path_name]. rewrite !contains_slash_cons.
  cbn [bool_decide decide_rel orb]. 
  destruct s as [|x s]; [reflexivity|].
  cbn [path_name]. now rewrite H.
Qed.

End SavedVideos.

(** X8: the video the video stage saves for scene [i] is found by the
    combine stage under the number [i]: the number written into the file
    name is the number read back from it, whatever the name of the scene
    (which holds no slash). *)
Theorem saved_video_keeps_its_scene_number (i : Z) (scene_name : string) :
  (0 <= i)%Z -> Py.contains "/" scene_name = false ->
  CombineAll.path_name (GenerateVideos.video_path i scene_name)
  = Order.video_file_name i scene_name
  /\ CombineAll.get_scene_number
       (CombineAll.path_name (GenerateVideos.video_path i scene_name))
     = CombineAll.KInt i.
Proof.
  intros Hi Hs.
  assert (E : CombineAll.path_name (GenerateVideos.video_path i scene_name)
              = Order.video_file_name i scene_name).
  { unfold GenerateVideos.video_path.
    change ("outputs/scene_" ++ ?x) with ("outputs/" ++ "scene_" ++ x).
    apply path_name_outputs. unfold Order.video_file_name, Py.slice_to.
    cbn [Z.leb Z.compare].
    rewrite !contains_slash_app, contains_slash_str_of_int by exact Hi.
    rewrite contains_slash_take by now rewrite contains_slash_replace.
    reflexivity. }
  split; [exact E|]. rewrite E. now apply video_file_name_number.
Qed.

Lemma saved_video_keeps_its_scene_number_witness :
  CombineAll.get_scene_number
    (CombineAll.path_name
       (GenerateVideos.video_path 12 "Scene 12 - A robot in the kitchen"))
  = CombineAll.KInt 12.
Proof.
  apply (saved_video_keeps_its_scene_number 12
           "Scene 12 - A robot in the kitchen"); [lia | reflexivity].
Defined.

(** X9: the default output of the combine stage lies in its default
    input directory and its name carries no scene number. Once it is
    there, a run over it and a video saved by the video stage raises
    [TypeError] instead of combining. *)
Theorem default_output_stops_the_next_run (a : CombineAll.args)
    (w : CombineAll.world) (names : list string) (i : Z)
    (scene_name : string) :
  (0 <= i)%Z ->
  CombineAll.ffmpeg_installed w = true ->
  CombineAll.project_name a = None ->
  CombineAll.listing w = Some names ->
  In (Order.video_file_name i scene_name) names ->
  In (CombineAll.path_name (CombineAll.output Samples.combine_args)) names ->
  exists e,
    CombineAll.main a w = ([CombineAll.FfmpegVersion], CombineAll.Uncaught e)
    /\ exn_type e = TypeError.
Proof.
  intros Hi Hff Hp Hl Hv Ho.
  unfold CombineAll.main, CombineAll.find_video_files.
  rewrite Hff, Hl, Hp. cbn [negb CombineAll.by_project].
  case_bool_decide as Hnil; [subst names; destruct Hv|].
  destruct (CombineAll.sort names) as [l|e] eqn:Es.
  - pose proof (sort_ok_one_kind _ _ Es _ _ Hv Ho) as Hk.
    unfold Props.has_number in Hk at 1.
    rewrite (video_file_name_number i scene_name Hi) in Hk.
    discriminate Hk.
  - exists e. split; [reflexivity|]. now apply sort_raises in Es.
Qed.

Lemma default_output_stops_the_next_run_witness :
  exists e,
    CombineAll.main Samples.combine_args
      (Samples.outputs_with
         ["final_video.mp4"; Order.video_file_name 1 "Scene 1"])
    = ([CombineAll.FfmpegVersion], CombineAll.Uncaught e)
    /\ exn_type e = TypeError.
Proof.
  apply (default_output_stops_the_next_run Samples.combine_args
           (Samples.outputs_with
              ["final_video.mp4"; Order.video_file_name 1 "Scene 1"])
           ["final_video.mp4"; Order.video_file_name 1 "Scene 1"] 1 "Scene 1");
    try reflexivity; [lia | right; left; reflexivity | left; reflexivity].
Defined.

(** ** Polling, whatever the replies *)

Section PollingAnyReply.

Variable tps : Z.
Variable env : nat -> Kie.exchange.
Variable max_wait start_time : Z.

(** The image loop returns only what a reply in state [success] holds,
    and never an empty list; a time-out is raised only once the budget
    is spent. *)
Lemma images_poll_outcomes (fuel poll_count : nat) (now : Z) r at_ :
  GenerateImages.poll_loop tps env max_wait start_time fuel poll_count now
  = Some (r, at_) ->
  (forall urls, r = Ok urls ->
     urls <> []
     /\ exists k data,
          Kie.reply (env k) = Kie.Got 200 data
          /\ Kie.state data = Some "success"
          /\ Kie.resultJson data = Kie.Decoded urls)
  /\ (forall e, r = Raise e -> exn_type e = TimeoutError ->
        (max_wait * tps <= at_ - start_time)%Z).
Proof.
  revert poll_count now.
  induction fuel as [|fuel IH]; intros poll_count now; simpl; [discriminate|].
  destruct (Z.ltb_spec (now - start_time) (max_wait * tps)).
  2:{ intros [= <- <-]. split; [discriminate|]. intros; lia. }
  destruct (Kie.reply (env (S poll_count)))
    as [msg | status_code msg | status_code data] eqn:Er; [apply IH| |].
  { destruct (Z.eqb_spec status_code 200) as [-> | Hs]; cbn [negb];
      [|apply IH].
    intros [= <- <-]. split; [discriminate|]. intros e [= <-]. discriminate. }
  destruct (Z.eqb_spec status_code 200) as [-> | Hs]; cbn [negb]; [|apply IH].
  case_bool_decide as Hsucc.
  { destruct (Kie.resultJson data) as [msg | msg | result_urls] eqn:Ej.
    - intros [= <- <-]. split; [discriminate|]. intros e [= <-]. discriminate.
    - intros [= <- <-]. split; [discriminate|]. intros e [= <-]. discriminate.
    - case_bool_decide as Hempty.
      + intros [= <- <-]. split; [discriminate|]. intros e [= <-]. discriminate.
      + intros [= <- <-]. split; [|discriminate].
        intros urls [= <-]. split; [exact Hempty|]. eauto. }
  case_bool_decide as Hfail.
  { intros [= <- <-]. split; [discriminate|]. intros e [= <-]. discriminate. }
  repeat match goal with |- context [if ?b then _ else _] => destruct b end;
    apply IH.
Qed.

(** The video loop returns only what a reply in state [success] holds,
    and raises its time-out only once the budget is spent. *)
Lemma videos_poll_outcomes (fuel poll_count : nat) (now : Z) r at_ :
  GenerateVideos.poll_loop tps env max_wait start_time fuel poll_count now
  = Some (r, at_) ->
  (forall urls, r = Ok urls ->
     exists k data,
       Kie.reply (env k) = Kie.Got 200 data
       /\ Kie.state data = Some "success"
       /\ Kie.resultJson data = Kie.Decoded urls)
  /\ (r = Raise (GenerateVideos.timeout_error max_wait) ->
      (max_wait * tps <= at_ - start_time)%Z).
Proof.
  revert poll_count now.
  induction fuel as [|fuel IH]; intros poll_count now; simpl; [discriminate|].
  destruct (Z.ltb_spec (now - start_time) (max_wait * tps)).
  2:{ intros [= <- <-]. split; [discriminate|]. intros; lia. }
  destruct (Kie.reply (env (S poll_count)))
    as [msg | status_code msg | status_code data] eqn:Er; [apply IH| |].
  { destruct (Z.eqb_spec status_code 200) as [-> | Hs]; cbn [negb];
      [|apply IH].
    intros [= <- <-]. split; discriminate. }
  destruct (Z.eqb_spec status_code 200) as [-> | Hs]; cbn [negb]; [|apply IH].
  case_bool_decide as Hsucc.
  { destruct (Kie.resultJson data) as [msg | msg | result_urls] eqn:Ej;
      [apply IH | |].
    - intros [= <- <-]. split; discriminate.
    - intros [= <- <-]. split; [|discriminate]. intros urls [= <-]. eauto. }
  case_bool_decide as Hfail.
  { intros [= <- <-]. split; [discriminate|]. intros [= E]. }
  repeat match goal with |- context [if ?b then _ else _] => destruct b end;
    apply IH.
Qed.

Hypothesis nothing_settles : forall k, Polling.unsettled (Kie.reply (env k)).

(** While no reply settles anything, neither loop ends before its
    time-out. *)
Lemma images_poll_unsettled_only_times_out (fuel poll_count : nat) (now : Z)
    r at_ :
  GenerateImages.poll_loop tps env max_wait start_time fuel poll_count now
  = Some (r, at_) ->
  r = Raise (GenerateImages.timeout_error max_wait)
  /\ (max_wait * tps <= at_ - start_time)%Z.
Proof.
  revert poll_count now.
  induction fuel as [|fuel IH]; intros poll_count now; simpl; [discriminate|].
  destruct (Z.ltb_spec (now - start_time) (max_wait * tps)).
  2:{ intros [= <- <-]. split; [reflexivity | lia]. }
  pose proof (nothing_settles (S poll_count)) as Hu.
  destruct (Kie.reply (env (S poll_count)))
    as [msg | status_code msg | status_code data]; [apply IH| |].
  { destruct (Z.eqb_spec status_code 200) as [-> | Hs]; cbn [negb];
      [now destruct Hu | apply IH]. }
  destruct (Z.eqb_spec status_code 200) as [-> | Hs]; cbn [negb]; [|apply IH].
  destruct Hu as [Hu | [Hs Hf]]; [congruence|].
  rewrite !bool_decide_eq_false_2 by assumption.
  repeat match goal with |- context [if ?b then _ else _] => destruct b end;
    apply IH.
Qed.

Lemma videos_poll_unsettled_only_times_out (fuel poll_count : nat) (now : Z)
    r at_ :
  GenerateVideos.poll_loop tps env max_wait start_time fuel poll_count now
  = Some (r, at_) ->
  r = Raise (GenerateVideos.timeout_error max_wait)
  /\ (max_wait * tps <= at_ - start_time)%Z.
Proof.
  revert poll_count now.
  induction fuel as [|fuel IH]; intros poll_count now; simpl; [discriminate|].
  destruct (Z.ltb_spec (now - start_time) (max_wait * tps)).
  2:{ intros [= <- <-]. split; [reflexivity | lia]. }
  pose proof (nothing_settles (S poll_count)) as Hu.
  destruct (Kie.reply (env (S poll_count)))
    as [msg | status_code msg | status_code data]; [apply IH| |].
  { destruct (Z.eqb_spec status_code 200) as [-> | Hs]; cbn [negb];
      [now destruct Hu | apply IH]. }
  destruct (Z.eqb_spec status_code 200) as [-> | Hs]; cbn [negb]; [|apply IH].
  destruct Hu as [Hu | [Hs Hf]]; [congruence|].
  rewrite !bool_decide_eq_false_2 by assumption.
  repeat match goal with |- context [if ?b then _ else _] => destruct b end;
    apply IH.
Qed.

Hypothesis ticking : (0 < tps)%Z.
Hypothesis timed : Props.well_timed env.

(** Every turn sleeps, errors included, so the loops end. *)
Lemma images_poll_unsettled_ends (m poll_count : nat) (now : Z) :
  (max_wait * tps - (now - start_time) <= Z.of_nat m)%Z ->
  exists r at_,
    GenerateImages.poll_loop tps env max_wait start_time (S m) poll_count now
    = Some (r, at_).
Proof.
  revert poll_count now.
  induction m as [|m IH]; intros poll_count now Hleft.
  - simpl. destruct (Z.ltb_spec (now - start_time) (max_wait * tps)); [lia|].
    eauto.
  - remember (S m) as fuel eqn:Efuel. simpl.
    destruct (Z.ltb_spec (now - start_time) (max_wait * tps)); [|eauto].
    pose proof (nothing_settles (S poll_count)) as Hu.
    destruct (timed (S poll_count)) as [Hl Ho].
    subst fuel. unfold GenerateImages.slept.
    destruct (Kie.reply (env (S poll_count)))
      as [msg | status_code msg | status_code data]; [apply IH; lia| |].
    { destruct (Z.eqb_spec status_code 200) as [-> | Hs]; cbn [negb];
        [now destruct Hu | apply IH; lia]. }
    destruct (Z.eqb_spec status_code 200) as [-> | Hs]; cbn [negb];
      [|apply IH; lia].
    destruct Hu as [Hu | [Hs Hf]]; [congruence|].
    rewrite !bool_decide_eq_false_2 by assumption.
    repeat match goal with |- context [if ?b then _ else _] => destruct b end;
      apply IH; lia.
Qed.

Lemma videos_poll_unsettled_ends (m poll_count : nat) (now : Z) :
  (max_wait * tps - (now - start_time) <= Z.of_nat m)%Z ->
  exists r at_,
    GenerateVideos.poll_loop tps env max_wait start_time (S m) poll_count now
    = Some (r, at_).
Proof.
  revert poll_count now.
  induction m as [|m IH]; intros poll_count now Hleft.
  - simpl. destruct (Z.ltb_spec (now - start_time) (max_wait * tps)); [lia|].
    eauto.
  - remember (S m) as fuel eqn:Efuel. simpl.
    destruct (Z.ltb_spec (now - start_time) (max_wait * tps)); [|eauto].
    pose proof (nothing_settles (S poll_count)) as Hu.
    destruct (timed (S poll_count)) as [Hl Ho].
    subst fuel. unfold GenerateVideos.slept.
    destruct (Kie.reply (env (S poll_count)))
      as [msg | status_code msg | status_code data]; [apply IH; lia| |].
    { destruct (Z.eqb_spec status_code 200) as [-> | Hs]; cbn [negb];
        [now destruct Hu | apply IH; lia]. }
    destruct (Z.eqb_spec status_code 200) as [-> | Hs]; cbn [negb];
      [|apply IH; lia].
    destruct Hu as [Hu | [Hs Hf]]; [congruence|].
    rewrite !bool_decide_eq_false_2 by assumption.
    repeat match goal with |- context [if ?b then _ else _] => destruct b end;
      apply IH; lia.
Qed.

End PollingAnyReply.

(** A reply with status 200 that holds no [data] object is no such
    reply: it ends either loop at once, with the [AttributeError] that
    neither handler of the loop catches. *)
Lemma polling_stops_without_data (tps : Z) (env : nat -> Kie.exchange)
    (max_wait start_time : Z) (fuel : nat) (msg : string) :
  (0 < max_wait * tps)%Z ->
  Kie.reply (env 1%nat) = Kie.GotNull 200 msg ->
  GenerateImages.poll_task_status tps env max_wait start_time (S fuel)
  = Some (Raise (mk_exn AttributeError msg),
          (start_time + Kie.latency (env 1%nat))%Z)
  /\ GenerateVideos.poll_task_status tps env max_wait start_time (S fuel)
     = Some (Raise (mk_exn AttributeError msg),
             (start_time + Kie.latency (env 1%nat))%Z).
Proof.
  intros Hbudget Hreply.
  unfold GenerateImages.poll_task_status, GenerateVideos.poll_task_status.
  cbn [GenerateImages.poll_loop GenerateVideos.poll_loop].
  destruct (Z.ltb_spec (start_time - start_time) (max_wait * tps)); [|lia].
  rewrite Hreply. split; reflexivity.
Qed.

(** X10: transport errors, statuses other than 200 and unknown states do
    not end the polling and do not restart its clock: while every reply
    is one of these (the request fails, the status is not 200, or the
    reply holds a [data] object whose state is neither [success] nor
    [fail]), both loops end, for any budget, by raising their time-out
    once the budget has passed since the start, and in no other way. *)
Theorem polling_survives_transient_errors (tps : Z)
    (env : nat -> Kie.exchange) (max_wait start_time : Z) :
  (0 < tps)%Z ->
  (forall k, Polling.unsettled (Kie.reply (env k))) ->
  Props.well_timed env ->
  Props.ends_raising
    (GenerateImages.poll_task_status tps env max_wait start_time)
    (GenerateImages.timeout_error max_wait) start_time (max_wait * tps)
  /\ Props.ends_raising
       (GenerateVideos.poll_task_status tps env max_wait start_time)
       (GenerateVideos.timeout_error max_wait) start_time (max_wait * tps).
Proof.
  intros Htps Hu Ht.
  unfold GenerateImages.poll_task_status, GenerateVideos.poll_task_status.
  split; split.
  - destruct (images_poll_unsettled_ends tps env max_wait start_time Hu Htps Ht
                (Z.to_nat (max_wait * tps)) 0 start_time)
      as (r & at_ & E); [lia|].
    destruct (images_poll_unsettled_only_times_out _ _ _ _ Hu _ _ _ _ _ E)
      as [-> Hat]. eauto.
  - intros fuel r at_. now apply images_poll_unsettled_only_times_out.
  - destruct (videos_poll_unsettled_ends tps env max_wait start_time Hu Htps Ht
                (Z.to_nat (max_wait * tps)) 0 start_time)
      as (r & at_ & E); [lia|].
    destruct (videos_poll_unsettled_only_times_out _ _ _ _ Hu _ _ _ _ _ E)
      as [-> Hat]. eauto.
  - intros fuel r at_. now apply videos_poll_unsettled_only_times_out.
Qed.

Lemma polling_survives_transient_errors_witness :
  Props.ends_raising
    (GenerateImages.poll_task_status 1000 Polling.flaky 600 0)
    (GenerateImages.timeout_error 600) 0 600000
  /\ Props.ends_raising
       (GenerateVideos.poll_task_status 1000 Polling.flaky 900 0)
       (GenerateVideos.timeout_error 900) 0 900000.
Proof.
  assert (Hu : forall k, Polling.unsettled (Kie.reply (Polling.flaky k))).
  { intros k. unfold Polling.flaky. cbn [Kie.reply].
    destruct (k mod 3 =? 0)%nat; [exact I|].
    destruct (k mod 5 =? 0)%nat; cbn; [left; lia|].
    right. split; discriminate. }
  assert (Ht : Props.well_timed Polling.flaky)
    by (intros k; simpl; lia).
  split.
  - apply (polling_survives_transient_errors 1000 Polling.flaky 600 0);
      [lia | exact Hu | exact Ht].
  - apply (polling_survives_transient_errors 1000 Polling.flaky 900 0);
      [lia | exact Hu | exact Ht].
Defined.

(** X11: whatever the provider replies, what the image loop returns is
    the list of result URLs of a reply with status 200 and state
    [success], and that list is not empty. *)
Theorem image_poll_returns_a_result (tps : Z) (env : nat -> Kie.exchange)
    (max_wait start_time : Z) (fuel : nat) (urls : list string) (at_ : Z) :
  GenerateImages.poll_task_status tps env max_wait start_time fuel
  = Some (Ok urls, at_) ->
  urls <> []
  /\ exists k data,
       Kie.reply (env k) = Kie.Got 200 data
       /\ Kie.state data = Some "success"
       /\ Kie.resultJson data = Kie.Decoded urls.
Proof.
  intros H. unfold GenerateImages.poll_task_status in H.
  now apply (images_poll_outcomes _ _ _ _ _ _ _ _ _ H).
Qed.

Lemma image_poll_returns_a_result_witness :
  ["https://results.example/out-1"] <> []
  /\ exists k data,
       Kie.reply ((fun _ : nat => Polling.succeeding) k) = Kie.Got 200 data
       /\ Kie.state data = Some "success"
       /\ Kie.resultJson data = Kie.Decoded ["https://results.example/out-1"].
Proof.
  apply (image_poll_returns_a_result 1000 (fun _ : nat => Polling.succeeding) 600 0
           1 ["https://results.example/out-1"] 120).
  reflexivity.
Defined.

(** X12: whatever the provider replies, neither loop raises its time-out
    before the budget has passed since the start. *)
Theorem timeout_never_early (tps : Z) (env : nat -> Kie.exchange)
    (max_wait start_time : Z) (fuel : nat) (at_ : Z) :
  (GenerateImages.poll_task_status tps env max_wait start_time fuel
   = Some (Raise (GenerateImages.timeout_error max_wait), at_) ->
   (max_wait * tps <= at_ - start_time)%Z)
  /\ (GenerateVideos.poll_task_status tps env max_wait start_time fuel
      = Some (Raise (GenerateVideos.timeout_error max_wait), at_) ->
      (max_wait * tps <= at_ - start_time)%Z).
Proof.
  unfold GenerateImages.poll_task_status, GenerateVideos.poll_task_status.
  split; intros H.
  - now apply (proj2 (images_poll_outcomes _ _ _ _ _ _ _ _ _ H)
                 (GenerateImages.timeout_error max_wait)).
  - now apply (proj2 (videos_poll_outcomes _ _ _ _ _ _ _ _ _ H)).
Qed.

(** ** The approval gate *)

(** X13: when the operator is asked and answers anything but yes or y,
    the image stage and the video stage end without a single call to the
    provider or to the hosts of its results, and (the image stage outside
    test mode) without a write to the store; the exit code is 0 when the
    question was reached. *)
Theorem declined_run_spends_nothing (ia : GenerateImages.args)
    (va : GenerateVideos.args) (w : World.world) :
  GenerateImages.dry_run ia = false ->
  GenerateImages.skip_approval ia = false ->
  GenerateVideos.dry_run va = false ->
  GenerateVideos.skip_approval va = false ->
  GenerateImages.declined (World.typed w) = true ->
  (Props.count Effects.remote_call (fst (GenerateImages.main ia w)) = 0%Z
   /\ (GenerateImages.test_mode ia = false ->
       Props.count Effects.store_write (fst (GenerateImages.main ia w)) = 0%Z)
   /\ (In Effects.Input (fst (GenerateImages.main ia w)) ->
       snd (GenerateImages.main ia w) = Effects.Exit 0))
  /\ (Props.count Effects.remote_call (fst (GenerateVideos.main va w)) = 0%Z
      /\ Props.count Effects.store_write (fst (GenerateVideos.main va w)) = 0%Z
      /\ (In Effects.Input (fst (GenerateVideos.main va w)) ->
          snd (GenerateVideos.main va w) = Effects.Exit 0)).
Proof.
  intros Hid Hia Hvd Hva Hno. split.
  - unfold GenerateImages.main, GenerateImages.load_scenes.
    rewrite Hid, Hia, Hno. cbn [negb andb].
    destruct (Effects.load_config _);
      [|cbn; repeat split; intros []].
    destruct (GenerateImages.test_mode ia).
    + case_bool_decide; cbn; repeat split; discriminate.
    + case_bool_decide; cbn; repeat split; try discriminate.
      intros [Hin | []]. discriminate Hin.
  - unfold GenerateVideos.main.
    rewrite Hvd, Hva.
    change (GenerateVideos.declined (World.typed w))
      with (GenerateImages.declined (World.typed w)).
    rewrite Hno. cbn [negb andb].
    destruct (Effects.load_config _);
      [|cbn; repeat split; intros []].
    destruct (GenerateVideos.test_mode va);
      [cbn; repeat split; intros []|].
    case_bool_decide; cbn; repeat split.
    intros [Hin | []]. discriminate Hin.
Qed.

Lemma declined_run_spends_nothing_witness :
  GenerateImages.main Cases.image_args_asking
    (Cases.declining [Samples.prompted "rec1"])
  = ([Effects.TableAll "{Project Name}='Creative Cloner Project'";
      Effects.Input], Effects.Exit 0)
  /\ Props.count Effects.remote_call
       (fst (GenerateVideos.main Cases.video_args_asking
               (Cases.declining [Samples.scene_without_video_prompt]))) = 0%Z.
Proof.
  split; [vm_compute; reflexivity|].
  apply (declined_run_spends_nothing Cases.image_args_asking
           Cases.video_args_asking
           (Cases.declining [Samples.scene_without_video_prompt]));
    reflexivity.
Defined.

(** ** What the generation loops write *)

Section LoopWrites.

Import Effects World.

Variable w : world.

Lemma writes_field_weaken field (scenes scenes' : list Airtable.record) e :
  (forall r, In r scenes -> In r scenes') ->
  Writes.writes_field field scenes e -> Writes.writes_field field scenes' e.
Proof.
  intros Hin. destruct e; simpl; auto.
  intros (r & url & Hr & E1 & E2). exists r, url. auto.
Qed.

Ltac write_facts :=
  eexists; simpl; rewrite <- ?app_assoc; simpl;
  split; [reflexivity|];
  split; [repeat constructor; simpl; eauto 6|];
  unfold Props.count; simpl; lia.

(** One turn of the image loop: a store write only for the scene of the
    turn, only of its start image, and only after its task was created
    and polled; a success only with a write. *)
Lemma image_turn_writes (a : GenerateImages.args)
    (reference_image_url : option string) (n i : Z)
    (record : Airtable.record) (t : GenerateImages.tally) :
  exists new,
    let t' := GenerateImages.turn w a reference_image_url n i record t in
    GenerateImages.log t' = (GenerateImages.log t ++ new)%list
    /\ Forall (Writes.writes_field "start_image" [record]) new
    /\ (0 <= GenerateImages.successful t' - GenerateImages.successful t
        <= Props.count store_write new
        /\ Props.count store_write new <= Props.count Writes.polled new
        /\ Props.count Writes.polled new <= Props.count Props.task_created new
        /\ Props.count Props.task_created new <= 1)%Z.
Proof.
  unfold GenerateImages.turn, GenerateImages.attempt,
    GenerateImages.create_image_generation_task,
    GenerateImages.update_airtable_with_image.
  destruct (Py.truthy _); simpl; [|write_facts].
  destruct (Kie.task_id_of_reply (task_reply_of w i)) as [task_id|e1];
    [|destruct (i <? n)%Z; write_facts].
  destruct (poll_outcome w i task_id) as [[|url urls]|e2];
    [destruct (i <? n)%Z; write_facts
    | |destruct (i <? n)%Z; write_facts].
  destruct (table_update w i (Airtable.id record)) as [msg|];
    destruct (i <? n)%Z; write_facts.
Qed.

Lemma image_loop_writes (a : GenerateImages.args)
    (reference_image_url : option string) (n : Z)
    (scenes : list Airtable.record) (i : Z) (t : GenerateImages.tally) :
  exists new,
    let t' :=
      GenerateImages.generation_loop w a reference_image_url n i scenes t in
    GenerateImages.log t' = (GenerateImages.log t ++ new)%list
    /\ Forall (Writes.writes_field "start_image" scenes) new
    /\ (0 <= GenerateImages.successful t' - GenerateImages.successful t
        <= Props.count store_write new
        /\ Props.count store_write new <= Props.count Writes.polled new
        /\ Props.count Writes.polled new <= Props.count Props.task_created new
        /\ Props.count Props.task_created new <= Z.of_nat (length scenes))%Z.
Proof.
  revert i t. induction scenes as [|record rest IH]; intros i t.
  - exists []. simpl. rewrite app_nil_r. split; [reflexivity|].
    split; [constructor|]. rewrite !count_nil. lia.
  - destruct (image_turn_writes a reference_image_url n i record t)
      as (new1 & L1 & W1 & C1).
    destruct (IH (i + 1)%Z
                (GenerateImages.turn w a reference_image_url n i record t))
      as (new2 & L2 & W2 & C2).
    exists (new1 ++ new2)%list. cbn zeta in *.
    cbn [GenerateImages.generation_loop].
    split; [now rewrite L2, L1, app_assoc|].
    split.
    + apply Forall_app. split.
      * eapply Forall_impl; [exact W1|]. intros e.
        apply writes_field_weaken. intros r [<- | []]. now left.
      * eapply Forall_impl; [exact W2|]. intros e.
        apply writes_field_weaken. intros r Hr. now right.
    + rewrite !count_app. cbn [length]. lia.
Qed.

Ltac video_write_facts :=
  eexists; simpl; rewrite <- ?app_assoc; simpl;
  split; [reflexivity|];
  split; [repeat constructor; simpl; eauto 6|];
  unfold Props.count; simpl; lia.

(** One turn of the video loop: a store write only for the scene of the
    turn, only of its scene video, and only after its task was created
    and polled; a download only after the write; a success only with a
    write. *)
Lemma video_turn_writes (a : GenerateVideos.args) (n i : Z)
    (record : Airtable.record) (t : GenerateVideos.tally) :
  exists new,
    let t' := GenerateVideos.turn w a n i record t in
    GenerateVideos.log t' = (GenerateVideos.log t ++ new)%list
    /\ Forall (Writes.writes_field "scene_video" [record]) new
    /\ (0 <= GenerateVideos.success_count t' - GenerateVideos.success_count t
        <= Props.count store_write new
        /\ Props.count Writes.downloaded new <= Props.count store_write new
        /\ Props.count store_write new <= Props.count Writes.polled new
        /\ Props.count Writes.polled new <= Props.count Props.task_created new
        /\ Props.count Props.task_created new <= 1)%Z.
Proof.
  unfold GenerateVideos.turn, GenerateVideos.attempt,
    GenerateVideos.create_video_generation_task,
    GenerateVideos.update_airtable_record, GenerateVideos.download_video.
  destruct (GenerateVideos.get_image_url_from_record record) as [image_url|e0];
    simpl; [|video_write_facts].
  destruct (Py.truthy _); simpl; [|video_write_facts].
  destruct (Kie.task_id_of_reply (task_reply_of w i)) as [task_id|e1];
    [|video_write_facts].
  destruct (poll_outcome w i task_id) as [[|url urls]|e2];
    [video_write_facts | |video_write_facts].
  destruct (table_update w i (Airtable.id record)) as [msg|];
    [video_write_facts|].
  destruct (GenerateVideos.skip_download a);
    [|destruct (download_outcome w i) as [msg|]];
    try destruct (i <? n)%Z; video_write_facts.
Qed.

Lemma video_loop_writes (a : GenerateVideos.args) (n : Z)
    (scenes : list Airtable.record) (i : Z) (t : GenerateVideos.tally) :
  exists new,
    let t' := GenerateVideos.generation_loop w a n i scenes t in
    GenerateVideos.log t' = (GenerateVideos.log t ++ new)%list
    /\ Forall (Writes.writes_field "scene_video" scenes) new
    /\ (0 <= GenerateVideos.success_count t' - GenerateVideos.success_count t
        <= Props.count store_write new
        /\ Props.count Writes.downloaded new <= Props.count store_write new
        /\ Props.count store_write new <= Props.count Writes.polled new
        /\ Props.count Writes.polled new <= Props.count Props.task_created new
        /\ Props.count Props.task_created new <= Z.of_nat (length scenes))%Z.
Proof.
  revert i t. induction scenes as [|record rest IH]; intros i t.
  - exists []. simpl. rewrite app_nil_r. split; [reflexivity|].
    split; [constructor|]. rewrite !count_nil. lia.
  - destruct (video_turn_writes a n i record t) as (new1 & L1 & W1 & C1).
    destruct (IH (i + 1)%Z (GenerateVideos.turn w a n i record t))
      as (new2 & L2 & W2 & C2).
    exists (new1 ++ new2)%list. cbn zeta in *.
    cbn [GenerateVideos.generation_loop].
    split; [now rewrite L2, L1, app_assoc|].
    split.
    + apply Forall_app. split.
      * eapply Forall_impl; [exact W1|]. intros e.
        apply writes_field_weaken. intros r [<- | []]. now left.
      * eapply Forall_impl; [exact W2|]. intros e.
        apply writes_field_weaken. intros r Hr. now right.
    + rewrite !count_app. cbn [length]. lia.
Qed.

End LoopWrites.

(** X14: whatever the provider and the store answer, every store write
    of the image loop sets the field [start_image] of a row of the batch
    to one URL and nothing else, and no row is created. The loop writes
    at most once for each task it polled, polls at most once for each
    task it created, creates at most one task for each scene, and counts
    no success without a write. *)
Theorem image_loop_writes_only_its_field (w : World.world)
    (a : GenerateImages.args) (reference_image_url : option string)
    (scenes : list Airtable.record) (before : list Effects.event) :
  let final :=
    GenerateImages.generation_loop w a reference_image_url
      (Z.of_nat (length scenes)) 1 scenes
      {| GenerateImages.successful := 0; GenerateImages.failed := 0;
         GenerateImages.log := before |} in
  exists new,
    GenerateImages.log final = (before ++ new)%list
    /\ Forall (Writes.writes_field "start_image" scenes) new
    /\ (0 <= GenerateImages.successful final
        <= Props.count Effects.store_write new
        /\ Props.count Effects.store_write new
           <= Props.count Writes.polled new
        /\ Props.count Writes.polled new
           <= Props.count Props.task_created new
        /\ Props.count Props.task_created new <= Z.of_nat (length scenes))%Z.
Proof.
  intros final.
  destruct (image_loop_writes w a reference_image_url (Z.of_nat (length scenes))
              scenes 1
              {| GenerateImages.successful := 0; GenerateImages.failed := 0;
                 GenerateImages.log := before |})
    as (new & L & W & C).
  exists new. fold final in L, C. simpl in L, C.
  split; [exact L|]. split; [exact W|]. lia.
Qed.

(** X15: the same for the video loop and the field [scene_video]; in
    addition it downloads at most once for each write, so never a video
    that was not recorded in the store first. *)
Theorem video_loop_writes_only_its_field (w : World.world)
    (a : GenerateVideos.args) (scenes : list Airtable.record)
    (before : list Effects.event) :
  let final :=
    GenerateVideos.generation_loop w a (Z.of_nat (length scenes)) 1 scenes
      {| GenerateVideos.success_count := 0; GenerateVideos.fail_count := 0;
         GenerateVideos.actual_cost := 0; GenerateVideos.log := before |} in
  exists new,
    GenerateVideos.log final = (before ++ new)%list
    /\ Forall (Writes.writes_field "scene_video" scenes) new
    /\ (0 <= GenerateVideos.success_count final
        <= Props.count Effects.store_write new
        /\ Props.count Writes.downloaded new
           <= Props.count Effects.store_write new
        /\ Props.count Effects.store_write new
           <= Props.count Writes.polled new
        /\ Props.count Writes.polled new
           <= Props.count Props.task_created new
        /\ Props.count Props.task_created new <= Z.of_nat (length scenes))%Z.
Proof.
  intros final.
  destruct (video_loop_writes w a (Z.of_nat (length scenes)) scenes 1
              {| GenerateVideos.success_count := 0;
                 GenerateVideos.fail_count := 0;
                 GenerateVideos.actual_cost := 0;
                 GenerateVideos.log := before |})
    as (new & L & W & C).
  exists new. fold final in L, C. simpl in L, C.
  split; [exact L|]. split; [exact W|]. lia.
Qed.

(** ** From one stage to the next *)

Section HandOff.

Import GenerateVideos.

Lemma selected_iff (w : World.world) (project_name : string)
    (r : Airtable.record) :
  In r (get_scenes_from_airtable w project_name) <->
  In r (World.table_all w (Airtable.project_formula project_name))
  /\ present (Airtable.fields r) "start_image" = true
  /\ present (Airtable.fields r) "scene_video" = false.
Proof.
  unfold get_scenes_from_airtable.
  case_bool_decide as Hnil.
  - rewrite Hnil. simpl. tauto.
  - rewrite select_filter. simpl. rewrite filter_In, <- selects_eligible.
    rewrite andb_true_iff, negb_true_iff. tauto.
Qed.

End HandOff.


(** The hand-over on sample rows. *)
Lemma written_fields_drive_selection_on_samples :
  GenerateVideos.get_scenes_from_airtable
    (Samples.store_with
       [Samples.prompted "rec1";
        Writes.with_image "rec2" "https://images.example/2.png";
        Writes.with_video "rec3" "https://images.example/3.png"
          "https://videos.example/3.mp4"])
    "Creative Cloner Project"
  = [Writes.with_image "rec2" "https://images.example/2.png"].
Proof. vm_compute. reflexivity. Qed.

(** X17: on a row it selected, the video stage never fails with the
    message that no image was found: reading the image URL fails only
    when the first attachment has no [url], or the field is text. *)
Theorem selected_scene_has_an_image (w : World.world) (project_name : string)
    (r : Airtable.record) :
  In r (GenerateVideos.get_scenes_from_airtable w project_name) ->
  (exists image_url, GenerateVideos.get_image_url_from_record r = Ok image_url)
  \/ (exists e,
         GenerateVideos.get_image_url_from_record r = Raise e
         /\ exn_type e <> Exception).
Proof.
  rewrite selected_iff. intros (_ & Hi & _).
  unfold GenerateVideos.present in Hi.
  unfold GenerateVideos.get_image_url_from_record.
  destruct (Airtable.fields r !! "start_image") as [[s | [|first rest]]|];
    simpl in Hi; try discriminate Hi.
  - rewrite Hi. right. eexists. split; [reflexivity | discriminate].
  - destruct (first !! "url") as [image_url|]; [left; eauto|].
    right. eexists. split; [reflexivity | discriminate].
Qed.

Lemma selected_scene_has_an_image_witness :
  (exists image_url,
      GenerateVideos.get_image_url_from_record
        (Writes.with_image "rec2" "https://images.example/2.png")
      = Ok image_url)
  \/ (exists e,
         GenerateVideos.get_image_url_from_record
           (Writes.with_image "rec2" "https://images.example/2.png")
         = Raise e
         /\ exn_type e <> Exception).
Proof.
  apply (selected_scene_has_an_image
           (Samples.store_with
              [Writes.with_image "rec2" "https://images.example/2.png"])
           "Creative Cloner Project").
  vm_compute. left. reflexivity.
Defined.

(** ** Creating a task *)

(** X18: the prompt posted with a task is never longer than the limit of
    the model it is posted for, in both tools and for every model of
    their [MODELS] tables; a prompt within the limit is posted as it
    is. *)
Theorem posted_prompt_within_model_limit (prompt : string) :
  (forall m reference_image_url aspect_ratio resolution,
      let config := GenerateImages.MODELS m in
      let posted :=
        Effects.ii_prompt
          (GenerateImages.task_input prompt (GenerateImages.model_key m)
             config reference_image_url aspect_ratio resolution) in
      (Py.len posted <= GenerateImages.max_prompt_length config)%Z
      /\ ((Py.len prompt <= GenerateImages.max_prompt_length config)%Z ->
          posted = prompt))
  /\ (forall m image_url aspect_ratio n_frames remove_watermark,
        let config := GenerateVideos.MODELS m in
        let posted :=
          Effects.vi_prompt
            (GenerateVideos.task_input prompt image_url config aspect_ratio
               n_frames remove_watermark) in
        (Py.len posted <= GenerateVideos.max_prompt_length config)%Z
        /\ ((Py.len prompt <= GenerateVideos.max_prompt_length config)%Z ->
            posted = prompt)).
Proof.
  split.
  - intros m ref ar res config posted.
    assert (E : posted
                = if (GenerateImages.max_prompt_length config <? Py.len prompt)%Z
                  then Truncate.truncate_prompt prompt
                         (GenerateImages.max_prompt_length config)
                  else prompt).
    { unfold posted, GenerateImages.task_input. fold config.
      destruct (String.eqb _ _); reflexivity. }
    rewrite E.
    destruct (Z.ltb_spec (GenerateImages.max_prompt_length config)
                (Py.len prompt)) as [Hlong | Hshort].
    + split; [|lia]. apply truncate_prompt_fits.
      unfold config. destruct m; simpl; lia.
    + split; [lia | reflexivity].
  - intros m url ar nf rw config posted.
    unfold posted, GenerateVideos.task_input. fold config. cbn [Effects.vi_prompt].
    destruct (Z.ltb_spec (GenerateVideos.max_prompt_length config)
                (Py.len prompt)) as [Hlong | Hshort].
    + split; [|lia]. apply truncate_prompt_fits.
      unfold config. destruct m; simpl; lia.
    + split; [lia | reflexivity].
Qed.

(** X19: a task id comes out of a [createTask] reply only when the
    status is 200 and the body holds a task id. Every other reply raises
    a plain exception: a request that did not get through says so as a
    network error, a reply that was read says so as a failure to create
    the task (a body that is no JSON aside, whose error class is the
    library's). *)
Theorem task_id_only_from_accepted_reply (r : Kie.task_reply) :
  (forall task_id,
      Kie.task_id_of_reply r = Ok task_id ->
      exists text, r = Kie.Posted 200 text (Kie.TaskId task_id))
  /\ (forall e,
        Kie.task_id_of_reply r = Raise e ->
        exn_type e = Exception
        /\ match r with
           | Kie.PostFailed msg => exn_msg e = "Network error: " ++ msg
           | Kie.Posted status_code _ body =>
               (status_code = 200%Z -> forall msg, body <> Kie.BadJson msg) ->
               exists why, exn_msg e = "Failed to create task: " ++ why
           end).
Proof.
  unfold Kie.task_id_of_reply. destruct r as [msg | status_code text body].
  - split; [discriminate|]. intros e [= <-]. split; reflexivity.
  - destruct (Z.eqb_spec status_code 402) as [-> | H402];
      [split; [discriminate | intros e [= <-]; split; simpl; eauto]|].
    destruct (Z.eqb_spec status_code 422) as [-> | H422];
      [split; [discriminate | intros e [= <-]; split; simpl; eauto]|].
    destruct (Z.eqb_spec status_code 429) as [-> | H429];
      [split; [discriminate | intros e [= <-]; split; simpl; eauto]|].
    destruct (Z.eqb_spec status_code 200) as [-> | Hs]; cbn [negb];
      [|split; [discriminate | intros e [= <-]; split; simpl; eauto]].
    destruct body as [msg | | | | task_id].
    + split; [discriminate|]. intros e [= <-]. split; [reflexivity|].
      intros Hjson. now destruct (Hjson eq_refl msg).
    + split; [discriminate | intros e [= <-]; split; simpl; eauto].
    + split; [discriminate | intros e [= <-]; split; simpl; eauto].
    + split; [discriminate | intros e [= <-]; split; simpl; eauto].
    + destruct (Py.truthy task_id).
      * split; [|discriminate]. intros task_id' [= <-]. eauto.
      * split; [discriminate | intros e [= <-]; split; simpl; eauto].
Qed.

(** ** Temporary files of the combine stage *)

Section Assembling.

Import CombineAll.

(** Settles a goal about a log that is an explicit list. *)
Ltac in_log :=
  simpl; repeat split; intros;
  repeat match goal with
    | H : _ \/ _ |- _ => destruct H
    | H : False |- _ => destruct H
    | H : _ = _ |- _ => first [discriminate H | injection H as ? ? ? ?
                              | injection H as ? ? ? | injection H as ? ?
                              | injection H as ?]
    end;
  subst; simpl; auto 10; simpl; auto 10.

Lemma assemble_cleans_up (a : args) (w : world) (video_files : list string) :
  let run := assemble a w video_files in
  let concat_file := input_dir a ++ "/videos_concat_list.txt" in
  exists temp_files,
    In (Cleanup temp_files) (fst run)
    /\ In concat_file temp_files
    /\ (forall c o k, In (Concat c o k) (fst run) ->
                      c = concat_file
                      /\ (o = output a \/ In o temp_files))
    /\ (forall v m o f, In (AddMusic v m o f) (fst run) ->
                        combined w = true /\ music_exists w = true
                        /\ o = output a /\ In v temp_files)
    /\ (snd run = Exit 0 <->
        In (Combined (output a) (Z.of_nat (length video_files))) (fst run))
    /\ (snd run = Exit 0 \/ snd run = Exit 1).
Proof.
  unfold assemble, add_background_music.
  destruct (concat_file_error w) as [msg|].
  { eexists. in_log. }
  destruct (music a) as [music_file|].
  - destruct (Py.truthy music_file).
    + destruct (combined w) eqn:Ec; cbn [negb].
      * destruct (music_exists w) eqn:Em; cbn [negb].
        -- destruct (music_added w); cbn [negb]; eexists; in_log.
        -- eexists; in_log.
      * eexists; in_log.
    + destruct (combined w) eqn:Ec; cbn [negb]; eexists; in_log.
  - destruct (combined w) eqn:Ec; cbn [negb]; eexists; in_log.
Qed.

End Assembling.

(** X20: a combine run that gets past the dry-run gate always removes
    its temporary files, whether ffmpeg succeeded or not: the log holds
    a clean-up that names the concat list, every ffmpeg concatenation
    reads that list and writes either the final output or a file named
    in the clean-up, and music is only added to a concatenation that
    succeeded. The exit code is 0 exactly when the final video is
    reported, and 1 otherwise. *)
Theorem combine_always_cleans_up (a : CombineAll.args) (w : CombineAll.world)
    (video_files : list string) :
  CombineAll.ffmpeg_installed w = true ->
  CombineAll.find_video_files (CombineAll.listing w) (CombineAll.project_name a)
  = Ok video_files ->
  (2 <= length video_files)%nat ->
  CombineAll.dry_run a = false ->
  let run := CombineAll.main a w in
  let concat_file := CombineAll.input_dir a ++ "/videos_concat_list.txt" in
  exists temp_files,
    In (CombineAll.Cleanup temp_files) (fst run)
    /\ In concat_file temp_files
    /\ (forall c o k, In (CombineAll.Concat c o k) (fst run) ->
                      c = concat_file
                      /\ (o = CombineAll.output a \/ In o temp_files))
    /\ (forall v m o f, In (CombineAll.AddMusic v m o f) (fst run) ->
                        CombineAll.combined w = true
                        /\ CombineAll.music_exists w = true
                        /\ o = CombineAll.output a /\ In v temp_files)
    /\ (snd run = CombineAll.Exit 0 <->
        In (CombineAll.Combined (CombineAll.output a)
              (Z.of_nat (length video_files))) (fst run))
    /\ (snd run = CombineAll.Exit 0 \/ snd run = CombineAll.Exit 1).
Proof.
  intros Hff Hfound Hlen Hdry run concat_file.
  assert (E : run = (CombineAll.FfmpegVersion
                       :: fst (CombineAll.assemble a w video_files),
                     snd (CombineAll.assemble a w video_files))).
  { unfold run, CombineAll.main. rewrite Hff, Hfound, Hdry. cbn [negb].
    rewrite bool_decide_eq_false_2 by (intros ->; simpl in Hlen; lia).
    destruct (Z.eqb_spec (Z.of_nat (length video_files)) 1); [lia|].
    now destruct (CombineAll.assemble a w video_files). }
  destruct (assemble_cleans_up a w video_files)
    as (temp_files & Hc & Ht & Hcat & Hmusic & Hexit & Hcode).
  exists temp_files. rewrite E. cbn [fst snd].
  split; [now right|]. split; [exact Ht|].
  split; [intros c o k [Hin | Hin]; [discriminate Hin | eapply Hcat; exact Hin]|].
  split; [intros v m o f [Hin | Hin]; [discriminate Hin | eapply Hmusic; exact Hin]|].
  split; [|exact Hcode].
  rewrite Hexit. split; [now right|]. intros [Hin | Hin]; [discriminate Hin|].
  exact Hin.
Qed.

Lemma combine_always_cleans_up_witness :
  exists temp_files,
    In (CombineAll.Cleanup temp_files)
       (fst (CombineAll.main Samples.combine_args
               (Cases.failing_ffmpeg ["scene_1_a.mp4"; "scene_2_b.mp4"])))
    /\ In "outputs/videos_concat_list.txt" temp_files
    /\ snd (CombineAll.main Samples.combine_args
              (Cases.failing_ffmpeg ["scene_1_a.mp4"; "scene_2_b.mp4"]))
       = CombineAll.Exit 1.
Proof.
  destruct (combine_always_cleans_up Samples.combine_args
              (Cases.failing_ffmpeg ["scene_1_a.mp4"; "scene_2_b.mp4"])
              ["scene_1_a.mp4"; "scene_2_b.mp4"])
    as (temp_files & Hc & Ht & _);
    [reflexivity | vm_compute; reflexivity | simpl; lia | reflexivity |].
  exists temp_files. split; [exact Hc|]. split; [exact Ht | reflexivity].
Defined.

(** ** The logging tool *)

Section Logging.

Import LogToAirtable.

Variable w : world.

Lemma slice_ten (ids : list string) (i : nat) :
  slice ids i (i + 10) = firstn 10 (skipn i ids).
Proof. unfold slice. now replace (i + 10 - i)%nat with 10%nat by lia. Qed.

(** The batches of the starts [10 j, 10 (j + 1), ...], all inside the
    list, are the list from [10 j] on, cut in tens. *)
Lemma delete_batches_cut (ids : list string) (m j : nat) :
  ((j + m) * 10 < length ids + 10)%nat ->
  exists batches,
    fst (delete_batches w ids (map (fun k => k * 10)%nat (seq j m)))
    = map BatchDelete batches
    /\ Forall (fun batch => (1 <= length batch <= 10)%nat) batches
    /\ (exists rest, skipn (j * 10) ids = (concat batches ++ rest)%list)
    /\ (snd (delete_batches w ids (map (fun k => k * 10)%nat (seq j m)))
        = None ->
        concat batches = firstn (m * 10) (skipn (j * 10) ids))
    /\ ((forall i batch, batch_delete w i batch = None) ->
        snd (delete_batches w ids (map (fun k => k * 10)%nat (seq j m)))
        = None).
Proof.
  revert j. induction m as [|m IH]; intros j Hin.
  - exists []. simpl. split; [reflexivity|]. split; [constructor|].
    split; [now exists (skipn (j * 10) ids)|]. split; reflexivity.
  - cbn [seq map delete_batches]. rewrite slice_ten.
    set (batch := firstn 10 (skipn (j * 10) ids)).
    assert (Hlen : (1 <= length batch <= 10)%nat).
    { unfold batch. rewrite length_firstn, length_skipn. lia. }
    destruct (batch_delete w (j * 10) batch) as [msg|] eqn:Ed.
    + exists [batch]. cbn [fst snd map concat].
      split; [reflexivity|]. split; [constructor; [exact Hlen | constructor]|].
      split.
      * exists (skipn 10 (skipn (j * 10) ids)). rewrite app_nil_r.
        unfold batch. now rewrite firstn_skipn.
      * split; [discriminate|]. intros Hall. now rewrite Hall in Ed.
    + destruct (IH (S j)) as (batches & Hev & Hsz & (rest & Hrest) & Hall & Hok);
        [lia|].
      destruct (delete_batches w ids (map (fun k => (k * 10)%nat) (seq (S j) m)))
        as [deleted error].
      cbn [fst snd] in *.
      assert (Hskip : skipn (S j * 10) ids = skipn 10 (skipn (j * 10) ids)).
      { rewrite skipn_skipn. f_equal; lia. }
      exists (batch :: batches). cbn [map concat].
      split; [now rewrite Hev|]. split; [now constructor|].
      split.
      * exists rest. rewrite <- app_assoc, <- Hrest, Hskip.
        unfold batch. now rewrite firstn_skipn.
      * split; [|exact Hok].
        intros Hnone. rewrite (Hall Hnone), Hskip.
        replace (S m * 10)%nat with (10 + m * 10)%nat by lia.
        unfold batch. apply take_take_drop.
Qed.

Lemma range_by_ten (n : nat) :
  range_by n 10 = map (fun k => k * 10)%nat (seq 0 ((n + 9) / 10))
  /\ (((n + 9) / 10) * 10 < n + 10)%nat
  /\ (n <= ((n + 9) / 10) * 10)%nat.
Proof.
  unfold range_by. replace (n + 10 - 1)%nat with (n + 9)%nat by lia.
  split; [reflexivity|].
  pose proof (Nat.div_mod_eq (n + 9) 10) as E.
  pose proof (Nat.mod_upper_bound (n + 9) 10) as B.
  lia.
Qed.

(** What [clear_existing_records] does when the store answers its
    query with the rows [records]. *)
Lemma clear_cut (project_name : option string)
    (records : list Airtable.record) :
  table_all w (formula_of project_name) = Ok records ->
  exists batches tail,
    clear_existing_records w project_name
    = (TableAll (formula_of project_name)
         :: map BatchDelete batches ++ tail)%list
    /\ Forall (fun batch => (1 <= length batch <= 10)%nat) batches
    /\ (exists rest, map Airtable.id records = (concat batches ++ rest)%list)
    /\ ((tail = [] /\ concat batches = map Airtable.id records)
        \/ exists msg, tail = [ClearWarning msg])
    /\ ((forall i batch, batch_delete w i batch = None) -> tail = []).
Proof.
  intros Hall. unfold clear_existing_records. rewrite Hall.
  destruct records as [|first others].
  - exists [], []. simpl. split; [reflexivity|]. split; [constructor|].
    split; [now exists []|]. split; [now left | reflexivity].
  - set (records := first :: others).
    set (ids := map Airtable.id records).
    destruct (range_by_ten (length ids)) as (-> & Hlt & Hge).
    destruct (delete_batches_cut ids ((length ids + 9) / 10) 0)
      as (batches & Hev & Hsz & (rest & Hrest) & Hfull & Hok); [exact Hlt|].
    destruct (delete_batches w ids _) as [deleted error].
    cbn [fst snd] in *. change (skipn (0 * 10) ids) with ids in Hrest, Hfull.
    subst deleted.
    destruct error as [msg|].
    + exists batches, [ClearWarning msg].
      split; [reflexivity|]. split; [exact Hsz|]. split; [now exists rest|].
      split; [right; now exists msg|].
      intros Hnone. discriminate (Hok Hnone).
    + exists batches, []. rewrite app_nil_r.
      split; [reflexivity|]. split; [exact Hsz|]. split; [now exists rest|].
      split; [|reflexivity]. left. split; [reflexivity|].
      rewrite (Hfull eq_refl). apply firstn_all2. exact Hge.
Qed.

End Logging.

(** X21: when the store answers its query, [clear_existing_records]
    asks to delete the rows found in batches of one to ten ids, in the
    order of the answer and each id at most once; the batches cover
    every row found unless the store refuses one, which ends the
    clearing with a warning and leaves the rows after it. Nothing is
    raised in either case. *)
Theorem clear_deletes_in_batches_of_ten (w : LogToAirtable.world)
    (project_name : option string) (records : list Airtable.record) :
  LogToAirtable.table_all w (LogToAirtable.formula_of project_name)
  = Ok records ->
  exists batches tail,
    LogToAirtable.clear_existing_records w project_name
    = (LogToAirtable.TableAll (LogToAirtable.formula_of project_name)
         :: map LogToAirtable.BatchDelete batches ++ tail)%list
    /\ Forall (fun batch => (1 <= length batch <= 10)%nat) batches
    /\ (exists rest, map Airtable.id records = (concat batches ++ rest)%list)
    /\ ((tail = [] /\ concat batches = map Airtable.id records)
        \/ exists msg, tail = [LogToAirtable.ClearWarning msg])
    /\ ((forall i batch, LogToAirtable.batch_delete w i batch = None) ->
        tail = []).
Proof. apply clear_cut. Qed.

Lemma clear_deletes_in_batches_of_ten_witness :
  exists batches,
    LogToAirtable.clear_existing_records (Desk.store Desk.rows)
      (Some "Creative Cloner Project")
    = LogToAirtable.TableAll (Some "{Project Name}='Creative Cloner Project'")
        :: map LogToAirtable.BatchDelete batches
    /\ map (@length string) batches = [10; 10; 3]%nat.
Proof.
  destruct (clear_deletes_in_batches_of_ten (Desk.store Desk.rows)
              (Some "Creative Cloner Project") Desk.rows eq_refl)
    as (batches & tail & E & _ & _ & _ & Hnone).
  rewrite (Hnone (fun _ _ => eq_refl)), app_nil_r in E.
  exists batches. split; [exact E|].
  assert (M : map LogToAirtable.BatchDelete batches
              = map LogToAirtable.BatchDelete
                  [firstn 10 (map Airtable.id Desk.rows);
                   firstn 10 (skipn 10 (map Airtable.id Desk.rows));
                   skipn 20 (map Airtable.id Desk.rows)]).
  { vm_compute in E. vm_compute. now injection E. }
  clear E.
  assert (I : forall a b, map LogToAirtable.BatchDelete a
                          = map LogToAirtable.BatchDelete b -> a = b).
  { induction a as [|x a IH]; intros [|y b] [=]; [reflexivity|].
    f_equal; [assumption | now apply IH]. }
  rewrite (I _ _ M). reflexivity.
Defined.

Section LoggingRows.

Import LogToAirtable.

Variable w : world.

Lemma delete_batches_only_deletes (ids : list string) (starts : list nat) :
  List.filter creates (fst (delete_batches w ids starts)) = [].
Proof.
  induction starts as [|i rest IH]; [reflexivity|].
  cbn [delete_batches]. destruct (batch_delete w i _); [reflexivity|].
  destruct (delete_batches w ids rest) as [deleted error]. exact IH.
Qed.

Lemma clear_creates_nothing (project_name : option string) :
  List.filter creates (clear_existing_records w project_name) = [].
Proof.
  unfold clear_existing_records.
  destruct (table_all w _) as [[|first others] | e]; try reflexivity.
  pose proof (delete_batches_only_deletes
                (map Airtable.id (first :: others))
                (range_by (length (map Airtable.id (first :: others))) 10)) as H.
  destruct (delete_batches w _ _) as [deleted error]. cbn [fst] in H.
  destruct error as [msg|]; cbn [List.filter creates].
  - rewrite List.filter_app, H. reflexivity.
  - exact H.
Qed.

Lemma clear_starts_with_query (project_name : option string) :
  exists rest,
    clear_existing_records w project_name
    = TableAll (formula_of project_name) :: rest.
Proof.
  unfold clear_existing_records.
  destruct (table_all w _) as [[|first others] | e]; eauto.
  destruct (delete_batches w _ _) as [deleted [msg|]]; eauto.
Qed.

(** The logging loop: one request for each prompt, in order, whatever
    the store answers. *)
Lemma log_each_requests (project_name : string)
    (prompts : list CreatePrompts.prompt) (k : nat)
    (records_created : list Airtable.record) :
  let run := log_each w project_name k prompts records_created in
  List.filter creates (fst run)
  = map (fun prompt => TableCreate (record_of project_name prompt)) prompts
  /\ List.filter clears (fst run) = []
  /\ exists new,
       snd run = (records_created ++ new)%list
       /\ (length new + length (List.filter refused (fst run))
           = length prompts)%nat
       /\ Forall (fun row =>
                    exists j prompt,
                      nth_error prompts j = Some prompt
                      /\ table_create w (k + j) (record_of project_name prompt)
                         = Ok row) new.
Proof.
  revert k records_created.
  induction prompts as [|prompt rest IH]; intros k records_created.
  - simpl. split; [reflexivity|]. split; [reflexivity|].
    exists []. rewrite app_nil_r. split; [reflexivity|]. split; constructor.
  - cbn [log_each].
    destruct (table_create w k (record_of project_name prompt))
      as [created | e] eqn:Ec.
    + destruct (IH (S k) (records_created ++ [created])%list)
        as (Hc & Hq & new & Hs & Hn & Hf).
      destruct (log_each w project_name (S k) rest _) as [said records].
      cbn [fst snd] in *. cbn [List.filter creates clears refused map].
      split; [now rewrite Hc|]. split; [exact Hq|].
      exists (created :: new). rewrite Hs, <- app_assoc.
      split; [reflexivity|]. split; [simpl; lia|].
      constructor.
      * exists 0%nat, prompt. rewrite Nat.add_0_r. now split.
      * eapply Forall_impl; [exact Hf|].
        intros row (j & p & Hj & Hrow). exists (S j), p.
        split; [exact Hj|]. now replace (k + S j)%nat with (S k + j)%nat by lia.
    + destruct (IH (S k) records_created) as (Hc & Hq & new & Hs & Hn & Hf).
      destruct (log_each w project_name (S k) rest _) as [said records].
      cbn [fst snd] in *. cbn [List.filter creates clears refused map length].
      split; [now rewrite Hc|]. split; [exact Hq|].
      exists new. split; [exact Hs|]. split; [lia|].
      eapply Forall_impl; [exact Hf|].
      intros row (j & p & Hj & Hrow). exists (S j), p.
      split; [exact Hj|]. now replace (k + S j)%nat with (S k + j)%nat by lia.
Qed.

Lemma display_summary_raises (records : list Airtable.record) (e : exn) :
  display_summary records = Some e -> exn_type e = KeyError.
Proof.
  induction records as [|record rest IH]; [discriminate|].
  cbn [display_summary].
  destruct (Airtable.fields record !! "scene"); [|now intros [= <-]].
  destruct (Airtable.fields record !! "Project Name"); [exact IH|].
  now intros [= <-].
Qed.

End LoggingRows.

(** X22: [log_prompts_to_airtable] asks the store to create one row for
    each prompt, in the order of the prompts and with the fields of
    that prompt, whether or not earlier requests were refused; it
    returns the rows the store created, and the rows returned and the
    refusals reported add up to the number of prompts. *)
Theorem log_attempts_every_prompt (w : LogToAirtable.world)
    (prompts : list CreatePrompts.prompt) (project_name : string) :
  let run := LogToAirtable.log_prompts_to_airtable w prompts project_name in
  List.filter LogToAirtable.creates (fst run)
  = map (fun prompt =>
           LogToAirtable.TableCreate
             (LogToAirtable.record_of project_name prompt)) prompts
  /\ (length (snd run)
      + length (List.filter LogToAirtable.refused (fst run))
      = length prompts)%nat
  /\ Forall (fun row =>
               exists j prompt,
                 nth_error prompts j = Some prompt
                 /\ LogToAirtable.table_create w j
                      (LogToAirtable.record_of project_name prompt)
                    = Ok row) (snd run).
Proof.
  intros run.
  destruct (log_each_requests w project_name prompts 0 [])
    as (Hc & _ & new & Hs & Hn & Hf).
  fold (LogToAirtable.log_prompts_to_airtable w prompts project_name) in *.
  fold run in Hc, Hs, Hn. simpl in Hs. subst new.
  split; [exact Hc|]. split; [exact Hn | exact Hf].
Qed.

(** X23: a run of the logging tool that finds its settings and its
    prompts file clears before it logs, whether [--clear] is given or
    not: the query and the deletions come before the first request to
    create a row. The query is for the rows of the project, and for
    every row of the table when the project name is empty. The run ends
    with exit code 0, or with the [KeyError] of the summary. *)
Theorem logger_clears_before_it_logs (a : LogToAirtable.args)
    (w : LogToAirtable.world) (prompts : list CreatePrompts.prompt) :
  LogToAirtable.load_config (LogToAirtable.environ w) <> None ->
  LogToAirtable.prompts_file w (LogToAirtable.prompts a) = Some prompts ->
  (exists cleared said rest,
      fst (LogToAirtable.main a w) = (cleared ++ said)%list
      /\ cleared
         = LogToAirtable.TableAll
             (if Py.truthy (LogToAirtable.project_name a)
              then Some (Airtable.project_formula
                           (LogToAirtable.project_name a))
              else None) :: rest
      /\ List.filter LogToAirtable.creates cleared = []
      /\ List.filter LogToAirtable.clears said = []
      /\ List.filter LogToAirtable.creates said
         = map (fun prompt =>
                  LogToAirtable.TableCreate
                    (LogToAirtable.record_of
                       (LogToAirtable.project_name a) prompt)) prompts)
  /\ (snd (LogToAirtable.main a w) = Effects.Exit 0
      \/ exists e, snd (LogToAirtable.main a w) = Effects.Uncaught e
                   /\ exn_type e = KeyError).
Proof.
  intros Hconfig Hfile. unfold LogToAirtable.main.
  destruct (LogToAirtable.load_config _) as [config|]; [|congruence].
  rewrite Hfile.
  assert (Hclear : LogToAirtable.clear a = true)
    by (unfold LogToAirtable.clear; now destruct (LogToAirtable.clear_given a)).
  rewrite Hclear.
  destruct (clear_starts_with_query w (Some (LogToAirtable.project_name a)))
    as (rest & Hq).
  pose proof (clear_creates_nothing w (Some (LogToAirtable.project_name a)))
    as Hnc.
  destruct (log_each_requests w (LogToAirtable.project_name a) prompts 0 [])
    as (Hc & Hcl & _).
  fold (LogToAirtable.log_prompts_to_airtable w prompts
          (LogToAirtable.project_name a)) in *.
  destruct (LogToAirtable.log_prompts_to_airtable w prompts _)
    as [said records].
  cbn [fst snd] in *.
  destruct (LogToAirtable.display_summary records) as [e|] eqn:Es.
  - split.
    + exists (LogToAirtable.clear_existing_records w
                (Some (LogToAirtable.project_name a))), said, rest.
      cbn [fst]. split; [reflexivity|]. split; [exact Hq|].
      split; [exact Hnc|]. split; [exact Hcl | exact Hc].
    + right. exists e. split; [reflexivity|].
      eapply display_summary_raises. exact Es.
  - split; [|now left].
    exists (LogToAirtable.clear_existing_records w
              (Some (LogToAirtable.project_name a))),
           (said ++ [LogToAirtable.Summary (length records)])%list, rest.
    cbn [fst]. split; [reflexivity|]. split; [exact Hq|].
    split; [exact Hnc|].
    rewrite !List.filter_app, Hcl, Hc. simpl. rewrite app_nil_r.
    split; reflexivity.
Qed.

Lemma logger_clears_before_it_logs_witness :
  fst (LogToAirtable.main Desk.logger_args (Desk.store Desk.rows))
  = (LogToAirtable.clear_existing_records (Desk.store Desk.rows)
       (Some "Creative Cloner Project")
     ++ fst (LogToAirtable.log_prompts_to_airtable (Desk.store Desk.rows)
               (CreatePrompts.create_prompts Desk.analysis "A red robot")
               "Creative Cloner Project")
     ++ [LogToAirtable.Summary 1])%list
  /\ (snd (LogToAirtable.main Desk.logger_args (Desk.store Desk.rows))
      = Effects.Exit 0
      \/ exists e,
           snd (LogToAirtable.main Desk.logger_args (Desk.store Desk.rows))
           = Effects.Uncaught e
           /\ exn_type e = KeyError).
Proof.
  split; [vm_compute; reflexivity|].
  apply (logger_clears_before_it_logs Desk.logger_args (Desk.store Desk.rows)
           (CreatePrompts.create_prompts Desk.analysis "A red robot")).
  - vm_compute. discriminate.
  - reflexivity.
Defined.

(** ** From the prompts to the provider *)

Section Ready.

Import CreatePrompts.





End Ready.



(** ** The analysis tool *)

Section Waiting.

Import AnalyzeVideo.

Variable w : world.

(** The sleeps and requests of [k] turns of the waiting loop. *)
Lemma wait_ends (k : nat) :
  forall fuel j,
    (forall i, (j <= i < j + k)%nat -> state_after w i = PROCESSING) ->
    state_after w (j + k) <> PROCESSING ->
    (k < fuel)%nat ->
    wait w fuel j = Some (concat (repeat [Sleep 2; FilesGet] k), (j + k)%nat).
Proof.
  induction k as [|k IH]; intros fuel j Hbefore Hthen Hfuel.
  - destruct fuel as [|fuel]; [lia|]. rewrite Nat.add_0_r in *.
    cbn [wait]. destruct (state_after w j); try reflexivity. congruence.
  - destruct fuel as [|fuel]; [lia|]. cbn [wait].
    rewrite (Hbefore j) by lia. cbn [processing].
    rewrite (IH fuel (S j)).
    + replace (j + S k)%nat with (S j + k)%nat by lia. reflexivity.
    + intros i Hi. apply Hbefore. lia.
    + now replace (S j + k)%nat with (j + S k)%nat by lia.
    + lia.
Qed.

Lemma wait_stuck (fuel : nat) :
  (forall k, state_after w k = PROCESSING) -> forall j, wait w fuel j = None.
Proof.
  intros Hstuck. induction fuel as [|fuel IH]; intros j; [reflexivity|].
  cbn [wait]. now rewrite Hstuck, IH.
Qed.

End Waiting.

(** X25: the wait for the processing of an uploaded video has no time
    limit. When reply [k] is the first whose state is not [PROCESSING],
    [upload_video] ends after exactly [k] sleeps of two seconds, with
    [sys.exit(1)] when that state is [FAILED] and with the file
    otherwise; while the state stays [PROCESSING] it never ends. *)
Theorem upload_wait_has_no_time_limit (w : AnalyzeVideo.world)
    (video_path : string) :
  AnalyzeVideo.video_exists w = true ->
  (forall k fuel,
      (forall i, (i < k)%nat ->
                 AnalyzeVideo.state_after w i = AnalyzeVideo.PROCESSING) ->
      AnalyzeVideo.state_after w k <> AnalyzeVideo.PROCESSING ->
      (k < fuel)%nat ->
      exists mime_type,
        AnalyzeVideo.upload_video w fuel video_path
        = Some (AnalyzeVideo.Upload video_path mime_type
                  :: concat (repeat [AnalyzeVideo.Sleep 2;
                                     AnalyzeVideo.FilesGet] k),
                match AnalyzeVideo.state_after w k with
                | AnalyzeVideo.FAILED => AnalyzeVideo.Exited 1
                | _ => AnalyzeVideo.Processed k
                end))
  /\ ((forall k, AnalyzeVideo.state_after w k = AnalyzeVideo.PROCESSING) ->
      forall fuel, AnalyzeVideo.upload_video w fuel video_path = None).
Proof.
  intros Hexists. unfold AnalyzeVideo.upload_video. rewrite Hexists.
  cbn [negb]. split.
  - intros k fuel Hbefore Hthen Hfuel.
    rewrite (wait_ends w k fuel 0); [eauto | | exact Hthen | exact Hfuel].
    intros i Hi. apply Hbefore. lia.
  - intros Hstuck fuel. now rewrite wait_stuck.
Qed.

Lemma upload_wait_has_no_time_limit_witness :
  (exists mime_type,
      AnalyzeVideo.upload_video Desk.slow_upload 10 "inputs/clip.mp4"
      = Some (AnalyzeVideo.Upload "inputs/clip.mp4" mime_type
                :: concat (repeat [AnalyzeVideo.Sleep 2;
                                   AnalyzeVideo.FilesGet] 3),
              AnalyzeVideo.Processed 3))
  /\ forall fuel,
       AnalyzeVideo.upload_video Desk.stuck_upload fuel "inputs/clip.mp4"
       = None.
Proof.
  split.
  - destruct (upload_wait_has_no_time_limit Desk.slow_upload "inputs/clip.mp4"
                eq_refl) as (Hends & _).
    apply (Hends 3%nat 10%nat); [|discriminate | lia].
    intros i Hi. simpl. destruct (Nat.ltb_spec i 3); [reflexivity | lia].
  - destruct (upload_wait_has_no_time_limit Desk.stuck_upload "inputs/clip.mp4"
                eq_refl) as (_ & Hstuck).
    apply Hstuck. reflexivity.
Defined.

Section Parsing.

Import AnalyzeVideo.

Lemma append_empty (s : string) : s ++ "" = s.
Proof. induction s as [|c s IH]; [reflexivity|]. simpl. now rewrite IH. Qed.

Lemma after_prefix (p s rest : string) :
  after p s = Some rest -> s = p ++ rest.
Proof.
  revert s. induction p as [|a p IH]; intros s; simpl.
  - now intros [= ->].
  - destruct s as [|b s]; [discriminate|].
    destruct (Ascii.eqb_spec a b) as [-> | _]; [|discriminate].
    intros H. now rewrite (IH s H).
Qed.

Lemma after_is_prefix (p s rest : string) :
  after p s = Some rest -> String.prefix p s = true.
Proof.
  revert s. induction p as [|a p IH]; intros s.
  - intros _. now destruct s.
  - destruct s as [|b s]; [discriminate|]. cbn [after String.prefix].
    destruct (Ascii.eqb_spec a b) as [-> | _]; [|discriminate].
    destruct (ascii_dec b b); [apply IH | congruence].
Qed.

Lemma contains_here (needle hay : string) :
  String.prefix needle hay = true -> Py.contains needle hay = true.
Proof. intros H. destruct hay; cbn [Py.contains]; now rewrite H. Qed.

Lemma contains_later (needle hay : string) (c : ascii) :
  Py.contains needle hay = true -> Py.contains needle (String c hay) = true.
Proof. intros H. cbn [Py.contains]. rewrite H. apply orb_true_r. Qed.

Lemma opening_marked (s rest : string) :
  opening s = Some rest ->
  Py.contains "```yaml" s || Py.contains "```yml" s = true.
Proof.
  unfold opening. destruct (after "```yaml" s) as [r1|] eqn:E1.
  - intros _. apply after_is_prefix, contains_here in E1. now rewrite E1.
  - destruct (after "```yml" s) as [r2|] eqn:E2; [|discriminate].
    intros _. apply after_is_prefix, contains_here in E2. rewrite E2.
    apply orb_true_r.
Qed.

Lemma search_marked (text group : string) :
  search text = Some group ->
  Py.contains "```yaml" text || Py.contains "```yml" text = true.
Proof.
  induction text as [|c text IH]; cbn [search].
  - destruct (opening "") as [rest|] eqn:Eo; [|discriminate].
    intros _. now apply opening_marked in Eo.
  - destruct (opening (String c text)) as [rest|] eqn:Eo.
    + intros _. now apply opening_marked in Eo.
    + intros H. apply IH in H. apply orb_true_iff in H.
      apply orb_true_iff. destruct H as [H | H]; [left | right];
        now apply contains_later.
Qed.

Lemma opening_suffix (s rest : string) :
  opening s = Some rest -> exists before, s = before ++ rest.
Proof.
  unfold opening.
  destruct (after "```yaml" s) as [r1|] eqn:E1.
  - intros E2. apply after_prefix in E1, E2. subst.
    exists ("```yaml" ++ nl). now rewrite append_assoc.
  - destruct (after "```yml" s) as [r2|] eqn:E3; [|discriminate].
    intros E2. apply after_prefix in E3, E2. subst.
    exists ("```yml" ++ nl). now rewrite append_assoc.
Qed.

Lemma until_fence_prefix (s group : string) :
  until_fence s = Some group -> exists rest, s = group ++ rest.
Proof.
  revert group. induction s as [|c s IH]; intros group.
  - simpl. discriminate.
  - cbn [until_fence].
    assert (Hrec : option_map (String c) (until_fence s) = Some group ->
                   exists rest, String c s = group ++ rest).
    { destruct (until_fence s) as [g|]; [|discriminate].
      intros [= <-]. destruct (IH g eq_refl) as (rest & ->). now exists rest. }
    destruct (after nl (String c s)) as [t|]; [|exact Hrec].
    destruct t as [|x1 t]; [exact Hrec|].
    destruct x1 as [[] [] [] [] [] [] [] []]; try exact Hrec.
    destruct t as [|x2 t]; [exact Hrec|].
    destruct x2 as [[] [] [] [] [] [] [] []]; try exact Hrec.
    destruct t as [|x3 t]; [exact Hrec|].
    destruct x3 as [[] [] [] [] [] [] [] []]; try exact Hrec.
    intros [= <-]. now exists (String c s).
Qed.

Lemma search_substring (text group : string) :
  search text = Some group -> CreatePrompts.substring group text.
Proof.
  induction text as [|c text IH].
  - cbn [search]. destruct (opening "") as [rest|] eqn:Eo; [|discriminate].
    destruct (until_fence rest) as [g|] eqn:Eg; [|discriminate].
    intros [= <-]. apply opening_suffix in Eo. destruct Eo as (before & ->).
    apply until_fence_prefix in Eg. destruct Eg as (tail & ->).
    now exists before, tail.
  - cbn [search].
    destruct (match opening (String c text) with
              | Some rest => until_fence rest
              | None => None
              end) as [g|] eqn:E.
    + intros [= <-].
      destruct (opening (String c text)) as [rest|] eqn:Eo; [|discriminate].
      apply opening_suffix in Eo. destruct Eo as (before & ->).
      apply until_fence_prefix in E. destruct E as (tail & ->).
      now exists before, tail.
    + intros H. apply substring_cons. now apply IH.
Qed.

Lemma from_first_suffix (marker text tail : string) :
  from_first marker text = Some tail -> CreatePrompts.substring tail text.
Proof.
  induction text as [|c text IH]; cbn [from_first].
  - destruct (String.prefix marker ""); [|discriminate].
    intros [= <-]. now exists "", "".
  - destruct (String.prefix marker (String c text)).
    + intros [= <-]. exists "", "". simpl. now rewrite append_empty.
    + intros H. apply substring_cons. now apply IH.
Qed.

Lemma lstrip_suffix (s : string) : exists before, s = before ++ Py.lstrip s.
Proof.
  induction s as [|c s (before & IH)]; [now exists ""|].
  simpl. destruct (Py.isspace c).
  - exists (String c before). simpl. now rewrite <- IH.
  - now exists "".
Qed.

Lemma rstrip_prefix (s : string) : exists rest, s = Py.rstrip s ++ rest.
Proof.
  induction s as [|c s (rest & IH)]; [now exists ""|].
  simpl. destruct (Py.rstrip s) as [|d r] eqn:E.
  - destruct (Py.isspace c).
    + now exists (String c s).
    + exists s. reflexivity.
  - exists rest. simpl. simpl in IH. now rewrite <- IH.
Qed.

Lemma strip_substring (s : string) : CreatePrompts.substring (Py.strip s) s.
Proof.
  unfold Py.strip. destruct (lstrip_suffix s) as (before & Hb).
  destruct (rstrip_prefix (Py.lstrip s)) as (rest & Hr).
  exists before, rest. now rewrite <- Hr.
Qed.

Lemma substring_trans (a b c : string) :
  CreatePrompts.substring a b -> CreatePrompts.substring b c ->
  CreatePrompts.substring a c.
Proof.
  intros (p1 & q1 & ->) (p2 & q2 & ->).
  exists (p2 ++ p1), (q1 ++ q2). now rewrite !append_assoc.
Qed.

End Parsing.

(** X26: [parse_to_yaml] invents nothing. Whatever [yaml.safe_load]
    accepts and whatever the text, it returns the wrapper around the
    raw analysis, or a piece of the analysis text as it stands that
    [yaml.safe_load] has accepted; a text with a fenced block that
    loads gives the block, stripped. *)
Theorem parse_to_yaml_returns_checked_text (yaml_error : string -> bool)
    (dump_raw : string -> string) (analysis_text : string) :
  let out := AnalyzeVideo.parse_to_yaml yaml_error dump_raw analysis_text in
  (out = dump_raw analysis_text
   \/ (yaml_error out = false
       /\ CreatePrompts.substring out analysis_text))
  /\ (forall group,
        AnalyzeVideo.search analysis_text = Some group ->
        yaml_error (Py.strip group) = false ->
        out = Py.strip group).
Proof.
  intros out. unfold out, AnalyzeVideo.parse_to_yaml.
  split.
  - destruct (AnalyzeVideo.fenced yaml_error analysis_text) as [y|] eqn:Ef.
    + right. unfold AnalyzeVideo.fenced in Ef.
      destruct (_ || _); [|discriminate].
      destruct (AnalyzeVideo.search analysis_text) as [g|] eqn:Es;
        [|discriminate].
      destruct (yaml_error (Py.strip g)) eqn:Ey; [discriminate|].
      injection Ef as <-. split; [exact Ey|].
      eapply substring_trans; [apply strip_substring|].
      now apply search_substring.
    + destruct (AnalyzeVideo.bare yaml_error analysis_text) as [y|] eqn:Eb;
        [|now left].
      right. unfold AnalyzeVideo.bare in Eb.
      destruct (_ || _); [|discriminate].
      destruct (AnalyzeVideo.from_first "---" analysis_text) as [t|] eqn:Et.
      * destruct (yaml_error t) eqn:Ey; [discriminate|].
        injection Eb as <-. split; [exact Ey|].
        now apply from_first_suffix in Et.
      * destruct (yaml_error analysis_text) eqn:Ey; [discriminate|].
        injection Eb as <-. split; [exact Ey|].
        exists "", "". simpl. now rewrite append_empty.
  - intros group Hs Hy. unfold AnalyzeVideo.fenced. rewrite Hs, Hy.
    now rewrite (search_marked analysis_text group Hs).
Qed.

(** ** What truncation keeps *)

Section Kept.

Import Sentences.

Lemma split_not_nil (s : string) : Py.split "." s <> [].
Proof.
  destruct s as [|c s]; simpl; [discriminate|].
  destruct (Ascii.eqb c "."); [discriminate|].
  destruct (Py.split "." s); discriminate.
Qed.

Lemma join_cons_char (c : ascii) (piece : string) (rest : list string) :
  join (String c piece :: rest) = String c (join (piece :: rest)).
Proof. now destruct rest. Qed.

(** Splitting at the full stops and joining with full stops gives the
    text back. *)
Lemma join_split (s : string) : join (Py.split "." s) = s.
Proof.
  induction s as [|c s IH]; [reflexivity|].
  cbn [Py.split]. destruct (Ascii.eqb_spec c ".") as [-> | _].
  - destruct (Py.split "." s) as [|p ps] eqn:E; [now apply split_not_nil in E|].
    cbn [join]. now rewrite <- IH.
  - destruct (Py.split "." s) as [|p ps] eqn:E; [now apply split_not_nil in E|].
    now rewrite join_cons_char, IH.
Qed.

Lemma closed_len (pieces : list string) :
  pieces <> [] -> Py.len (closed pieces) = (Py.len (join pieces) + 1)%Z.
Proof.
  induction pieces as [|piece rest IH]; [congruence|]. intros _.
  destruct rest as [|next rest].
  - cbn [closed join]. rewrite !len_append. reflexivity.
  - change (closed (piece :: next :: rest))
      with (piece ++ "." ++ closed (next :: rest)).
    change (join (piece :: next :: rest))
      with (piece ++ "." ++ join (next :: rest)).
    rewrite !len_append, IH by discriminate. lia.
Qed.

Lemma closed_ends (pieces : list string) :
  pieces <> [] -> exists kept, closed pieces = kept ++ ".".
Proof.
  induction pieces as [|piece rest IH]; [congruence|]. intros _.
  destruct rest as [|next rest].
  - exists piece. reflexivity.
  - destruct IH as (kept & E); [discriminate|].
    exists (piece ++ "." ++ kept). cbn [closed] in *. rewrite E.
    now rewrite !append_assoc.
Qed.

(** The pieces before the [k]-th, closed, start the joined text. *)
Lemma join_firstn (k : nat) (pieces : list string) :
  (k < length pieces)%nat ->
  join pieces = closed (firstn k pieces) ++ join (skipn k pieces).
Proof.
  revert pieces. induction k as [|k IH]; intros pieces Hk; [reflexivity|].
  destruct pieces as [|piece [|next rest]]; simpl in Hk; try lia.
  change (join (piece :: next :: rest))
    with (piece ++ "." ++ join (next :: rest)).
  rewrite (IH (next :: rest)) by (simpl; lia).
  cbn [firstn skipn closed]. now rewrite !append_assoc.
Qed.

(** The loop keeps the first pieces, each with its full stop. *)
Lemma accumulate_closed (sentences : list string) (max_length : Z) :
  forall truncated,
  exists k,
    (k <= length sentences)%nat
    /\ Truncate.accumulate sentences truncated max_length
       = truncated ++ closed (firstn k sentences).
Proof.
  induction sentences as [|sentence rest IH]; intros truncated.
  - exists 0%nat. simpl. split; [lia|]. clear.
    induction truncated as [|c t IH]; [reflexivity|]. simpl. now rewrite <- IH.
  - cbn [Truncate.accumulate].
    destruct (_ <=? _)%Z.
    + destruct (IH (truncated ++ sentence ++ ".")) as (k & Hk & ->).
      exists (S k). split; [simpl; lia|].
      cbn [firstn closed]. now rewrite !append_assoc.
    + exists 0%nat. split; [lia|]. cbn [firstn closed]. clear.
      induction truncated as [|c t IH]; [reflexivity|]. simpl. now rewrite <- IH.
Qed.

End Kept.

(** X27: a prompt longer than the limit is cut at one of its own full
    stops or cut hard: the result is the first [max_length - 3]
    characters followed by an ellipsis, or the prompt up to and with
    one of its full stops, at least 50 characters and at most
    [max_length - 50], in both cases stripped of outer white space. No
    sentence is joined to a text that did not precede it. *)
Theorem truncate_prompt_ends_on_a_sentence (prompt : string) (max_length : Z) :
  (max_length < Py.len prompt)%Z ->
  let out := Truncate.truncate_prompt prompt max_length in
  out = Py.strip (Py.slice_to prompt (max_length - 3) ++ "...")
  \/ exists kept rest,
       prompt = (kept ++ ".") ++ rest
       /\ out = Py.strip (kept ++ ".")
       /\ (50 <= Py.len (kept ++ ".") <= max_length - 50)%Z.
Proof.
  intros Hlong out. unfold out, Truncate.truncate_prompt.
  destruct (Z.leb_spec (Py.len prompt) max_length); [lia|].
  set (pieces := Py.split "." prompt).
  set (acc := Truncate.accumulate pieces "" max_length).
  destruct (negb (Py.truthy acc) || (Py.len acc <? 50)%Z) eqn:E; [now left|].
  right. apply orb_false_iff in E. destruct E as (Hne & H50).
  apply negb_false_iff in Hne. apply Z.ltb_ge in H50.
  destruct (accumulate_closed pieces max_length "") as (k & Hk & Hacc).
  fold acc in Hacc. cbn [String.append] in Hacc.
  assert (Hbound : (Py.len acc <= max_length - 50)%Z).
  { destruct (accumulate_bound pieces "" max_length) as [Hsame | Hb];
      fold acc in Hsame || fold acc in Hb; [|exact Hb].
    rewrite Hsame in Hne. discriminate Hne. }
  assert (Hpieces : pieces <> []) by apply split_not_nil.
  assert (Hlt : (k < length pieces)%nat).
  { destruct (Nat.eq_dec k (length pieces)) as [-> | Hd]; [|lia].
    rewrite firstn_all in Hacc.
    pose proof (closed_len pieces Hpieces) as Hl.
    unfold pieces in Hl at 2. rewrite join_split, <- Hacc in Hl. lia. }
  assert (Hk0 : firstn k pieces <> []).
  { intros Hnil. rewrite Hnil in Hacc. simpl in Hacc. rewrite Hacc in Hne.
    discriminate Hne. }
  destruct (closed_ends (firstn k pieces) Hk0) as (kept & Hkept).
  exists kept, (Sentences.join (skipn k pieces)).
  rewrite <- Hkept, <- Hacc.
  split; [|split; [reflexivity | lia]].
  rewrite Hacc, <- join_firstn by exact Hlt.
  unfold pieces. now rewrite join_split.
Qed.

Lemma truncate_prompt_ends_on_a_sentence_witness :
  let prompt :=
    "A red robot stands in a bright kitchen and waves at the camera. "
    ++ "It bows, turns around and walks to the window while the light fades" in
  let out := Truncate.truncate_prompt prompt 120 in
  out = Py.strip (Py.slice_to prompt (120 - 3) ++ "...")
  \/ exists kept rest,
       prompt = (kept ++ ".") ++ rest
       /\ out = Py.strip (kept ++ ".")
       /\ (50 <= Py.len (kept ++ ".") <= 120 - 50)%Z.
Proof.
  apply (truncate_prompt_ends_on_a_sentence
           ("A red robot stands in a bright kitchen and waves at the camera. "
            ++ "It bows, turns around and walks to the window while the light fades")
           120).
  vm_compute. reflexivity.
Defined.
